(** * nofx: the three-layer trading pipeline (package [layers] and its
    sub-packages [data_layer], [ai_layer], [execution_layer]).

    A shallow embedding of the Go sources, followed by the properties of
    the specification that are settled against it.

    Conventions of the embedding.
    - [float64] values are exact rationals ([Q]): comparisons and the
      arithmetic of the source are kept, IEEE rounding, infinities and NaN
      are outside the model. The properties of computed values are
      therefore stated so that they hold of the rounded arithmetic as
      well: a threshold on a computed quotient is decided only at a
      distance of [tolerance] (one millionth) from it, a computed value is
      located within [tolerance] of its formula for operands of [ordinary]
      magnitude (between 10^-100 and 10^100, where float64 neither
      overflows nor loses precision), and a quotient is read only where
      its divisor is not zero. Comparisons of stored values are exact.
    - Go's [int] is a 64-bit two's-complement integer: a [Z] together with
      [int_wrap] at every [++] and [+] of the source. The conversions
      [float64(n)] and [int(x)] between [int] and [float64] are exact on
      integers: [round53] and [int_of_float64].
    - [string] is a byte string, as in Go: [String.length] is [len],
      [substring] is slicing.
    - A pointer that the source tests against [nil] is an [option].
    - A Go function returning [(v, err)] returns a pair whose second
      component is [option string] ([None] is a nil error).
    - A run-time panic (failed type assertion, slice out of range, nil
      dereference) is the outcome [Panics].
    - [fmt.Printf] only writes to the console and is left out.
    - Library functions whose code is not part of the repository
      ([fmt]'s number formatting, [encoding/json]) are fields of a
      [Runtime] record; the exchange, the language-model client and the
      wall clock are fields of a per-cycle [Env] record. *)

From Stdlib Require Import ZArith QArith Qabs String Ascii List Bool Lia Lqa.
From stdpp Require Import gmap strings.

Local Open Scope Z_scope.

(** ** Numbers *)

Definition float64 : Type := Q.

Definition Qltb (x y : Q) : bool := negb (Qle_bool y x).
Definition Qleb (x y : Q) : bool := Qle_bool x y.
Definition Qgtb (x y : Q) : bool := Qltb y x.
Definition Qgeb (x y : Q) : bool := Qle_bool y x.

Notation "x <? y" := (Qltb x y) : Q_scope.
Notation "x <=? y" := (Qleb x y) : Q_scope.
Notation "x >? y" := (Qgtb x y) : Q_scope.
Notation "x >=? y" := (Qgeb x y) : Q_scope.

(** The integer nearest to [n] among those a float64 represents: [n]
    itself below 2^53 in magnitude, and beyond that [n] rounded to 53
    significant bits, a tie going to the even significand. *)
Definition round53 (n : Z) : Z :=
  let a := Z.abs n in
  if a <? 2 ^ 53 then n
  else
    let e := Z.log2 a - 52 in
    let q := a / 2 ^ e in
    let r := a mod 2 ^ e in
    let half := 2 ^ (e - 1) in
    let q :=
      if r <? half then q
      else if half <? r then q + 1
      else if Z.even q then q else q + 1 in
    Z.sgn n * (q * 2 ^ e).

(** [float64(n)] for an [int]. *)
Definition float64_of_int (n : Z) : Q := inject_Z (round53 n).

(** [int(x)] for a float64 [x] that holds an integer. The language leaves
    the result open when [x] is outside the range of [int]; it is taken as
    on amd64, where the conversion yields the least [int]. *)
Definition int_of_float64 (x : Z) : Z :=
  if (x <? - 2 ^ 63) || (2 ^ 63 <=? x) then - 2 ^ 63 else x.

(** Two's-complement wrap-around of a 64-bit [int]. *)
Definition int_wrap (z : Z) : Z := (z + 2 ^ 63) mod 2 ^ 64 - 2 ^ 63.

(** [n++] and [n + 1] on an [int]. *)
Definition int_succ (n : Z) : Z := int_wrap (n + 1).

(** [int(math.Max(1, float64(n) - k))] for an [int] [n] and a small
    constant [k]: the conversion rounds [n], the subtraction rounds the
    difference, and the result is cut back to an [int]. Up to 2^53 this
    is [Z.max 1 (n - k)]; beyond, the rounding shows: 2^53 + 2 less 1 is
    2^53. *)
Definition int_max1_sub (n k : Z) : Z :=
  int_of_float64 (Z.max 1 (round53 (round53 n - k))).

(** ** Outcomes *)

Inductive exec (A : Type) : Type :=
| Returns (a : A)
| Panics.
Arguments Returns {A} a.
Arguments Panics {A}.

Definition error : Type := option string.

(** ** Dynamic values: Go's [interface{}] as stored in
    [map[string]interface{}]. *)

Inductive Value : Type :=
| VString (s : string)
| VFloat (x : Q)
| VInt (n : Z)
| VBool (b : bool).

(** ** Library functions taken as parameters. *)

Record Runtime : Type := {
  (** [fmt]'s verb [%.Nf] at precision [N] *)
  fmt_f : nat -> Q -> string;
  (** [fmt]'s verb [%d] *)
  fmt_d : Z -> string;
  (** [json.Unmarshal] into [struct{Condition, Reason string}]; [None]
      when it returns an error *)
  json_condition : string -> option (string * string);
  (** [json.Unmarshal] into [struct{Opportunity, Reason string}] *)
  json_opportunity : string -> option (string * string);
  (** [json.Unmarshal] into
      [struct{Direction string; Confidence float64; Reasoning string}] *)
  json_decision : string -> option (string * Q * string)
}.

(** ** Package [market] *)

Module market.

(** Modelled from the spec: the declaration of [market.Data] and of the
    three structs it points to is not among the sources; the fields are
    those the data processor and the tests read and write. *)
Record OIData : Type := {
  Latest : Q;
  Average : Q
}.

Record IntradayData : Type := {
  MidPrices : list Q;
  EMA20Values : list Q;
  MACDValues : list Q;
  RSI7Values : list Q;
  RSI14Values : list Q
}.

Record LongerTermData : Type := {
  EMA20 : Q;
  EMA50 : Q;
  ATR3 : Q;
  ATR14 : Q;
  CurrentVolume : Q;
  AverageVolume : Q
}.

Record Data : Type := {
  Symbol : string;
  CurrentPrice : Q;
  PriceChange1h : Q;
  PriceChange4h : Q;
  CurrentEMA20 : Q;
  CurrentMACD : Q;
  CurrentRSI7 : Q;
  FundingRate : Q;
  OpenInterest : option OIData;
  IntradaySeries : option IntradayData;
  LongerTermContext : option LongerTermData
}.

End market.

(** ** Package [layers]: [types.go] *)

(** [MarketCondition], [TradingOpportunity] and [Direction] are string
    types in the source, with the constants below. *)
Definition MarketCondition : Type := string.
Definition MarketTrending : MarketCondition := "trending".
Definition MarketRanging : MarketCondition := "ranging".
Definition MarketVolatile : MarketCondition := "volatile".
Definition MarketConsolidate : MarketCondition := "consolidate".
Definition MarketBreakout : MarketCondition := "breakout".

Definition TradingOpportunity : Type := string.
Definition OpportunityLongEntry : TradingOpportunity := "long_entry".
Definition OpportunityShortEntry : TradingOpportunity := "short_entry".
Definition OpportunityLongExit : TradingOpportunity := "long_exit".
Definition OpportunityShortExit : TradingOpportunity := "short_exit".
Definition OpportunityScalp : TradingOpportunity := "scalp".
Definition OpportunityNone : TradingOpportunity := "none".

Definition Direction : Type := string.
Definition DirectionLong : Direction := "long".
Definition DirectionShort : Direction := "short".
Definition DirectionWait : Direction := "wait".

Module CleanedMarketData.
Record t : Type := {
  Symbol : string;
  Timestamp : Z;
  CurrentPrice : Q;
  PriceChange1h : Q;
  PriceChange4h : Q;
  PriceChange24h : Q;
  EMA20 : Q;
  EMA50 : Q;
  MACD : Q;
  MACDSignal : Q;
  RSI7 : Q;
  RSI14 : Q;
  ATR : Q;
  Volume24h : Q;
  VolumeChange : Q;
  OpenInterest : Q;
  OIChange : Q;
  FundingRate : Q;
  LongShortRatio : Q;
  TopTraderRatio : Q;
  DataQuality : Q;
  IsValid : bool;
  CompressedSummary : string
}.
End CleanedMarketData.

Module RiskMetrics.
Record t : Type := {
  Symbol : string;
  MaxPositionSizeUSD : Q;
  RecommendedLeverage : Z;
  StopLossPrice : Q;
  TakeProfitPrice : Q;
  MaxLossUSD : Q;
  RequiredMargin : Q;
  MarginUsagePercent : Q;
  RiskLevel : string;
  CanTrade : bool;
  RiskReason : string
}.
End RiskMetrics.

Module AIDecision.
Record t : Type := {
  Symbol : string;
  Timestamp : Z;
  MarketCondition : MarketCondition;
  ConditionReason : string;
  Opportunity : TradingOpportunity;
  OpportunityReason : string;
  Direction : Direction;
  Confidence : Q;
  ChainOfThought : string;
  ModelUsed : string;
  ResponseTimeMs : Z
}.
End AIDecision.

Module ExecutionPlan.
Record t : Type := {
  Symbol : string;
  Timestamp : Z;
  Action : string;
  Quantity : Q;
  QuantityUSD : Q;
  Leverage : Z;
  StopLoss : Q;
  TakeProfit : Q;
  MaxSlippagePercent : Q;
  TimeoutSeconds : Z;
  RiskCheckPassed : bool;
  RiskCheckReason : string;
  Priority : string;
  SourceDecision : option AIDecision.t
}.
End ExecutionPlan.

Module OrderResult.
Record t : Type := {
  Success : bool;
  OrderID : string;
  FilledQuantity : Q;
  AvgPrice : Q;
  ExecutionTimeMs : Z;
  ErrorMessage : string;
  Timestamp : Z
}.
End OrderResult.

Module DataLayerConfig.
Record t : Type := {
  DataSources : list string;
  MinDataQuality : Q;
  MaxAccountRiskPercent : Q;
  MaxSingleTradeRiskPercent : Q;
  DefaultLeverage : Z;
  MaxLeverage : Z;
  CircuitBreakerEnabled : bool;
  MaxDailyLossPercent : Q;
  MaxConsecutiveLosses : Z
}.
End DataLayerConfig.

Module AILayerConfig.
Record t : Type := {
  Provider : string;
  Model : string;
  APIKey : string;
  BaseURL : string;
  MinConfidence : Q;
  EnableChainOfThought : bool;
  MaxPromptLength : Z;
  MaxDecisionsPerHour : Z;
  CooldownMinutes : Z
}.
End AILayerConfig.

Module ExecutionLayerConfig.
Record t : Type := {
  EnableSecondaryRiskCheck : bool;
  MaxSlippagePercent : Q;
  OrderTimeoutSeconds : Z;
  EnablePositionSizing : bool;
  PositionSizingMethod : string;
  DryRun : bool;
  RequireManualConfirmation : bool
}.
End ExecutionLayerConfig.

Module LayerConfig.
Record t : Type := {
  DataLayer : DataLayerConfig.t;
  AILayer : AILayerConfig.t;
  ExecutionLayer : ExecutionLayerConfig.t
}.
End LayerConfig.

(** ** Package [data_layer]: the data processor *)

Module DataProcessor.
Import CleanedMarketData.

Record t : Type := { config : DataLayerConfig.t }.

Definition NewDataProcessor (config : DataLayerConfig.t) : t :=
  {| config := config |}.

Definition calculatePriceChange24h (data : market.Data) : Q :=
  match market.IntradaySeries data with
  | Some s =>
      match market.MidPrices s with
      | first :: _ =>
          if (first >? 0)%Q
          then ((market.CurrentPrice data - first) / first * 100)%Q
          else 0%Q
      | [] => 0%Q
      end
  | None => 0%Q
  end.

Definition calculateVolumeChange (data : market.Data) : Q :=
  match market.LongerTermContext data with
  | Some c =>
      let current := market.CurrentVolume c in
      let avg := market.AverageVolume c in
      if (avg >? 0)%Q then ((current - avg) / avg * 100)%Q else 0%Q
  | None => 0%Q
  end.

Definition calculateOIChange (data : market.Data) : Q :=
  match market.OpenInterest data with
  | Some oi =>
      let latest := market.Latest oi in
      let avg := market.Average oi in
      if (avg >? 0)%Q then ((latest - avg) / avg * 100)%Q else 0%Q
  | None => 0%Q
  end.

(** The loop [for i := len-9; i < len; i++ { sum += macdValues[i] }]. *)
Definition sum_last9 (macdValues : list Q) : Q :=
  fold_left Qplus (skipn (List.length macdValues - 9) macdValues) 0%Q.

Definition calculateMACDSignal (data : market.Data) : Q :=
  match market.IntradaySeries data with
  | Some s =>
      if (9 <=? List.length (market.MACDValues s))%nat
      then (sum_last9 (market.MACDValues s) / 9)%Q
      else (market.CurrentMACD data * 0.9)%Q
  | None => (market.CurrentMACD data * 0.9)%Q
  end.

Definition calculateRSI14 (data : market.Data) : Q :=
  match market.IntradaySeries data with
  | Some s =>
      match market.RSI14Values s with
      | [] => market.CurrentRSI7 data
      | v :: vs => List.last vs v
      end
  | None => market.CurrentRSI7 data
  end.

Definition assessDataQuality (data : market.Data) : Q :=
  let quality := 1%Q in
  let quality :=
    if (market.CurrentPrice data <=? 0)%Q then (quality - 0.5)%Q else quality in
  let quality :=
    if (market.CurrentEMA20 data <=? 0)%Q then (quality - 0.1)%Q else quality in
  let quality :=
    if (market.CurrentRSI7 data <=? 0)%Q || (market.CurrentRSI7 data >? 100)%Q
    then (quality - 0.1)%Q else quality in
  let quality :=
    if match market.IntradaySeries data with
       | None => true
       | Some s => (List.length (market.MidPrices s) <? 10)%nat
       end
    then (quality - 0.2)%Q else quality in
  if (quality <? 0)%Q then 0%Q else quality.

Section WithRuntime.
Context (R : Runtime).

(** The [fmt.Sprintf] line of [generateCompressedSummary]. *)
Definition summaryLine (data : CleanedMarketData.t) : string :=
  Symbol data +:+ "|P:" +:+ fmt_f R 2 (CurrentPrice data)
  +:+ "|1h:" +:+ fmt_f R 2 (PriceChange1h data)
  +:+ "%|4h:" +:+ fmt_f R 2 (PriceChange4h data)
  +:+ "%|24h:" +:+ fmt_f R 2 (PriceChange24h data)
  +:+ "%|EMA20:" +:+ fmt_f R 2 (EMA20 data)
  +:+ "|EMA50:" +:+ fmt_f R 2 (EMA50 data)
  +:+ "|MACD:" +:+ fmt_f R 4 (MACD data)
  +:+ "|Sig:" +:+ fmt_f R 4 (MACDSignal data)
  +:+ "|RSI7:" +:+ fmt_f R 1 (RSI7 data)
  +:+ "|RSI14:" +:+ fmt_f R 1 (RSI14 data)
  +:+ "|ATR:" +:+ fmt_f R 2 (ATR data)
  +:+ "|Vol24h:" +:+ fmt_f R 0 (Volume24h data)
  +:+ "|VolChg:" +:+ fmt_f R 1 (VolumeChange data)
  +:+ "%|OI:" +:+ fmt_f R 0 (OpenInterest data)
  +:+ "|OIChg:" +:+ fmt_f R 1 (OIChange data)
  +:+ "%|FR:" +:+ fmt_f R 4 (FundingRate data * 100)%Q
  +:+ "%|Q:" +:+ fmt_f R 2 (DataQuality data).

Definition generateCompressedSummary (data : CleanedMarketData.t) : string :=
  let summary := summaryLine data in
  if (650 <? String.length summary)%nat
  then substring 0 647 summary +:+ "..."
  else summary.

(** [now] is the reading of [time.Now()] stored in [Timestamp]. *)
Definition ProcessMarketData (dp : t) (now : Z) (rawData : option market.Data)
  : option CleanedMarketData.t * error :=
  match rawData with
  | None => (None, Some "raw data is nil")
  | Some rawData =>
      let cleaned :=
        {| Symbol := market.Symbol rawData;
           Timestamp := now;
           CurrentPrice := market.CurrentPrice rawData;
           PriceChange1h := market.PriceChange1h rawData;
           PriceChange4h := market.PriceChange4h rawData;
           PriceChange24h := calculatePriceChange24h rawData;
           EMA20 := market.CurrentEMA20 rawData;
           EMA50 := match market.LongerTermContext rawData with
                    | Some c => market.EMA50 c | None => 0%Q end;
           MACD := market.CurrentMACD rawData;
           MACDSignal := calculateMACDSignal rawData;
           RSI7 := market.CurrentRSI7 rawData;
           RSI14 := calculateRSI14 rawData;
           ATR := match market.LongerTermContext rawData with
                  | Some c => market.ATR14 c | None => 0%Q end;
           Volume24h := match market.LongerTermContext rawData with
                        | Some c => market.CurrentVolume c | None => 0%Q end;
           VolumeChange := match market.LongerTermContext rawData with
                           | Some _ => calculateVolumeChange rawData
                           | None => 0%Q end;
           OpenInterest := match market.OpenInterest rawData with
                           | Some oi => market.Latest oi | None => 0%Q end;
           OIChange := match market.OpenInterest rawData with
                       | Some _ => calculateOIChange rawData
                       | None => 0%Q end;
           FundingRate := market.FundingRate rawData;
           LongShortRatio := 0%Q;
           TopTraderRatio := 0%Q;
           DataQuality := assessDataQuality rawData;
           IsValid := (assessDataQuality rawData
                       >=? DataLayerConfig.MinDataQuality (config dp))%Q;
           CompressedSummary := "" |} in
      let cleaned :=
        {| Symbol := Symbol cleaned;
           Timestamp := Timestamp cleaned;
           CurrentPrice := CurrentPrice cleaned;
           PriceChange1h := PriceChange1h cleaned;
           PriceChange4h := PriceChange4h cleaned;
           PriceChange24h := PriceChange24h cleaned;
           EMA20 := EMA20 cleaned;
           EMA50 := EMA50 cleaned;
           MACD := MACD cleaned;
           MACDSignal := MACDSignal cleaned;
           RSI7 := RSI7 cleaned;
           RSI14 := RSI14 cleaned;
           ATR := ATR cleaned;
           Volume24h := Volume24h cleaned;
           VolumeChange := VolumeChange cleaned;
           OpenInterest := OpenInterest cleaned;
           OIChange := OIChange cleaned;
           FundingRate := FundingRate cleaned;
           LongShortRatio := LongShortRatio cleaned;
           TopTraderRatio := TopTraderRatio cleaned;
           DataQuality := DataQuality cleaned;
           IsValid := IsValid cleaned;
           CompressedSummary := generateCompressedSummary cleaned |} in
      (Some cleaned, None)
  end.

End WithRuntime.
End DataProcessor.

(** ** Package [data_layer]: the risk calculator *)

Module RiskCalculator.
Import CleanedMarketData.

Record t : Type := {
  config : DataLayerConfig.t;
  totalBalance : Q;
  availableBalance : Q;
  usedMargin : Q;
  dailyPnL : Q;
  consecutiveLosses : Z;
  circuitBreakerActive : bool
}.

Definition NewRiskCalculator (config : DataLayerConfig.t) : t :=
  {| config := config; totalBalance := 0; availableBalance := 0;
     usedMargin := 0; dailyPnL := 0; consecutiveLosses := 0;
     circuitBreakerActive := false |}.

Definition UpdateAccountInfo (rc : t) (total available used : Q) : t :=
  {| config := config rc; totalBalance := total;
     availableBalance := available; usedMargin := used;
     dailyPnL := dailyPnL rc; consecutiveLosses := consecutiveLosses rc;
     circuitBreakerActive := circuitBreakerActive rc |}.

Definition UpdateDailyPnL (rc : t) (pnl : Q) : t :=
  let maxLoss :=
    (totalBalance rc * DataLayerConfig.MaxDailyLossPercent (config rc) / 100)%Q in
  {| config := config rc; totalBalance := totalBalance rc;
     availableBalance := availableBalance rc; usedMargin := usedMargin rc;
     dailyPnL := pnl; consecutiveLosses := consecutiveLosses rc;
     circuitBreakerActive :=
       if DataLayerConfig.CircuitBreakerEnabled (config rc)
          && (pnl <? - maxLoss)%Q
       then true else circuitBreakerActive rc |}.

Definition RecordTradeResult (rc : t) (isWin : bool) : t :=
  let losses := if isWin then 0 else int_succ (consecutiveLosses rc) in
  {| config := config rc; totalBalance := totalBalance rc;
     availableBalance := availableBalance rc; usedMargin := usedMargin rc;
     dailyPnL := dailyPnL rc; consecutiveLosses := losses;
     circuitBreakerActive :=
       if DataLayerConfig.CircuitBreakerEnabled (config rc)
          && (losses >=? DataLayerConfig.MaxConsecutiveLosses (config rc))
       then true else circuitBreakerActive rc |}.

Definition ResetCircuitBreaker (rc : t) : t :=
  {| config := config rc; totalBalance := totalBalance rc;
     availableBalance := availableBalance rc; usedMargin := usedMargin rc;
     dailyPnL := 0; consecutiveLosses := 0;
     circuitBreakerActive := false |}.

Definition calculateRecommendedLeverage (rc : t) (data : CleanedMarketData.t) : Z :=
  let baseLeverage := DataLayerConfig.DefaultLeverage (config rc) in
  let baseLeverage :=
    if (ATR data >? 0)%Q && (CurrentPrice data >? 0)%Q then
      let volatility := (ATR data / CurrentPrice data * 100)%Q in
      if (volatility >? 5)%Q then int_max1_sub baseLeverage 2
      else if (volatility >? 3)%Q then int_max1_sub baseLeverage 1
      else baseLeverage
    else baseLeverage in
  let baseLeverage :=
    if (RSI14 data >? 70)%Q || (RSI14 data <? 30)%Q
    then int_max1_sub baseLeverage 1
    else baseLeverage in
  if baseLeverage >? DataLayerConfig.MaxLeverage (config rc)
  then DataLayerConfig.MaxLeverage (config rc)
  else baseLeverage.

Definition calculateLongStopLoss (rc : t) (data : CleanedMarketData.t) : Q :=
  if (ATR data >? 0)%Q
  then (CurrentPrice data - ATR data * 2)%Q
  else (CurrentPrice data * 0.98)%Q.

Definition calculateLongTakeProfit (rc : t) (data : CleanedMarketData.t) : Q :=
  let stopLoss := calculateLongStopLoss rc data in
  let risk := (CurrentPrice data - stopLoss)%Q in
  (CurrentPrice data + risk * 2)%Q.

Definition calculateShortStopLoss (rc : t) (data : CleanedMarketData.t) : Q :=
  if (ATR data >? 0)%Q
  then (CurrentPrice data + ATR data * 2)%Q
  else (CurrentPrice data * 1.02)%Q.

Definition calculateShortTakeProfit (rc : t) (data : CleanedMarketData.t) : Q :=
  let stopLoss := calculateShortStopLoss rc data in
  let risk := (stopLoss - CurrentPrice data)%Q in
  (CurrentPrice data - risk * 2)%Q.

Definition assessRiskLevel (rc : t) (metrics : RiskMetrics.t) : string :=
  let score := 0 in
  let score :=
    if (RiskMetrics.MarginUsagePercent metrics >? 80)%Q then score + 3
    else if (RiskMetrics.MarginUsagePercent metrics >? 60)%Q then score + 2
    else if (RiskMetrics.MarginUsagePercent metrics >? 40)%Q then score + 1
    else score in
  let score :=
    if RiskMetrics.RecommendedLeverage metrics >=? 5 then score + 2
    else if RiskMetrics.RecommendedLeverage metrics >=? 3 then score + 1
    else score in
  let score :=
    if (totalBalance rc >? 0)%Q then
      let lossPercent :=
        (RiskMetrics.MaxLossUSD metrics / totalBalance rc * 100)%Q in
      if (lossPercent >? 2)%Q then score + 2
      else if (lossPercent >? 1)%Q then score + 1
      else score
    else score in
  let score := if consecutiveLosses rc >=? 2 then score + 1 else score in
  if score >=? 5 then "extreme"
  else if score >=? 3 then "high"
  else if score >=? 1 then "medium"
  else "low".

Section WithRuntime.
Context (R : Runtime).

Definition canTrade (rc : t) (metrics : RiskMetrics.t) : bool * string :=
  if circuitBreakerActive rc then (false, "熔断机制触发")
  else if (availableBalance rc <? RiskMetrics.RequiredMargin metrics)%Q then
    (false, "可用余额不足，需要" +:+ fmt_f R 2 (RiskMetrics.RequiredMargin metrics)
            +:+ "，可用" +:+ fmt_f R 2 (availableBalance rc))
  else if (RiskMetrics.MarginUsagePercent metrics >? 90)%Q then
    (false, "保证金使用率过高：" +:+ fmt_f R 1 (RiskMetrics.MarginUsagePercent metrics)
            +:+ "%")
  else if String.eqb (RiskMetrics.RiskLevel metrics) "extreme" then
    (false, "风险等级过高")
  else if (RiskMetrics.StopLossPrice metrics <=? 0)%Q then
    (false, "止损价格无效")
  else (true, "风控检查通过").

(** The metrics start as [&layers.RiskMetrics{Symbol: ...}], every other
    field at its zero value, and are filled in the order of the source;
    [assessRiskLevel] and [canTrade] read the record as it stands when they
    are called. *)
Definition CalculateRiskMetrics (rc : t) (direction : Direction)
    (marketData : option CleanedMarketData.t)
  : option RiskMetrics.t * error :=
  match marketData with
  | None => (None, Some "market data is nil")
  | Some marketData =>
      if circuitBreakerActive rc then
        (Some {| RiskMetrics.Symbol := Symbol marketData;
                 RiskMetrics.MaxPositionSizeUSD := 0;
                 RiskMetrics.RecommendedLeverage := 0;
                 RiskMetrics.StopLossPrice := 0;
                 RiskMetrics.TakeProfitPrice := 0;
                 RiskMetrics.MaxLossUSD := 0;
                 RiskMetrics.RequiredMargin := 0;
                 RiskMetrics.MarginUsagePercent := 0;
                 RiskMetrics.RiskLevel := "extreme";
                 RiskMetrics.CanTrade := false;
                 RiskMetrics.RiskReason :=
                   "熔断触发: 每日亏损"
                   +:+ fmt_f R 2 (- dailyPnL rc / totalBalance rc * 100)%Q
                   +:+ "% 或 连续亏损" +:+ fmt_d R (consecutiveLosses rc)
                   +:+ "次" |}, None)
      else if (totalBalance rc <=? 0)%Q || (availableBalance rc <=? 0)%Q then
        (Some {| RiskMetrics.Symbol := Symbol marketData;
                 RiskMetrics.MaxPositionSizeUSD := 0;
                 RiskMetrics.RecommendedLeverage := 0;
                 RiskMetrics.StopLossPrice := 0;
                 RiskMetrics.TakeProfitPrice := 0;
                 RiskMetrics.MaxLossUSD := 0;
                 RiskMetrics.RequiredMargin := 0;
                 RiskMetrics.MarginUsagePercent := 0;
                 RiskMetrics.RiskLevel := "extreme";
                 RiskMetrics.CanTrade := false;
                 RiskMetrics.RiskReason := "账户余额不足" |}, None)
      else
        let maxRisk :=
          (totalBalance rc
           * DataLayerConfig.MaxSingleTradeRiskPercent (config rc) / 100)%Q in
        let maxPosition := (maxRisk / 0.02)%Q in
        let maxAccountRisk :=
          (totalBalance rc
           * DataLayerConfig.MaxAccountRiskPercent (config rc) / 100)%Q in
        let maxPosition :=
          if (maxPosition >? maxAccountRisk)%Q then maxAccountRisk
          else maxPosition in
        let leverage := calculateRecommendedLeverage rc marketData in
        let stopLoss :=
          if String.eqb direction DirectionLong
          then calculateLongStopLoss rc marketData
          else if String.eqb direction DirectionShort
          then calculateShortStopLoss rc marketData
          else 0%Q in
        let takeProfit :=
          if String.eqb direction DirectionLong
          then calculateLongTakeProfit rc marketData
          else if String.eqb direction DirectionShort
          then calculateShortTakeProfit rc marketData
          else 0%Q in
        let maxLoss :=
          if (stopLoss >? 0)%Q then
            let priceDiff := Qabs (CurrentPrice marketData - stopLoss) in
            (priceDiff / CurrentPrice marketData * maxPosition)%Q
          else 0%Q in
        let requiredMargin := (maxPosition / float64_of_int leverage)%Q in
        let marginUsage :=
          if (totalBalance rc >? 0)%Q then
            let newUsedMargin := (usedMargin rc + requiredMargin)%Q in
            (newUsedMargin / totalBalance rc * 100)%Q
          else 0%Q in
        let metrics :=
          {| RiskMetrics.Symbol := Symbol marketData;
             RiskMetrics.MaxPositionSizeUSD := maxPosition;
             RiskMetrics.RecommendedLeverage := leverage;
             RiskMetrics.StopLossPrice := stopLoss;
             RiskMetrics.TakeProfitPrice := takeProfit;
             RiskMetrics.MaxLossUSD := maxLoss;
             RiskMetrics.RequiredMargin := requiredMargin;
             RiskMetrics.MarginUsagePercent := marginUsage;
             RiskMetrics.RiskLevel := "";
             RiskMetrics.CanTrade := false;
             RiskMetrics.RiskReason := "" |} in
        let level := assessRiskLevel rc metrics in
        let metrics :=
          {| RiskMetrics.Symbol := Symbol marketData;
             RiskMetrics.MaxPositionSizeUSD := maxPosition;
             RiskMetrics.RecommendedLeverage := leverage;
             RiskMetrics.StopLossPrice := stopLoss;
             RiskMetrics.TakeProfitPrice := takeProfit;
             RiskMetrics.MaxLossUSD := maxLoss;
             RiskMetrics.RequiredMargin := requiredMargin;
             RiskMetrics.MarginUsagePercent := marginUsage;
             RiskMetrics.RiskLevel := level;
             RiskMetrics.CanTrade := false;
             RiskMetrics.RiskReason := "" |} in
        let '(ok, reason) := canTrade rc metrics in
        (Some {| RiskMetrics.Symbol := Symbol marketData;
                 RiskMetrics.MaxPositionSizeUSD := maxPosition;
                 RiskMetrics.RecommendedLeverage := leverage;
                 RiskMetrics.StopLossPrice := stopLoss;
                 RiskMetrics.TakeProfitPrice := takeProfit;
                 RiskMetrics.MaxLossUSD := maxLoss;
                 RiskMetrics.RequiredMargin := requiredMargin;
                 RiskMetrics.MarginUsagePercent := marginUsage;
                 RiskMetrics.RiskLevel := level;
                 RiskMetrics.CanTrade := ok;
                 RiskMetrics.RiskReason := reason |}, None)
  end.

End WithRuntime.
End RiskCalculator.

(** ** The language-model client and the wall clock *)

(** What [mcpClient.SendMessage(systemPrompt, userPrompt)] returns. *)
Inductive reply : Type :=
| Response (text : string)
| Failure (err : string).

(** A [time.Time] is the number of nanoseconds since the zero time
    [time.Time{}]; a [time.Duration] is an [int64] of nanoseconds and
    [Sub] saturates. *)
Definition time_zero : Z := 0.
Definition time_Hour : Z := 3600 * 10 ^ 9.
Definition time_Minute : Z := 60 * 10 ^ 9.
Definition time_Sub (t u : Z) : Z :=
  Z.max (- 2 ^ 63) (Z.min (2 ^ 63 - 1) (t - u)).
Definition Milliseconds (d : Z) : Z := Z.quot d (10 ^ 6).

(** The double-quote character (code 34), for the prompts that quote JSON. *)
Definition dq : string := String (ascii_of_nat 34) EmptyString.
(** A line feed. *)
Definition nl : string := String (ascii_of_nat 10) EmptyString.

(** ** Package [ai_layer]: the market analyzer *)

Module MarketAnalyzer.
Import CleanedMarketData.

Definition contains (text substr : string) : bool :=
  (0 <? String.length text)%nat && (0 <? String.length substr)%nat.

Definition isValidMarketCondition (condition : MarketCondition) : bool :=
  String.eqb condition MarketTrending
  || String.eqb condition MarketRanging
  || String.eqb condition MarketVolatile
  || String.eqb condition MarketConsolidate
  || String.eqb condition MarketBreakout.

Definition parseMarketConditionFromText (text : string)
  : MarketCondition * string * error :=
  if contains text "trending" || contains text "趋势" then
    (MarketTrending, "从文本解析：趋势市场", None)
  else if contains text "ranging" || contains text "震荡" then
    (MarketRanging, "从文本解析：震荡市场", None)
  else if contains text "volatile" || contains text "波动" then
    (MarketVolatile, "从文本解析：高波动市场", None)
  else if contains text "consolidate" || contains text "整理" then
    (MarketConsolidate, "从文本解析：整理市场", None)
  else if contains text "breakout" || contains text "突破" then
    (MarketBreakout, "从文本解析：突破市场", None)
  else (MarketRanging, "无法解析，默认震荡", None).

Definition systemPrompt : string :=
  "你是专业的市场分析师。分析市场状态，只返回JSON格式：" +:+ nl
  +:+ "{" +:+ dq +:+ "condition" +:+ dq +:+ ":" +:+ dq
  +:+ "trending/ranging/volatile/consolidate/breakout" +:+ dq +:+ ","
  +:+ dq +:+ "reason" +:+ dq +:+ ":" +:+ dq +:+ "100字以内的原因" +:+ dq +:+ "}".

Definition userPrompt (summary : string) : string :=
  "分析市场状态：" +:+ nl +:+ summary +:+ nl +:+ nl
  +:+ "要求：" +:+ nl
  +:+ "1. 判断市场类型：trending(趋势)/ranging(震荡)/volatile(高波动)/consolidate(整理)/breakout(突破)"
  +:+ nl +:+ "2. 原因限制在100字以内" +:+ nl +:+ "3. 只返回JSON".

Section WithRuntime.
Context (R : Runtime).

Definition AnalyzeMarketCondition (send : string -> string -> reply)
    (marketData : option CleanedMarketData.t)
  : MarketCondition * string * error :=
  match marketData with
  | None => ("", "", Some "market data is nil")
  | Some marketData =>
      match send systemPrompt (userPrompt (CompressedSummary marketData)) with
      | Failure err => ("", "", Some ("AI call failed: " +:+ err))
      | Response response =>
          match json_condition R response with
          | None => parseMarketConditionFromText response
          | Some (condition, reason) =>
              if negb (isValidMarketCondition condition)
              then (MarketRanging, "AI返回无效状态，默认为震荡", None)
              else (condition, reason, None)
          end
      end
  end.

(** [rest] is the code below the trend block; the block falls through to
    it on each path that does not return. *)
Definition AnalyzeMarketConditionWithTechnicals (marketData : CleanedMarketData.t)
  : MarketCondition * string :=
  let rest :=
    let priceAboveEMA20 := (CurrentPrice marketData >? EMA20 marketData)%Q in
    let priceAboveEMA50 := (CurrentPrice marketData >? EMA50 marketData)%Q in
    if priceAboveEMA20 && priceAboveEMA50 && (VolumeChange marketData >? 50)%Q
    then (MarketBreakout, "价格突破EMA20和EMA50，成交量放大")
    else
      let rest :=
        if (RSI14 marketData >? 40)%Q && (RSI14 marketData <? 60)%Q
           && ((MACD marketData >? - 0.0001)%Q && (MACD marketData <? 0.0001)%Q)
        then (MarketConsolidate, "RSI在中性区域，MACD接近零轴，市场整理中")
        else (MarketRanging, "未识别出明显趋势或突破，判断为震荡市场") in
      if (ATR marketData >? 0)%Q && (CurrentPrice marketData >? 0)%Q then
        let volatility := (ATR marketData / CurrentPrice marketData * 100)%Q in
        if (volatility >? 5)%Q
        then (MarketVolatile,
              "ATR波动率" +:+ fmt_f R 2 volatility +:+ "%，市场高波动")
        else rest
      else rest in
  if (EMA20 marketData >? 0)%Q && (EMA50 marketData >? 0)%Q then
    let emaSpread :=
      ((EMA20 marketData - EMA50 marketData) / EMA50 marketData * 100)%Q in
    if (emaSpread >? 2)%Q || (emaSpread <? - 2)%Q then
      let macdConfirm :=
        ((emaSpread >? 0)%Q && (MACD marketData >? 0)%Q)
        || ((emaSpread <? 0)%Q && (MACD marketData <? 0)%Q) in
      if macdConfirm then
        if (emaSpread >? 0)%Q
        then (MarketTrending, "EMA20上穿EMA50，MACD确认上升趋势")
        else (MarketTrending, "EMA20下穿EMA50，MACD确认下降趋势")
      else rest
    else rest
  else rest.

End WithRuntime.
End MarketAnalyzer.

(** ** Package [ai_layer]: the opportunity detector *)

Module OpportunityDetector.
Import CleanedMarketData.

Definition isValidOpportunity (opp : TradingOpportunity) : bool :=
  String.eqb opp OpportunityLongEntry
  || String.eqb opp OpportunityShortEntry
  || String.eqb opp OpportunityLongExit
  || String.eqb opp OpportunityShortExit
  || String.eqb opp OpportunityScalp
  || String.eqb opp OpportunityNone.

Definition parseOpportunityFromText (text : string)
  : TradingOpportunity * string * error :=
  if MarketAnalyzer.contains text "long_entry"
     || MarketAnalyzer.contains text "做多"
     || MarketAnalyzer.contains text "买入" then
    (OpportunityLongEntry, "从文本解析：做多机会", None)
  else if MarketAnalyzer.contains text "short_entry"
          || MarketAnalyzer.contains text "做空"
          || MarketAnalyzer.contains text "卖出" then
    (OpportunityShortEntry, "从文本解析：做空机会", None)
  else if MarketAnalyzer.contains text "long_exit"
          || MarketAnalyzer.contains text "平多" then
    (OpportunityLongExit, "从文本解析：多单出场", None)
  else if MarketAnalyzer.contains text "short_exit"
          || MarketAnalyzer.contains text "平空" then
    (OpportunityShortExit, "从文本解析：空单出场", None)
  else if MarketAnalyzer.contains text "scalp"
          || MarketAnalyzer.contains text "剥头皮" then
    (OpportunityScalp, "从文本解析：剥头皮", None)
  else (OpportunityNone, "无交易机会", None).

Definition systemPrompt : string :=
  "你是交易机会识别专家。识别当前交易机会，只返回JSON：" +:+ nl
  +:+ "{" +:+ dq +:+ "opportunity" +:+ dq +:+ ":" +:+ dq
  +:+ "long_entry/short_entry/long_exit/short_exit/scalp/none" +:+ dq +:+ ","
  +:+ dq +:+ "reason" +:+ dq +:+ ":" +:+ dq +:+ "100字以内" +:+ dq +:+ "}".

Definition userPrompt (marketCondition : MarketCondition) (summary : string)
  : string :=
  "市场状态：" +:+ marketCondition +:+ nl
  +:+ "市场数据：" +:+ summary +:+ nl +:+ nl
  +:+ "识别交易机会：" +:+ nl
  +:+ "- long_entry: 做多入场" +:+ nl
  +:+ "- short_entry: 做空入场" +:+ nl
  +:+ "- long_exit: 多单出场" +:+ nl
  +:+ "- short_exit: 空单出场" +:+ nl
  +:+ "- scalp: 剥头皮" +:+ nl
  +:+ "- none: 无机会" +:+ nl +:+ nl
  +:+ "只返回JSON".

(** [down] is the block of the falling trend and the final return, which
    the block of the rising trend falls through to. *)
Definition detectTrendingOpportunity (data : CleanedMarketData.t)
  : TradingOpportunity * string :=
  let down :=
    let none := (OpportunityNone, "趋势市场但无明确入场点") in
    if (EMA20 data <? EMA50 data)%Q then
      if (CurrentPrice data >? EMA20 data)%Q && (RSI14 data >? 60)%Q then
        (OpportunityShortEntry, "下降趋势反弹至EMA20，RSI超买，做空机会")
      else if (MACD data <? MACDSignal data)%Q && (MACD data <? 0)%Q then
        (OpportunityShortEntry, "下降趋势中MACD死叉，做空机会")
      else if (CurrentPrice data <? EMA20 data)%Q && (RSI14 data <? 50)%Q
              && (RSI14 data >? 30)%Q then
        (OpportunityShortEntry, "下降趋势延续，价格在EMA20下方")
      else none
    else none in
  if (EMA20 data >? EMA50 data)%Q then
    if (CurrentPrice data <? EMA20 data)%Q && (RSI14 data <? 40)%Q then
      (OpportunityLongEntry, "上升趋势回调至EMA20，RSI超卖，做多机会")
    else if (MACD data >? MACDSignal data)%Q && (MACD data >? 0)%Q then
      (OpportunityLongEntry, "上升趋势中MACD金叉，做多机会")
    else if (CurrentPrice data >? EMA20 data)%Q && (RSI14 data >? 50)%Q
            && (RSI14 data <? 70)%Q then
      (OpportunityLongEntry, "上升趋势延续，价格在EMA20上方，RSI健康")
    else down
  else down.

Definition detectBreakoutOpportunity (data : CleanedMarketData.t)
  : TradingOpportunity * string :=
  let down :=
    if (CurrentPrice data <? EMA20 data)%Q && (CurrentPrice data <? EMA50 data)%Q
       && ((VolumeChange data >? 50)%Q && (RSI14 data <? 45)%Q)
    then (OpportunityShortEntry, "向下突破，成交量放大，做空机会")
    else (OpportunityNone, "突破尚未确认") in
  if (CurrentPrice data >? EMA20 data)%Q && (CurrentPrice data >? EMA50 data)%Q
     && ((VolumeChange data >? 50)%Q && (RSI14 data >? 55)%Q)
  then (OpportunityLongEntry, "向上突破，成交量放大，做多机会")
  else down.

Definition detectRangingOpportunity (data : CleanedMarketData.t)
  : TradingOpportunity * string :=
  if (RSI14 data <? 30)%Q then
    (OpportunityLongEntry, "震荡市场RSI超卖，低吸机会")
  else if (RSI14 data >? 70)%Q then
    (OpportunityShortEntry, "震荡市场RSI超买，高抛机会")
  else if (CurrentPrice data <? EMA50 data)%Q && (RSI14 data <? 40)%Q then
    (OpportunityLongEntry, "价格接近支撑位EMA50，超卖")
  else if (CurrentPrice data >? EMA50 data)%Q && (RSI14 data >? 60)%Q then
    (OpportunityShortEntry, "价格接近阻力位EMA50，超买")
  else (OpportunityNone, "震荡市场，等待更好入场点").

Definition detectConsolidateOpportunity (data : CleanedMarketData.t)
  : TradingOpportunity * string :=
  (OpportunityNone, "整理阶段，等待方向选择").

Definition detectVolatileOpportunity (data : CleanedMarketData.t)
  : TradingOpportunity * string :=
  if (RSI7 data <? 25)%Q || (RSI7 data >? 75)%Q
  then (OpportunityScalp, "高波动市场，短期反转机会")
  else (OpportunityNone, "高波动市场，风险过高，观望").

Definition DetectOpportunityWithTechnicals (marketCondition : MarketCondition)
    (marketData : CleanedMarketData.t) : TradingOpportunity * string :=
  if String.eqb marketCondition MarketTrending then
    detectTrendingOpportunity marketData
  else if String.eqb marketCondition MarketBreakout then
    detectBreakoutOpportunity marketData
  else if String.eqb marketCondition MarketRanging then
    detectRangingOpportunity marketData
  else if String.eqb marketCondition MarketConsolidate then
    detectConsolidateOpportunity marketData
  else if String.eqb marketCondition MarketVolatile then
    detectVolatileOpportunity marketData
  else (OpportunityNone, "未知市场状态").

Section WithRuntime.
Context (R : Runtime).

Definition DetectOpportunity (send : string -> string -> reply)
    (marketCondition : MarketCondition)
    (marketData : option CleanedMarketData.t)
  : TradingOpportunity * string * error :=
  match marketData with
  | None => (OpportunityNone, "", Some "market data is nil")
  | Some marketData =>
      match send systemPrompt
                 (userPrompt marketCondition (CompressedSummary marketData)) with
      | Failure err => (OpportunityNone, "", Some ("AI call failed: " +:+ err))
      | Response response =>
          match json_opportunity R response with
          | None => parseOpportunityFromText response
          | Some (opportunity, reason) =>
              if negb (isValidOpportunity opportunity)
              then (OpportunityNone, "AI返回无效机会类型", None)
              else (opportunity, reason, None)
          end
      end
  end.

End WithRuntime.
End OpportunityDetector.

(** ** Package [ai_layer]: the decision maker *)

Module DecisionMaker.
Import CleanedMarketData.

(** The analyzer and the detector the decision maker owns hold the same
    configuration and no other state; their clients are in [Env]. *)
Record t : Type := {
  config : AILayerConfig.t;
  lastDecisionTime : Z;
  decisionsThisHour : Z
}.

(** What one call of [MakeDecision] reads from outside: the four readings
    of [time.Now()], in the order of the calls, and the three clients. *)
Record Env : Type := {
  startTime : Z;
  rateCheckNow : Z;
  sinceNow : Z;
  updateNow : Z;
  sendCondition : string -> string -> reply;
  sendOpportunity : string -> string -> reply;
  sendDecision : string -> string -> reply
}.

Definition NewDecisionMaker (config : AILayerConfig.t) : t * error :=
  ({| config := config; lastDecisionTime := time_zero;
      decisionsThisHour := 0 |}, None).

Definition checkRateLimit (dm : t) (now : Z) : t * bool :=
  let dm :=
    if time_Sub now (lastDecisionTime dm) >? time_Hour
    then {| config := config dm; lastDecisionTime := lastDecisionTime dm;
            decisionsThisHour := 0 |}
    else dm in
  if decisionsThisHour dm >=? AILayerConfig.MaxDecisionsPerHour (config dm)
  then (dm, false)
  else if time_Sub now (lastDecisionTime dm)
          <? int_wrap (AILayerConfig.CooldownMinutes (config dm) * time_Minute)
  then (dm, false)
  else (dm, true).

Definition updateRateLimit (dm : t) (now : Z) : t :=
  {| config := config dm; lastDecisionTime := now;
     decisionsThisHour := int_succ (decisionsThisHour dm) |}.

Definition ResetRateLimit (dm : t) : t :=
  {| config := config dm; lastDecisionTime := time_zero;
     decisionsThisHour := 0 |}.

Definition calculateConfidence (data : CleanedMarketData.t) (isLong : bool) : Q :=
  let confidence := 0.75%Q in
  let confidence :=
    if isLong && (RSI14 data <? 40)%Q then (confidence + 0.05)%Q
    else if negb isLong && (RSI14 data >? 60)%Q then (confidence + 0.05)%Q
    else confidence in
  let confidence :=
    if isLong && (MACD data >? MACDSignal data)%Q then (confidence + 0.05)%Q
    else if negb isLong && (MACD data <? MACDSignal data)%Q
    then (confidence + 0.05)%Q
    else confidence in
  let confidence :=
    if isLong && (CurrentPrice data >? EMA20 data)%Q then (confidence + 0.05)%Q
    else if negb isLong && (CurrentPrice data <? EMA20 data)%Q
    then (confidence + 0.05)%Q
    else confidence in
  let confidence :=
    if (VolumeChange data >? 30)%Q then (confidence + 0.05)%Q else confidence in
  if (confidence >? 1.0)%Q then 1.0%Q else confidence.

Definition makeRuleBasedDecision (condition : MarketCondition)
    (opportunity : TradingOpportunity) (marketData : CleanedMarketData.t)
  : Direction * Q :=
  if String.eqb opportunity OpportunityLongEntry then
    (DirectionLong, calculateConfidence marketData true)
  else if String.eqb opportunity OpportunityShortEntry then
    (DirectionShort, calculateConfidence marketData false)
  else if String.eqb opportunity OpportunityScalp then
    if (RSI7 marketData <? 30)%Q then (DirectionLong, 0.75%Q)
    else if (RSI7 marketData >? 70)%Q then (DirectionShort, 0.75%Q)
    else (DirectionWait, 0.75%Q)
  else (DirectionWait, 0%Q).

Definition parseDecisionFromText (text : string)
  : Direction * Q * string * error :=
  let direction :=
    if MarketAnalyzer.contains text "long"
       || MarketAnalyzer.contains text "做多"
       || MarketAnalyzer.contains text "买入" then DirectionLong
    else if MarketAnalyzer.contains text "short"
            || MarketAnalyzer.contains text "做空"
            || MarketAnalyzer.contains text "卖出" then DirectionShort
    else if MarketAnalyzer.contains text "wait"
            || MarketAnalyzer.contains text "观望"
            || MarketAnalyzer.contains text "等待" then DirectionWait
    else DirectionWait in
  (direction, 0.75%Q, "从文本解析的决策", None).

Definition systemPrompt : string :=
  "你是顶级交易决策专家。基于市场分析和机会识别，给出最终交易决策。" +:+ nl
  +:+ "只返回JSON格式：" +:+ nl
  +:+ "{" +:+ dq +:+ "direction" +:+ dq +:+ ":" +:+ dq +:+ "long/short/wait"
  +:+ dq +:+ "," +:+ dq +:+ "confidence" +:+ dq +:+ ":0.75,"
  +:+ dq +:+ "reasoning" +:+ dq +:+ ":" +:+ dq +:+ "简短推理过程" +:+ dq +:+ "}".

Definition userPrompt (condition : MarketCondition) (conditionReason : string)
    (opportunity : TradingOpportunity) (oppReason summary : string) : string :=
  "市场分析：" +:+ nl
  +:+ "状态：" +:+ condition +:+ nl
  +:+ "原因：" +:+ conditionReason +:+ nl +:+ nl
  +:+ "机会识别：" +:+ nl
  +:+ "机会：" +:+ opportunity +:+ nl
  +:+ "原因：" +:+ oppReason +:+ nl +:+ nl
  +:+ "市场数据：" +:+ summary +:+ nl +:+ nl
  +:+ "要求：" +:+ nl
  +:+ "1. direction: long(做多)/short(做空)/wait(观望)" +:+ nl
  +:+ "2. confidence: 0.7-1.0 (低于0.7不建议交易)" +:+ nl
  +:+ "3. reasoning: 100字以内的推理过程" +:+ nl +:+ nl
  +:+ "只返回JSON".

Section WithRuntime.
Context (R : Runtime).

(** The slice [userPrompt[:MaxPromptLength-3]] panics when its bound is
    negative or beyond the length. *)
Definition limitPrompt (dm : t) (userPrompt : string) : exec string :=
  let maxLen := AILayerConfig.MaxPromptLength (config dm) in
  if Z.of_nat (String.length userPrompt) >? maxLen then
    let high := int_wrap (maxLen - 3) in
    if (high <? 0) || (high >? Z.of_nat (String.length userPrompt))
    then Panics
    else Returns (substring 0 (Z.to_nat high) userPrompt +:+ "...")
  else Returns userPrompt.

Definition callAIForDecision (dm : t) (send : string -> string -> reply)
    (condition : MarketCondition) (conditionReason : string)
    (opportunity : TradingOpportunity) (oppReason : string)
    (marketData : CleanedMarketData.t)
  : exec (Direction * Q * string * error) :=
  match limitPrompt dm
          (userPrompt condition conditionReason opportunity oppReason
             (CompressedSummary marketData)) with
  | Panics => Panics
  | Returns prompt =>
      match send systemPrompt prompt with
      | Failure err =>
          Returns (DirectionWait, 0%Q, "", Some ("AI call failed: " +:+ err))
      | Response response =>
          match json_decision R response with
          | None => Returns (parseDecisionFromText response)
          | Some (resultDirection, resultConfidence, resultReasoning) =>
              let direction :=
                if negb (String.eqb resultDirection DirectionLong)
                   && negb (String.eqb resultDirection DirectionShort)
                   && negb (String.eqb resultDirection DirectionWait)
                then DirectionWait else resultDirection in
              let confidence :=
                if (resultConfidence <? 0.7)%Q then 0.7%Q
                else resultConfidence in
              let confidence :=
                if (confidence >? 1.0)%Q then 1.0%Q else confidence in
              Returns (direction, confidence, resultReasoning, None)
          end
      end
  end.

(** A nil [marketData] is dereferenced on every path, either for the
    symbol of the rate-limited answer or by the rule-based analysis that
    follows the analyzer's nil error. *)
Definition MakeDecision (dm : t) (env : Env)
    (marketData : option CleanedMarketData.t)
  : t * exec (AIDecision.t * error) :=
  let '(dm, allowed) := checkRateLimit dm (rateCheckNow env) in
  match marketData with
  | None => (dm, Panics)
  | Some data =>
      if negb allowed then
        (dm, Returns
           ({| AIDecision.Symbol := Symbol data;
               AIDecision.Timestamp := startTime env;
               AIDecision.MarketCondition := MarketRanging;
               AIDecision.ConditionReason := "频率限制：已达到每小时最大决策次数";
               AIDecision.Opportunity := OpportunityNone;
               AIDecision.OpportunityReason := "等待冷却";
               AIDecision.Direction := DirectionWait;
               AIDecision.Confidence := 0;
               AIDecision.ChainOfThought := "";
               AIDecision.ModelUsed := "";
               AIDecision.ResponseTimeMs := 0 |}, None))
      else
        let '(marketCondition, conditionReason) :=
          match MarketAnalyzer.AnalyzeMarketCondition R (sendCondition env)
                  (Some data) with
          | (_, _, Some _) =>
              MarketAnalyzer.AnalyzeMarketConditionWithTechnicals R data
          | (c, r, None) => (c, r)
          end in
        let '(opportunity, oppReason) :=
          match OpportunityDetector.DetectOpportunity R (sendOpportunity env)
                  marketCondition (Some data) with
          | (_, _, Some _) =>
              OpportunityDetector.DetectOpportunityWithTechnicals
                marketCondition data
          | (o, r, None) => (o, r)
          end in
        match callAIForDecision dm (sendDecision env) marketCondition
                conditionReason opportunity oppReason data with
        | Panics => (dm, Panics)
        | Returns (direction, confidence, chainOfThought, err) =>
            let '(direction, confidence, chainOfThought) :=
              match err with
              | Some _ =>
                  let '(d, c) :=
                    makeRuleBasedDecision marketCondition opportunity data in
                  (d, c, "AI调用失败，使用规则引擎决策")
              | None => (direction, confidence, chainOfThought)
              end in
            let minConfidence := AILayerConfig.MinConfidence (config dm) in
            let '(direction, chainOfThought) :=
              if (confidence <? minConfidence)%Q then
                (DirectionWait,
                 chainOfThought +:+ nl +:+ "信心度" +:+ fmt_f R 2 confidence
                 +:+ "低于阈值" +:+ fmt_f R 2 minConfidence +:+ "，改为观望")
              else (direction, chainOfThought) in
            let decision :=
              {| AIDecision.Symbol := Symbol data;
                 AIDecision.Timestamp := startTime env;
                 AIDecision.MarketCondition := marketCondition;
                 AIDecision.ConditionReason := conditionReason;
                 AIDecision.Opportunity := opportunity;
                 AIDecision.OpportunityReason := oppReason;
                 AIDecision.Direction := direction;
                 AIDecision.Confidence := confidence;
                 AIDecision.ChainOfThought := chainOfThought;
                 AIDecision.ModelUsed := AILayerConfig.Model (config dm);
                 AIDecision.ResponseTimeMs :=
                   Milliseconds (time_Sub (sinceNow env) (startTime env)) |} in
            (updateRateLimit dm (updateNow env), Returns (decision, None))
        end
  end.

End WithRuntime.
End DecisionMaker.

(** ** Package [execution_layer]: the parameter calculator *)

Module ParameterCalculator.

Record t : Type := { config : ExecutionLayerConfig.t }.

Definition NewParameterCalculator (config : ExecutionLayerConfig.t) : t :=
  {| config := config |}.

Definition determineAction (decision : AIDecision.t) : string :=
  if String.eqb (AIDecision.Direction decision) DirectionLong then "open_long"
  else if String.eqb (AIDecision.Direction decision) DirectionShort
  then "open_short"
  else if String.eqb (AIDecision.Direction decision) DirectionWait then "wait"
  else "wait".

Definition calculatePositionSize (pc : t) (decision : AIDecision.t)
    (riskMetrics : RiskMetrics.t) (marketData : CleanedMarketData.t) : Q * Q :=
  let confidence := AIDecision.Confidence decision in
  let price := CleanedMarketData.CurrentPrice marketData in
  let atr := CleanedMarketData.ATR marketData in
  let basePositionUSD := RiskMetrics.MaxPositionSizeUSD riskMetrics in
  let confidenceMultiplier :=
    if (confidence >=? 0.7)%Q && (confidence <=? 1.0)%Q
    then ((confidence - 0.7) / 0.3 * 0.5 + 0.5)%Q
    else if (confidence <? 0.7)%Q then 0.5%Q
    else 1.0%Q in
  let adjustedPositionUSD := (basePositionUSD * confidenceMultiplier)%Q in
  let adjustedPositionUSD :=
    if ExecutionLayerConfig.EnablePositionSizing (config pc) then
      let method := ExecutionLayerConfig.PositionSizingMethod (config pc) in
      if String.eqb method "fixed" then (basePositionUSD * 0.5)%Q
      else if String.eqb method "kelly" then
        let winRate := confidence in
        let lossRate := (1 - winRate)%Q in
        let payoffRatio := 2.0%Q in
        let kellyFraction := ((payoffRatio * winRate - lossRate) / payoffRatio)%Q in
        let kellyFraction :=
          if (kellyFraction <? 0)%Q then 0%Q else kellyFraction in
        let kellyFraction :=
          if (kellyFraction >? 0.25)%Q then 0.25%Q else kellyFraction in
        (basePositionUSD * kellyFraction / 0.25)%Q
      else if String.eqb method "volatility" then
        if (atr >? 0)%Q && (price >? 0)%Q then
          let volatility := (atr / price)%Q in
          let volMultiplier := (1.0 / (1.0 + volatility * 10))%Q in
          (basePositionUSD * volMultiplier)%Q
        else adjustedPositionUSD
      else adjustedPositionUSD
    else adjustedPositionUSD in
  let quantity :=
    if (price >? 0)%Q then (adjustedPositionUSD / price)%Q else 0%Q in
  (quantity, adjustedPositionUSD).

Definition calculateLeverage (pc : t) (decision : AIDecision.t)
    (riskMetrics : RiskMetrics.t) (marketData : CleanedMarketData.t) : Z :=
  let baseLeverage := RiskMetrics.RecommendedLeverage riskMetrics in
  let baseLeverage :=
    if (AIDecision.Confidence decision <? 0.8)%Q
    then int_max1_sub baseLeverage 1 else baseLeverage in
  if String.eqb (AIDecision.MarketCondition decision) MarketVolatile
  then int_max1_sub baseLeverage 1
  else baseLeverage.

Definition calculateStopLoss (pc : t) (decision : AIDecision.t)
    (riskMetrics : RiskMetrics.t) (marketData : CleanedMarketData.t) : Q :=
  let stopLoss := RiskMetrics.StopLossPrice riskMetrics in
  if String.eqb (AIDecision.MarketCondition decision) MarketVolatile then
    if String.eqb (AIDecision.Direction decision) DirectionLong
    then (stopLoss * 0.98)%Q
    else if String.eqb (AIDecision.Direction decision) DirectionShort
    then (stopLoss * 1.02)%Q
    else stopLoss
  else stopLoss.

Definition calculateTakeProfit (pc : t) (decision : AIDecision.t)
    (riskMetrics : RiskMetrics.t) (marketData : CleanedMarketData.t) : Q :=
  let takeProfit := RiskMetrics.TakeProfitPrice riskMetrics in
  let price := CleanedMarketData.CurrentPrice marketData in
  if (AIDecision.Confidence decision >? 0.9)%Q then
    if String.eqb (AIDecision.Direction decision) DirectionLong then
      let risk := (price - RiskMetrics.StopLossPrice riskMetrics)%Q in
      (price + risk * 2.5)%Q
    else if String.eqb (AIDecision.Direction decision) DirectionShort then
      let risk := (RiskMetrics.StopLossPrice riskMetrics - price)%Q in
      (price - risk * 2.5)%Q
    else takeProfit
  else takeProfit.

Definition determinePriority (pc : t) (decision : AIDecision.t) : string :=
  if (AIDecision.Confidence decision >=? 0.9)%Q
     && (String.eqb (AIDecision.MarketCondition decision) MarketBreakout
         || String.eqb (AIDecision.MarketCondition decision) MarketTrending)
  then "high"
  else if (AIDecision.Confidence decision >=? 0.75)%Q then "normal"
  else "low".

Definition CalculateParameters (pc : t) (decision : option AIDecision.t)
    (riskMetrics : option RiskMetrics.t)
    (marketData : option CleanedMarketData.t)
  : option (gmap string Value) * error :=
  match decision, riskMetrics, marketData with
  | Some decision, Some riskMetrics, Some marketData =>
      let params : gmap string Value := ∅ in
      let params := <["action" := VString (determineAction decision)]> params in
      let '(quantity, quantityUSD) :=
        calculatePositionSize pc decision riskMetrics marketData in
      let params := <["quantity" := VFloat quantity]> params in
      let params := <["quantity_usd" := VFloat quantityUSD]> params in
      let params :=
        <["leverage" :=
            VInt (calculateLeverage pc decision riskMetrics marketData)]> params in
      let params :=
        <["stop_loss" :=
            VFloat (calculateStopLoss pc decision riskMetrics marketData)]> params in
      let params :=
        <["take_profit" :=
            VFloat (calculateTakeProfit pc decision riskMetrics marketData)]>
          params in
      let params :=
        <["max_slippage_percent" :=
            VFloat (ExecutionLayerConfig.MaxSlippagePercent (config pc))]> params in
      let params :=
        <["timeout_seconds" :=
            VInt (ExecutionLayerConfig.OrderTimeoutSeconds (config pc))]> params in
      let params :=
        <["priority" := VString (determinePriority pc decision)]> params in
      (Some params, None)
  | _, _, _ => (None, Some "invalid input parameters")
  end.

(** Maps are reference values in Go. A heap of map objects makes the
    difference between the argument and the result visible: [params] is
    the address of the argument (a nil or dangling address reads as an
    empty map), the result is the heap after the call and the address of
    the map that [make] allocated. *)

(** The loop [for k, v := range params { adjusted[k] = v }]. *)
Definition copyEntries (params : gmap string Value) : gmap string Value :=
  map_fold (fun k v (adjusted : gmap string Value) => <[k := v]> adjusted)
    ∅ params.

(** [if x, ok := m[key].(float64); ok { m[key] = x * factor }]. *)
Definition scaleFloat (key : string) (factor : Q) (m : gmap string Value)
  : gmap string Value :=
  match m !! key with
  | Some (VFloat x) => <[key := VFloat (x * factor)%Q]> m
  | _ => m
  end.

(** [if l, ok := m[key].(int); ok { m[key] = int(math.Max(1, float64(l)-1)) }]. *)
Definition lowerLeverage (key : string) (m : gmap string Value)
  : gmap string Value :=
  match m !! key with
  | Some (VInt leverage) => <[key := VInt (int_max1_sub leverage 1)]> m
  | _ => m
  end.

Definition AdjustParametersForRisk (pc : t)
    (heap : gmap nat (gmap string Value)) (params : nat) (riskLevel : string)
  : gmap nat (gmap string Value) * nat :=
  let adjusted := copyEntries (default ∅ (heap !! params)) in
  let adjusted :=
    if String.eqb riskLevel "extreme" then
      <["action" := VString "wait"]> adjusted
    else if String.eqb riskLevel "high" then
      lowerLeverage "leverage"
        (scaleFloat "quantity_usd" 0.5 (scaleFloat "quantity" 0.5 adjusted))
    else if String.eqb riskLevel "medium" then
      scaleFloat "quantity_usd" 0.8 (scaleFloat "quantity" 0.8 adjusted)
    else if String.eqb riskLevel "low" then adjusted
    else adjusted in
  let address := fresh (dom heap) in
  (<[address := adjusted]> heap, address).

End ParameterCalculator.

(** ** Package [execution_layer]: the risk validator *)

Module RiskValidator.
Import ExecutionPlan.

Record t : Type := {
  config : ExecutionLayerConfig.t;
  totalValidations : Z;
  passedValidations : Z;
  failedValidations : Z
}.

Definition NewRiskValidator (config : ExecutionLayerConfig.t) : t :=
  {| config := config; totalValidations := 0; passedValidations := 0;
     failedValidations := 0 |}.

Section WithRuntime.
Context (R : Runtime).

Definition validateBasicParameters (plan : option ExecutionPlan.t)
  : bool * string :=
  match plan with
  | None => (false, "执行计划为空")
  | Some plan =>
      if String.eqb (Symbol plan) "" then (false, "交易对为空")
      else if negb (String.eqb (Action plan) "open_long")
              && negb (String.eqb (Action plan) "open_short")
              && negb (String.eqb (Action plan) "close_long")
              && negb (String.eqb (Action plan) "close_short")
      then (false, "无效的交易动作: " +:+ Action plan)
      else if (Quantity plan <=? 0)%Q
      then (false, "交易数量无效: " +:+ fmt_f R 6 (Quantity plan))
      else if (QuantityUSD plan <=? 0)%Q
      then (false, "交易金额无效: " +:+ fmt_f R 2 (QuantityUSD plan))
      else if (Leverage plan <? 1) || (Leverage plan >? 20)
      then (false, "杠杆倍数超出范围: " +:+ fmt_d R (Leverage plan))
      else (true, "")
  end.

Definition validateRiskMetrics (plan : ExecutionPlan.t)
    (metrics : option RiskMetrics.t) : bool * string :=
  match metrics with
  | None => (false, "风险指标为空")
  | Some metrics =>
      if negb (RiskMetrics.CanTrade metrics)
      then (false, "风险指标禁止交易: " +:+ RiskMetrics.RiskReason metrics)
      else if String.eqb (RiskMetrics.RiskLevel metrics) "extreme"
      then (false, "风险等级过高(extreme)")
      else if (QuantityUSD plan >? RiskMetrics.MaxPositionSizeUSD metrics * 1.1)%Q
      then (false, "仓位超过建议值: " +:+ fmt_f R 2 (QuantityUSD plan) +:+ " > "
                   +:+ fmt_f R 2 (RiskMetrics.MaxPositionSizeUSD metrics))
      else if Leverage plan >? int_succ (RiskMetrics.RecommendedLeverage metrics)
      then (false, "杠杆超过建议值: " +:+ fmt_d R (Leverage plan) +:+ " > "
                   +:+ fmt_d R (RiskMetrics.RecommendedLeverage metrics))
      else (true, "")
  end.

Definition validateMarketData (plan : ExecutionPlan.t)
    (data : option CleanedMarketData.t) : bool * string :=
  match data with
  | None => (false, "市场数据为空")
  | Some data =>
      if negb (CleanedMarketData.IsValid data)
      then (false, "市场数据质量不合格")
      else if (CleanedMarketData.DataQuality data <? 0.8)%Q
      then (false, "数据质量过低: "
                   +:+ fmt_f R 2 (CleanedMarketData.DataQuality data))
      else if (CleanedMarketData.CurrentPrice data <=? 0)%Q
      then (false, "当前价格无效")
      else if (CleanedMarketData.PriceChange1h data >? 20)%Q
              || (CleanedMarketData.PriceChange1h data <? - 20)%Q
      then (false, "价格波动异常: "
                   +:+ fmt_f R 2 (CleanedMarketData.PriceChange1h data) +:+ "%")
      else (true, "")
  end.

Definition validateDecisionConsistency (plan : ExecutionPlan.t)
    (decision : option AIDecision.t) : bool * string :=
  match decision with
  | None => (false, "AI决策为空")
  | Some decision =>
      let expectedAction :=
        if String.eqb (AIDecision.Direction decision) DirectionLong
        then "open_long"
        else if String.eqb (AIDecision.Direction decision) DirectionShort
        then "open_short"
        else if String.eqb (AIDecision.Direction decision) DirectionWait
        then "wait"
        else "" in
      if negb (String.eqb (Action plan) expectedAction)
      then (false, "执行动作与AI决策不一致: " +:+ Action plan +:+ " != "
                   +:+ expectedAction)
      else if (AIDecision.Confidence decision <? 0.7)%Q
      then (false, "AI信心度过低: " +:+ fmt_f R 2 (AIDecision.Confidence decision))
      else if String.eqb (AIDecision.Opportunity decision) OpportunityNone
              && negb (String.eqb (Action plan) "wait")
      then (false, "无交易机会但计划执行交易")
      else (true, "")
  end.

(** [shortChecks] is the block for [open_short] and the final return,
    which the block for [open_long] falls through to. *)
Definition validateStopLossTakeProfit (plan : ExecutionPlan.t)
    (data : CleanedMarketData.t) : bool * string :=
  let currentPrice := CleanedMarketData.CurrentPrice data in
  let shortChecks :=
    if String.eqb (Action plan) "open_short" then
      let stopLossPercent :=
        ((StopLoss plan - currentPrice) / currentPrice * 100)%Q in
      if (StopLoss plan <=? currentPrice)%Q
      then (false, "空单止损价格无效: " +:+ fmt_f R 2 (StopLoss plan) +:+ " <= "
                   +:+ fmt_f R 2 currentPrice)
      else if (TakeProfit plan >? 0)%Q && (TakeProfit plan >=? currentPrice)%Q
      then (false, "空单止盈价格无效: " +:+ fmt_f R 2 (TakeProfit plan) +:+ " >= "
                   +:+ fmt_f R 2 currentPrice)
      else if (stopLossPercent >? 10)%Q
      then (false, "止损距离过大: " +:+ fmt_f R 2 stopLossPercent +:+ "%")
      else if (stopLossPercent <? 0.5)%Q
      then (false, "止损距离过小: " +:+ fmt_f R 2 stopLossPercent +:+ "%")
      else (true, "")
    else (true, "") in
  if String.eqb (Action plan) "open_long" then
    let stopLossPercent :=
      ((currentPrice - StopLoss plan) / currentPrice * 100)%Q in
    if (StopLoss plan >=? currentPrice)%Q
    then (false, "多单止损价格无效: " +:+ fmt_f R 2 (StopLoss plan) +:+ " >= "
                 +:+ fmt_f R 2 currentPrice)
    else if (TakeProfit plan >? 0)%Q && (TakeProfit plan <=? currentPrice)%Q
    then (false, "多单止盈价格无效: " +:+ fmt_f R 2 (TakeProfit plan) +:+ " <= "
                 +:+ fmt_f R 2 currentPrice)
    else if (stopLossPercent >? 10)%Q
    then (false, "止损距离过大: " +:+ fmt_f R 2 stopLossPercent +:+ "%")
    else if (stopLossPercent <? 0.5)%Q
    then (false, "止损距离过小: " +:+ fmt_f R 2 stopLossPercent +:+ "%")
    else shortChecks
  else shortChecks.

Definition validateLeverageAndPosition (plan : ExecutionPlan.t)
    (data : CleanedMarketData.t) : bool * string :=
  let atr := CleanedMarketData.ATR data in
  let price := CleanedMarketData.CurrentPrice data in
  let volatility := (atr / price * 100)%Q in
  if (atr >? 0)%Q && (price >? 0)%Q
     && ((volatility >? 5)%Q && (Leverage plan >? 3))
  then (false, "高波动市场(" +:+ fmt_f R 2 volatility +:+ "%)杠杆过高: "
               +:+ fmt_d R (Leverage plan))
  else if (CleanedMarketData.RSI14 data >? 80)%Q
          && String.eqb (Action plan) "open_long"
  then (false, "RSI严重超买，不适合做多")
  else if (CleanedMarketData.RSI14 data <? 20)%Q
          && String.eqb (Action plan) "open_short"
  then (false, "RSI严重超卖，不适合做空")
  else (true, "").

Definition failed (rv : t) (reason : string) : t * (bool * string) :=
  ({| config := config rv; totalValidations := totalValidations rv;
      passedValidations := passedValidations rv;
      failedValidations := int_succ (failedValidations rv) |}, (false, reason)).

(** The six checks in order. The nil tests are those of the helpers: a
    helper that dereferences an argument is only reached once an earlier
    helper has found it non-nil. *)
Definition ValidateExecution (rv : t) (plan : option ExecutionPlan.t)
    (decision : option AIDecision.t) (riskMetrics : option RiskMetrics.t)
    (marketData : option CleanedMarketData.t) : t * (bool * string) :=
  let rv :=
    {| config := config rv; totalValidations := int_succ (totalValidations rv);
       passedValidations := passedValidations rv;
       failedValidations := failedValidations rv |} in
  match validateBasicParameters plan, plan with
  | (false, reason), _ => failed rv reason
  | (true, reason), None => failed rv reason
  | (true, _), Some p =>
      match validateRiskMetrics p riskMetrics with
      | (false, reason) => failed rv reason
      | (true, _) =>
          match validateMarketData p marketData, marketData with
          | (false, reason), _ => failed rv reason
          | (true, reason), None => failed rv reason
          | (true, _), Some data =>
              match validateDecisionConsistency p decision with
              | (false, reason) => failed rv reason
              | (true, _) =>
                  match validateStopLossTakeProfit p data with
                  | (false, reason) => failed rv reason
                  | (true, _) =>
                      match validateLeverageAndPosition p data with
                      | (false, reason) => failed rv reason
                      | (true, _) =>
                          ({| config := config rv;
                              totalValidations := totalValidations rv;
                              passedValidations :=
                                int_succ (passedValidations rv);
                              failedValidations := failedValidations rv |},
                           (true, "风控验证通过"))
                      end
                  end
              end
          end
      end
  end.

End WithRuntime.
End RiskValidator.

(** ** The exchange *)

(** Modelled from the spec: the interface [trader.Trader] is not among the
    sources; these are the methods the order executor calls, with the
    signatures of the test double [MockTrader]. Each field is what the
    exchange answers during one cycle. *)
Record Trader : Type := {
  GetBalance : gmap string Value * error;
  SetLeverage : string -> Z -> error;
  OpenLong : string -> Q -> Z -> string * error;
  OpenShort : string -> Q -> Z -> string * error;
  CloseLong : string -> Q -> string * error;
  CloseShort : string -> Q -> string * error;
  SetStopLoss : string -> string -> Q -> error;
  SetTakeProfit : string -> string -> Q -> error
}.

(** ** Package [data_layer]: the order executor *)

Module OrderExecutor.
Import ExecutionPlan.

Record t : Type := { config : DataLayerConfig.t }.

(** The exchange and the two readings of the clock of [ExecuteOrder]. *)
Record Env : Type := {
  trader : Trader;
  startTime : Z;
  sinceNow : Z
}.

Definition NewOrderExecutor (config : DataLayerConfig.t) : t :=
  {| config := config |}.

Definition GetAccountBalance (oe : t) (tr : Trader) : gmap string Value * error :=
  GetBalance tr.

Definition setOrder (result : OrderResult.t) (orderId : string) (filled : Q)
  : OrderResult.t :=
  {| OrderResult.Success := OrderResult.Success result;
     OrderResult.OrderID := orderId;
     OrderResult.FilledQuantity := filled;
     OrderResult.AvgPrice := OrderResult.AvgPrice result;
     OrderResult.ExecutionTimeMs := OrderResult.ExecutionTimeMs result;
     OrderResult.ErrorMessage := OrderResult.ErrorMessage result;
     OrderResult.Timestamp := OrderResult.Timestamp result |}.

Definition setErrorMessage (result : OrderResult.t) (msg : string)
  : OrderResult.t :=
  {| OrderResult.Success := OrderResult.Success result;
     OrderResult.OrderID := OrderResult.OrderID result;
     OrderResult.FilledQuantity := OrderResult.FilledQuantity result;
     OrderResult.AvgPrice := OrderResult.AvgPrice result;
     OrderResult.ExecutionTimeMs := OrderResult.ExecutionTimeMs result;
     OrderResult.ErrorMessage := msg;
     OrderResult.Timestamp := OrderResult.Timestamp result |}.

Definition finish (result : OrderResult.t) (success : bool) (ms : Z)
    (msg : string) : OrderResult.t :=
  {| OrderResult.Success := success;
     OrderResult.OrderID := OrderResult.OrderID result;
     OrderResult.FilledQuantity := OrderResult.FilledQuantity result;
     OrderResult.AvgPrice := OrderResult.AvgPrice result;
     OrderResult.ExecutionTimeMs := ms;
     OrderResult.ErrorMessage := msg;
     OrderResult.Timestamp := OrderResult.Timestamp result |}.

(** The stop-loss and take-profit calls after an open: their failures are
    recorded as warnings in [ErrorMessage]. *)
Definition setStops (tr : Trader) (side : string) (plan : ExecutionPlan.t)
    (result : OrderResult.t) : OrderResult.t :=
  let result :=
    if (StopLoss plan >? 0)%Q then
      match SetStopLoss tr (Symbol plan) side (StopLoss plan) with
      | Some err =>
          setErrorMessage result ("warning: failed to set stop loss: " +:+ err)
      | None => result
      end
    else result in
  if (TakeProfit plan >? 0)%Q then
    match SetTakeProfit tr (Symbol plan) side (TakeProfit plan) with
    | Some err =>
        let msg := OrderResult.ErrorMessage result in
        let msg := if negb (String.eqb msg "") then msg +:+ "; " else msg in
        setErrorMessage result
          (msg +:+ "warning: failed to set take profit: " +:+ err)
    | None => result
    end
  else result.

Definition executeOpenLong (tr : Trader) (plan : ExecutionPlan.t)
    (result : OrderResult.t) : OrderResult.t * error :=
  match SetLeverage tr (Symbol plan) (Leverage plan) with
  | Some err => (result, Some ("failed to set leverage: " +:+ err))
  | None =>
      match OpenLong tr (Symbol plan) (Quantity plan) (Leverage plan) with
      | (_, Some err) => (result, Some ("failed to open long: " +:+ err))
      | (orderId, None) =>
          (setStops tr "long" plan (setOrder result orderId (Quantity plan)),
           None)
      end
  end.

Definition executeOpenShort (tr : Trader) (plan : ExecutionPlan.t)
    (result : OrderResult.t) : OrderResult.t * error :=
  match SetLeverage tr (Symbol plan) (Leverage plan) with
  | Some err => (result, Some ("failed to set leverage: " +:+ err))
  | None =>
      match OpenShort tr (Symbol plan) (Quantity plan) (Leverage plan) with
      | (_, Some err) => (result, Some ("failed to open short: " +:+ err))
      | (orderId, None) =>
          (setStops tr "short" plan (setOrder result orderId (Quantity plan)),
           None)
      end
  end.

Definition executeCloseLong (tr : Trader) (plan : ExecutionPlan.t)
    (result : OrderResult.t) : OrderResult.t * error :=
  match CloseLong tr (Symbol plan) (Quantity plan) with
  | (_, Some err) => (result, Some ("failed to close long: " +:+ err))
  | (orderId, None) => (setOrder result orderId (Quantity plan), None)
  end.

Definition executeCloseShort (tr : Trader) (plan : ExecutionPlan.t)
    (result : OrderResult.t) : OrderResult.t * error :=
  match CloseShort tr (Symbol plan) (Quantity plan) with
  | (_, Some err) => (result, Some ("failed to close short: " +:+ err))
  | (orderId, None) => (setOrder result orderId (Quantity plan), None)
  end.

Definition ExecuteOrder (oe : t) (env : Env) (plan : option ExecutionPlan.t)
  : OrderResult.t * error :=
  let result :=
    {| OrderResult.Success := false; OrderResult.OrderID := "";
       OrderResult.FilledQuantity := 0; OrderResult.AvgPrice := 0;
       OrderResult.ExecutionTimeMs := 0; OrderResult.ErrorMessage := "";
       OrderResult.Timestamp := startTime env |} in
  match plan with
  | None =>
      (setErrorMessage result "execution plan is nil",
       Some "execution plan is nil")
  | Some plan =>
      if negb (RiskCheckPassed plan) then
        (setErrorMessage result
           ("risk check failed: " +:+ RiskCheckReason plan),
         Some "risk check failed")
      else
        let run :=
          if String.eqb (Action plan) "open_long"
          then Some (executeOpenLong (trader env) plan result)
          else if String.eqb (Action plan) "open_short"
          then Some (executeOpenShort (trader env) plan result)
          else if String.eqb (Action plan) "close_long"
          then Some (executeCloseLong (trader env) plan result)
          else if String.eqb (Action plan) "close_short"
          then Some (executeCloseShort (trader env) plan result)
          else None in
        match run with
        | None =>
            (setErrorMessage result ("unknown action: " +:+ Action plan),
             Some ("unknown action: " +:+ Action plan))
        | Some (result, err) =>
            let ms := Milliseconds (time_Sub (sinceNow env) (startTime env)) in
            match err with
            | Some e =>
                let msg := OrderResult.ErrorMessage result in
                (finish result false ms (if String.eqb msg "" then e else msg),
                 Some e)
            | None =>
                (finish result true ms (OrderResult.ErrorMessage result), None)
            end
        end
  end.

End OrderExecutor.

(** ** Package [execution_layer]: the order sender *)

Module OrderSender.

Record t : Type := {
  config : ExecutionLayerConfig.t;
  orderExecutor : OrderExecutor.t
}.

(** The executor's environment and the two readings of the clock of a
    simulated order. *)
Record Env : Type := {
  executorEnv : OrderExecutor.Env;
  dryRunIdNow : Z;
  dryRunStampNow : Z
}.

Definition NewOrderSender (config : ExecutionLayerConfig.t)
    (executor : OrderExecutor.t) : t :=
  {| config := config; orderExecutor := executor |}.

(** [t.Unix()]: seconds since 1970, the zero time being year 1. *)
Definition time_Unix (t : Z) : Z := t / 10 ^ 9 - 62135596800.

Section WithRuntime.
Context (R : Runtime).

Definition dryRunOrder (os : t) (env : Env) (plan : ExecutionPlan.t)
  : OrderResult.t * error :=
  ({| OrderResult.Success := true;
      OrderResult.OrderID := "DRYRUN-" +:+ fmt_d R (time_Unix (dryRunIdNow env));
      OrderResult.FilledQuantity := ExecutionPlan.Quantity plan;
      OrderResult.AvgPrice := 0;
      OrderResult.ExecutionTimeMs := 10;
      OrderResult.ErrorMessage := "[DRY RUN] This is a simulated order";
      OrderResult.Timestamp := dryRunStampNow env |}, None).

Definition SendOrder (os : t) (env : Env) (plan : ExecutionPlan.t)
  : OrderResult.t * error :=
  if ExecutionLayerConfig.DryRun (config os) then dryRunOrder os env plan
  else OrderExecutor.ExecuteOrder (orderExecutor os) (executorEnv env) (Some plan).

End WithRuntime.

(** The type assertions [params[key].(T)] panic on a missing key or on a
    value of another type. *)
Definition PrepareExecutionPlan (os : t) (now : Z) (decision : AIDecision.t)
    (riskMetrics : RiskMetrics.t) (params : gmap string Value)
    (riskCheckPassed : bool) (riskCheckReason : string)
  : exec ExecutionPlan.t :=
  match params !! "action", params !! "quantity", params !! "quantity_usd",
        params !! "leverage", params !! "stop_loss", params !! "take_profit",
        params !! "max_slippage_percent", params !! "timeout_seconds",
        params !! "priority" with
  | Some (VString action), Some (VFloat quantity), Some (VFloat quantityUSD),
    Some (VInt leverage), Some (VFloat stopLoss), Some (VFloat takeProfit),
    Some (VFloat maxSlippage), Some (VInt timeout), Some (VString priority) =>
      Returns
        {| ExecutionPlan.Symbol := AIDecision.Symbol decision;
           ExecutionPlan.Timestamp := now;
           ExecutionPlan.Action := action;
           ExecutionPlan.Quantity := quantity;
           ExecutionPlan.QuantityUSD := quantityUSD;
           ExecutionPlan.Leverage := leverage;
           ExecutionPlan.StopLoss := stopLoss;
           ExecutionPlan.TakeProfit := takeProfit;
           ExecutionPlan.MaxSlippagePercent := maxSlippage;
           ExecutionPlan.TimeoutSeconds := timeout;
           ExecutionPlan.RiskCheckPassed := riskCheckPassed;
           ExecutionPlan.RiskCheckReason := riskCheckReason;
           ExecutionPlan.Priority := priority;
           ExecutionPlan.SourceDecision := Some decision |}
  | _, _, _, _, _, _, _, _, _ => Panics
  end.

End OrderSender.

(** ** Package [layers]: the orchestrator *)

Module TradingCycleResult.
Record t : Type := {
  StartTime : Z;
  Duration : Z;
  Symbol : string;
  Success : bool;
  Message : string;
  Error : string;
  CleanedData : option CleanedMarketData.t;
  AIDecision : option AIDecision.t;
  RiskMetrics : option RiskMetrics.t;
  ExecutionPlan : option ExecutionPlan.t;
  OrderResult : option OrderResult.t
}.
End TradingCycleResult.

Module Orchestrator.
Import TradingCycleResult.

Record t : Type := {
  config : LayerConfig.t;
  dataProcessor : DataProcessor.t;
  riskCalculator : RiskCalculator.t;
  orderExecutor : OrderExecutor.t;
  decisionMaker : DecisionMaker.t;
  paramCalculator : ParameterCalculator.t;
  riskValidator : RiskValidator.t;
  orderSender : OrderSender.t;
  totalExecutions : Z;
  successfulTrades : Z;
  failedTrades : Z;
  rejectedByRisk : Z
}.

(** What one call of [ExecuteTradingCycle] reads from outside: the
    readings of [time.Now()] of the cycle itself ([durationNow] is the one
    behind [time.Since(startTime)] at whichever return is taken), those of
    the components, the three language-model clients and the exchange. *)
Record Env : Type := {
  startTime : Z;
  cleanedNow : Z;
  decisionEnv : DecisionMaker.Env;
  planNow : Z;
  senderEnv : OrderSender.Env;
  durationNow : Z
}.

Definition exchange (env : Env) : Trader :=
  OrderExecutor.trader (OrderSender.executorEnv (senderEnv env)).

Definition NewOrchestrator (config : LayerConfig.t) : option t * error :=
  let orderExecutor := OrderExecutor.NewOrderExecutor (LayerConfig.DataLayer config) in
  match DecisionMaker.NewDecisionMaker (LayerConfig.AILayer config) with
  | (_, Some err) => (None, Some ("failed to create decision maker: " +:+ err))
  | (decisionMaker, None) =>
      (Some
         {| config := config;
            dataProcessor :=
              DataProcessor.NewDataProcessor (LayerConfig.DataLayer config);
            riskCalculator :=
              RiskCalculator.NewRiskCalculator (LayerConfig.DataLayer config);
            orderExecutor := orderExecutor;
            decisionMaker := decisionMaker;
            paramCalculator :=
              ParameterCalculator.NewParameterCalculator
                (LayerConfig.ExecutionLayer config);
            riskValidator :=
              RiskValidator.NewRiskValidator (LayerConfig.ExecutionLayer config);
            orderSender :=
              OrderSender.NewOrderSender (LayerConfig.ExecutionLayer config)
                orderExecutor;
            totalExecutions := 0;
            successfulTrades := 0;
            failedTrades := 0;
            rejectedByRisk := 0 |}, None)
  end.

(** Field updates of the orchestrator. *)
Definition withComponents (o : t) (rc : RiskCalculator.t) (dm : DecisionMaker.t)
    (rv : RiskValidator.t) : t :=
  {| config := config o; dataProcessor := dataProcessor o;
     riskCalculator := rc; orderExecutor := orderExecutor o;
     decisionMaker := dm; paramCalculator := paramCalculator o;
     riskValidator := rv; orderSender := orderSender o;
     totalExecutions := totalExecutions o;
     successfulTrades := successfulTrades o;
     failedTrades := failedTrades o;
     rejectedByRisk := rejectedByRisk o |}.

Definition withCounters (o : t) (total successful failed rejected : Z) : t :=
  {| config := config o; dataProcessor := dataProcessor o;
     riskCalculator := riskCalculator o; orderExecutor := orderExecutor o;
     decisionMaker := decisionMaker o; paramCalculator := paramCalculator o;
     riskValidator := riskValidator o; orderSender := orderSender o;
     totalExecutions := total;
     successfulTrades := successful;
     failedTrades := failed;
     rejectedByRisk := rejected |}.

Definition countExecution (o : t) : t :=
  withCounters o (int_succ (totalExecutions o)) (successfulTrades o)
    (failedTrades o) (rejectedByRisk o).
Definition countSuccess (o : t) : t :=
  withCounters o (totalExecutions o) (int_succ (successfulTrades o))
    (failedTrades o) (rejectedByRisk o).
Definition countFailure (o : t) : t :=
  withCounters o (totalExecutions o) (successfulTrades o)
    (int_succ (failedTrades o)) (rejectedByRisk o).
Definition countRejection (o : t) : t :=
  withCounters o (totalExecutions o) (successfulTrades o) (failedTrades o)
    (int_succ (rejectedByRisk o)).

(** Field updates of the cycle result. *)
Definition failWith (r : TradingCycleResult.t) (msg : string)
  : TradingCycleResult.t :=
  {| StartTime := StartTime r; Duration := Duration r; Symbol := Symbol r;
     Success := Success r; Message := Message r; Error := msg;
     CleanedData := CleanedData r; AIDecision := AIDecision r;
     RiskMetrics := RiskMetrics r; ExecutionPlan := ExecutionPlan r;
     OrderResult := OrderResult r |}.

Definition succeedWith (r : TradingCycleResult.t) (msg : string) (duration : Z)
  : TradingCycleResult.t :=
  {| StartTime := StartTime r; Duration := duration; Symbol := Symbol r;
     Success := true; Message := msg; Error := Error r;
     CleanedData := CleanedData r; AIDecision := AIDecision r;
     RiskMetrics := RiskMetrics r; ExecutionPlan := ExecutionPlan r;
     OrderResult := OrderResult r |}.

Definition withDuration (r : TradingCycleResult.t) (duration : Z)
  : TradingCycleResult.t :=
  {| StartTime := StartTime r; Duration := duration; Symbol := Symbol r;
     Success := Success r; Message := Message r; Error := Error r;
     CleanedData := CleanedData r; AIDecision := AIDecision r;
     RiskMetrics := RiskMetrics r; ExecutionPlan := ExecutionPlan r;
     OrderResult := OrderResult r |}.

Definition withCleanedData (r : TradingCycleResult.t)
    (c : CleanedMarketData.t) : TradingCycleResult.t :=
  {| StartTime := StartTime r; Duration := Duration r; Symbol := Symbol r;
     Success := Success r; Message := Message r; Error := Error r;
     CleanedData := Some c; AIDecision := AIDecision r;
     RiskMetrics := RiskMetrics r; ExecutionPlan := ExecutionPlan r;
     OrderResult := OrderResult r |}.

Definition withAIDecision (r : TradingCycleResult.t) (d : AIDecision.t)
  : TradingCycleResult.t :=
  {| StartTime := StartTime r; Duration := Duration r; Symbol := Symbol r;
     Success := Success r; Message := Message r; Error := Error r;
     CleanedData := CleanedData r; AIDecision := Some d;
     RiskMetrics := RiskMetrics r; ExecutionPlan := ExecutionPlan r;
     OrderResult := OrderResult r |}.

Definition withRiskMetrics (r : TradingCycleResult.t) (m : RiskMetrics.t)
  : TradingCycleResult.t :=
  {| StartTime := StartTime r; Duration := Duration r; Symbol := Symbol r;
     Success := Success r; Message := Message r; Error := Error r;
     CleanedData := CleanedData r; AIDecision := AIDecision r;
     RiskMetrics := Some m; ExecutionPlan := ExecutionPlan r;
     OrderResult := OrderResult r |}.

Definition withExecutionPlan (r : TradingCycleResult.t) (p : ExecutionPlan.t)
  : TradingCycleResult.t :=
  {| StartTime := StartTime r; Duration := Duration r; Symbol := Symbol r;
     Success := Success r; Message := Message r; Error := Error r;
     CleanedData := CleanedData r; AIDecision := AIDecision r;
     RiskMetrics := RiskMetrics r; ExecutionPlan := Some p;
     OrderResult := OrderResult r |}.

Definition withOrderResult (r : TradingCycleResult.t) (x : OrderResult.t)
  : TradingCycleResult.t :=
  {| StartTime := StartTime r; Duration := Duration r; Symbol := Symbol r;
     Success := Success r; Message := Message r; Error := Error r;
     CleanedData := CleanedData r; AIDecision := AIDecision r;
     RiskMetrics := RiskMetrics r; ExecutionPlan := ExecutionPlan r;
     OrderResult := Some x |}.

(** [executionPlan.RiskCheckPassed = passed; executionPlan.RiskCheckReason =
    reason]: the plan is stamped through the pointer that the result
    already holds, so the result shows the stamped plan. *)
Definition stamp (p : ExecutionPlan.t) (passed : bool) (reason : string)
  : ExecutionPlan.t :=
  {| ExecutionPlan.Symbol := ExecutionPlan.Symbol p;
     ExecutionPlan.Timestamp := ExecutionPlan.Timestamp p;
     ExecutionPlan.Action := ExecutionPlan.Action p;
     ExecutionPlan.Quantity := ExecutionPlan.Quantity p;
     ExecutionPlan.QuantityUSD := ExecutionPlan.QuantityUSD p;
     ExecutionPlan.Leverage := ExecutionPlan.Leverage p;
     ExecutionPlan.StopLoss := ExecutionPlan.StopLoss p;
     ExecutionPlan.TakeProfit := ExecutionPlan.TakeProfit p;
     ExecutionPlan.MaxSlippagePercent := ExecutionPlan.MaxSlippagePercent p;
     ExecutionPlan.TimeoutSeconds := ExecutionPlan.TimeoutSeconds p;
     ExecutionPlan.RiskCheckPassed := passed;
     ExecutionPlan.RiskCheckReason := reason;
     ExecutionPlan.Priority := ExecutionPlan.Priority p;
     ExecutionPlan.SourceDecision := ExecutionPlan.SourceDecision p |}.

Section WithRuntime.
Context (R : Runtime).

(** The state the orchestrator is left in, and what the call returns. A
    panic leaves the state as it was when the panic was raised. *)
Definition ExecuteTradingCycle (o : t) (env : Env)
    (rawMarketData : option market.Data)
  : t * exec (TradingCycleResult.t * error) :=
  let o := countExecution o in
  match rawMarketData with
  | None => (o, Panics)
  | Some raw =>
  let duration := time_Sub (durationNow env) (startTime env) in
  let result :=
    {| StartTime := startTime env; Duration := 0;
       Symbol := market.Symbol raw; Success := false; Message := "";
       Error := ""; CleanedData := None; AIDecision := None;
       RiskMetrics := None; ExecutionPlan := None; OrderResult := None |} in
  match DataProcessor.ProcessMarketData R (dataProcessor o) (cleanedNow env)
          rawMarketData with
  | (_, Some err) =>
      (o, Returns (failWith result ("数据处理失败: " +:+ err), Some err))
  | (None, None) => (o, Panics)
  | (Some cleanedData, None) =>
  let result := withCleanedData result cleanedData in
  match OrderExecutor.GetAccountBalance (orderExecutor o) (exchange env) with
  | (_, Some err) =>
      (o, Returns (failWith result ("获取账户信息失败: " +:+ err), Some err))
  | (balance, None) =>
  match balance !! "total", balance !! "available", balance !! "used_margin" with
  | Some (VFloat totalBalance), Some (VFloat availableBalance),
    Some (VFloat usedMargin) =>
  let rc :=
    RiskCalculator.UpdateAccountInfo (riskCalculator o) totalBalance
      availableBalance usedMargin in
  let o := withComponents o rc (decisionMaker o) (riskValidator o) in
  match DecisionMaker.MakeDecision R (decisionMaker o) (decisionEnv env)
          (Some cleanedData) with
  | (dm, Panics) => (withComponents o rc dm (riskValidator o), Panics)
  | (dm, Returns (_, Some err)) =>
      (withComponents o rc dm (riskValidator o),
       Returns (failWith result ("AI决策失败: " +:+ err), Some err))
  | (dm, Returns (aiDecision, None)) =>
  let o := withComponents o rc dm (riskValidator o) in
  let result := withAIDecision result aiDecision in
  if String.eqb (AIDecision.Direction aiDecision) DirectionWait then
    (o, Returns (succeedWith result "AI决策：观望，不执行交易" duration, None))
  else
  match RiskCalculator.CalculateRiskMetrics R rc
          (AIDecision.Direction aiDecision) (Some cleanedData) with
  | (_, Some err) =>
      (o, Returns (failWith result ("风险计算失败: " +:+ err), Some err))
  | (None, None) => (o, Panics)
  | (Some riskMetrics, None) =>
  let result := withRiskMetrics result riskMetrics in
  if negb (RiskMetrics.CanTrade riskMetrics) then
    (countRejection o,
     Returns (succeedWith result
                ("风险检查阻止交易: " +:+ RiskMetrics.RiskReason riskMetrics)
                duration, None))
  else
  match ParameterCalculator.CalculateParameters (paramCalculator o)
          (Some aiDecision) (Some riskMetrics) (Some cleanedData) with
  | (_, Some err) =>
      (o, Returns (failWith result ("参数计算失败: " +:+ err), Some err))
  | (None, None) => (o, Panics)
  | (Some params, None) =>
  match OrderSender.PrepareExecutionPlan (orderSender o) (planNow env)
          aiDecision riskMetrics params true "初步检查通过" with
  | Panics => (o, Panics)
  | Returns executionPlan =>
  let '(rv, (riskCheckPassed, riskCheckReason)) :=
    RiskValidator.ValidateExecution R (riskValidator o) (Some executionPlan)
      (Some aiDecision) (Some riskMetrics) (Some cleanedData) in
  let o := withComponents o rc dm rv in
  let executionPlan := stamp executionPlan riskCheckPassed riskCheckReason in
  let result := withExecutionPlan result executionPlan in
  if negb riskCheckPassed then
    (countRejection o,
     Returns (succeedWith result ("二次风控验证失败: " +:+ riskCheckReason)
                duration, None))
  else
  match OrderSender.SendOrder R (orderSender o) (senderEnv env)
          executionPlan with
  | (_, Some err) =>
      (countFailure o,
       Returns (failWith result ("订单发送失败: " +:+ err), Some err))
  | (orderResult, None) =>
      let result := withOrderResult result orderResult in
      if OrderResult.Success orderResult then
        (countSuccess o,
         Returns (succeedWith result "交易执行成功" duration, None))
      else
        (countFailure o,
         Returns (withDuration
                    (failWith result (OrderResult.ErrorMessage orderResult))
                    duration, None))
  end end end end end
  | _, _, _ => (o, Panics)
  end end end end.

End WithRuntime.

Definition UpdateAccountInfo (o : t) (totalBalance availableBalance usedMargin : Q)
  : t :=
  withComponents o
    (RiskCalculator.UpdateAccountInfo (riskCalculator o) totalBalance
       availableBalance usedMargin)
    (decisionMaker o) (riskValidator o).

Definition UpdateDailyPnL (o : t) (pnl : Q) : t :=
  withComponents o (RiskCalculator.UpdateDailyPnL (riskCalculator o) pnl)
    (decisionMaker o) (riskValidator o).

Definition RecordTradeResult (o : t) (isWin : bool) : t :=
  withComponents o (RiskCalculator.RecordTradeResult (riskCalculator o) isWin)
    (decisionMaker o) (riskValidator o).

Definition ResetCircuitBreaker (o : t) : t :=
  withComponents o (RiskCalculator.ResetCircuitBreaker (riskCalculator o))
    (decisionMaker o) (riskValidator o).

End Orchestrator.

(** ** Sequences of calls on one orchestrator *)

Inductive Call : Type :=
| CallExecuteTradingCycle (env : Orchestrator.Env) (raw : option market.Data)
| CallUpdateAccountInfo (totalBalance availableBalance usedMargin : Q)
| CallUpdateDailyPnL (pnl : Q)
| CallRecordTradeResult (isWin : bool)
| CallResetCircuitBreaker.

Definition isCycle (c : Call) : bool :=
  match c with CallExecuteTradingCycle _ _ => true | _ => false end.

Definition call (R : Runtime) (o : Orchestrator.t) (c : Call) : Orchestrator.t :=
  match c with
  | CallExecuteTradingCycle env raw =>
      fst (Orchestrator.ExecuteTradingCycle R o env raw)
  | CallUpdateAccountInfo total available used =>
      Orchestrator.UpdateAccountInfo o total available used
  | CallUpdateDailyPnL pnl => Orchestrator.UpdateDailyPnL o pnl
  | CallRecordTradeResult isWin => Orchestrator.RecordTradeResult o isWin
  | CallResetCircuitBreaker => Orchestrator.ResetCircuitBreaker o
  end.

Definition run (R : Runtime) (o : Orchestrator.t) (calls : list Call)
  : Orchestrator.t :=
  fold_left (call R) calls o.

(** The counters after [n] cycles that have not wrapped around. *)
Definition countersWithin (n : Z) (o : Orchestrator.t) : Prop :=
  Orchestrator.totalExecutions o = n
  /\ 0 <= Orchestrator.successfulTrades o
  /\ 0 <= Orchestrator.failedTrades o
  /\ 0 <= Orchestrator.rejectedByRisk o
  /\ Orchestrator.successfulTrades o + Orchestrator.failedTrades o
     + Orchestrator.rejectedByRisk o <= n.

Definition cycles (calls : list Call) : Z :=
  Z.of_nat (List.length (List.filter isCycle calls)).

(** ** The statements of the specification, in its own words *)

Module Spec.

(** Invariant 1 of the specification on a cleaned record. *)
Definition cleanedInRange (c : CleanedMarketData.t) : Prop :=
  (0 <= CleanedMarketData.RSI7 c <= 100
   /\ 0 <= CleanedMarketData.RSI14 c <= 100
   /\ 0 <= CleanedMarketData.OpenInterest c
   /\ Qabs (CleanedMarketData.PriceChange1h c) <= 50
   /\ Qabs (CleanedMarketData.PriceChange4h c) <= 100)%Q.

(** The same bounds on the raw input, with the RSI14 that the processor
    selects from it. *)
Definition rawInRange (raw : market.Data) : Prop :=
  (0 <= market.CurrentRSI7 raw <= 100
   /\ 0 <= DataProcessor.calculateRSI14 raw <= 100
   /\ 0 <= match market.OpenInterest raw with
           | Some oi => market.Latest oi | None => 0 end
   /\ Qabs (market.PriceChange1h raw) <= 50
   /\ Qabs (market.PriceChange4h raw) <= 100)%Q.

(** The leverage recommendation as the specification words it: the
    thresholds are inclusive and the result is clamped to [1, max]. *)
Definition recommendedLeverage (defaultLeverage maxLeverage : Z)
    (atr price rsi14 : Q) : Z :=
  let volatility :=
    if (atr / price >=? 0.05)%Q then 2
    else if (atr / price >=? 0.03)%Q then 1 else 0 in
  let extremeRSI :=
    if ((0 <=? rsi14)%Q && (rsi14 <=? 30)%Q)
       || ((70 <=? rsi14)%Q && (rsi14 <=? 100)%Q) then 1 else 0 in
  Z.min maxLeverage (Z.max 1 (defaultLeverage - volatility - extremeRSI)).

(** The breakout rule as the specification words it. *)
Definition breakoutRule (d : CleanedMarketData.t) : Prop :=
  (CleanedMarketData.EMA20 d < CleanedMarketData.CurrentPrice d
   /\ CleanedMarketData.EMA50 d < CleanedMarketData.EMA20 d
   /\ 50 < CleanedMarketData.VolumeChange d)%Q.

(** The message the specification gives a data-quality rejection. *)
Definition dataQualityMessage : string := "rejected: data quality".

End Spec.

(** ** The rules of the classifier as propositions *)

(** The first block of [AnalyzeMarketConditionWithTechnicals] returns. *)
Definition trendingFires (d : CleanedMarketData.t) : Prop :=
  let spread :=
    ((CleanedMarketData.EMA20 d - CleanedMarketData.EMA50 d)
     / CleanedMarketData.EMA50 d * 100)%Q in
  (0 < CleanedMarketData.EMA20 d /\ 0 < CleanedMarketData.EMA50 d
   /\ (2 < spread \/ spread < - 2)
   /\ ((0 < spread /\ 0 < CleanedMarketData.MACD d)
       \/ (spread < 0 /\ CleanedMarketData.MACD d < 0)))%Q.

Definition breakoutFires (d : CleanedMarketData.t) : Prop :=
  (CleanedMarketData.EMA20 d < CleanedMarketData.CurrentPrice d
   /\ CleanedMarketData.EMA50 d < CleanedMarketData.CurrentPrice d
   /\ 50 < CleanedMarketData.VolumeChange d)%Q.

Definition consolidateFires (d : CleanedMarketData.t) : Prop :=
  (40 < CleanedMarketData.RSI14 d /\ CleanedMarketData.RSI14 d < 60
   /\ - 0.0001 < CleanedMarketData.MACD d
   /\ CleanedMarketData.MACD d < 0.0001)%Q.

(** ** Margins of the statements on float64 values *)

(** The margin of the statements: one millionth, ten orders of magnitude
    above the relative error of one float64 operation. *)
Definition tolerance : Q := 1 # 1000000.

(** A magnitude between 10^-100 and 10^100: the sums, products and
    quotients of a few such values neither overflow nor lose precision in
    float64. *)
Definition ordinary (x : Q) : Prop :=
  (/ inject_Z (10 ^ 100) <= x <= inject_Z (10 ^ 100))%Q.

Definition ordinaryOrZero (x : Q) : Prop := (x == 0)%Q \/ ordinary x.

(** [x] is [y] up to the tolerance, taken relative to [scale]. *)
Definition within (x y scale : Q) : Prop :=
  (y - tolerance * scale <= x <= y + tolerance * scale)%Q.

(** The trending rule with its threshold of 2 percent moved to [bound]:
    both averages positive, the spread beyond [bound] on one side and the
    MACD on the same side. At [bound = 2] this is [trendingFires]. *)
Definition trendingBeyond (bound : Q) (d : CleanedMarketData.t) : Prop :=
  let spread :=
    ((CleanedMarketData.EMA20 d - CleanedMarketData.EMA50 d)
     / CleanedMarketData.EMA50 d * 100)%Q in
  (0 < CleanedMarketData.EMA20 d /\ 0 < CleanedMarketData.EMA50 d
   /\ ((bound < spread /\ 0 < CleanedMarketData.MACD d)
       \/ (spread < - bound /\ CleanedMarketData.MACD d < 0)))%Q.

(** The volatile rule, ATR above 5 percent of the price, with its
    threshold moved to [bound]. *)
Definition volatileBeyond (bound : Q) (d : CleanedMarketData.t) : Prop :=
  (0 < CleanedMarketData.ATR d /\ 0 < CleanedMarketData.CurrentPrice d
   /\ bound < CleanedMarketData.ATR d / CleanedMarketData.CurrentPrice d * 100)%Q.

(** ** The pre-check of the risk calculator *)

(** [CalculateRiskMetrics] goes past its two early returns. *)
Definition preCheckPasses (rc : RiskCalculator.t) : Prop :=
  RiskCalculator.circuitBreakerActive rc = false
  /\ (0 < RiskCalculator.totalBalance rc)%Q
  /\ (0 < RiskCalculator.availableBalance rc)%Q.

(** ** What [AdjustParametersForRisk] does to one entry *)


Definition lowered (v : Value) : Value :=
  match v with VInt l => VInt (int_max1_sub l 1) | _ => v end.

(** What the product with a constant [factor] from 0 to 1 does to a
    float64 [x], the product [y] being computed in float64: it keeps the
    sign, does not grow in magnitude, and is [x * factor] up to the
    tolerance when [x] has an ordinary magnitude. *)
Definition scaledBy (factor x y : Q) : Prop :=
  ((0 <= x)%Q -> (0 <= y <= x)%Q)
  /\ ((x <= 0)%Q -> (x <= y <= 0)%Q)
  /\ (ordinary x -> within y (x * factor) x)
  /\ (ordinary (- x) -> within y (x * factor) (- x)).


(** ** Reference inputs: a runtime, and the fixtures of the tests *)

Module Fixtures.

(** [%.Nf] of a rational: [q * 10^N] rounded half to even, printed in
    fixed point. *)
Definition roundHalfEven (q : Q) : Z :=
  let num := Qnum q in
  let den := Zpos (Qden q) in
  let floor := num / den in
  let twice := 2 * (num mod den) in
  if twice <? den then floor
  else if den <? twice then floor + 1
  else if Z.even floor then floor else floor + 1.

Fixpoint digits (n : nat) (z : Z) : string :=
  match n with
  | O => EmptyString
  | S n' =>
      digits n' (z / 10)
      +:+ String (ascii_of_nat (48 + Z.to_nat (z mod 10))) EmptyString
  end.

Definition natural (z : Z) : string :=
  digits (Nat.max 1 (Z.to_nat (Z.log2 z / 3 + 1))) z.

(** Leading zeros of [natural] are dropped, the last digit is kept. *)
Fixpoint trimZeros (s : string) : string :=
  match s with
  | String c (String _ _ as rest) =>
      if Ascii.eqb c (ascii_of_nat 48) then trimZeros rest else s
  | _ => s
  end.

Definition formatInt (z : Z) : string :=
  (if z <? 0 then "-" else "") +:+ trimZeros (natural (Z.abs z)).

Definition formatFixed (precision : nat) (q : Q) : string :=
  let scale := 10 ^ Z.of_nat precision in
  let r := roundHalfEven (q * inject_Z scale)%Q in
  let whole := Z.abs r / scale in
  let frac := Z.abs r mod scale in
  (if r <? 0 then "-" else "") +:+ trimZeros (natural whole)
  +:+ match precision with
      | O => ""
      | S _ => "." +:+ digits precision frac
      end.

(** A runtime for which every response of the language model fails to
    decode. *)
Definition runtime : Runtime :=
  {| fmt_f := formatFixed;
     fmt_d := formatInt;
     json_condition := fun _ => None;
     json_opportunity := fun _ => None;
     json_decision := fun _ => None |}.

(** A runtime whose final-decision decoder yields a fixed object. *)
Definition runtimeDecoding (direction : string) (confidence : Q) : Runtime :=
  {| fmt_f := formatFixed;
     fmt_d := formatInt;
     json_condition := fun _ => None;
     json_opportunity := fun _ => None;
     json_decision := fun _ => Some (direction, confidence, "ok") |}.

(** [getTestConfig] of [orchestrator_test.go]. *)
Definition getTestConfig : LayerConfig.t :=
  {| LayerConfig.DataLayer :=
       {| DataLayerConfig.DataSources := [];
          DataLayerConfig.MinDataQuality := 0.8;
          DataLayerConfig.MaxAccountRiskPercent := 2.0;
          DataLayerConfig.MaxSingleTradeRiskPercent := 1.0;
          DataLayerConfig.DefaultLeverage := 3;
          DataLayerConfig.MaxLeverage := 5;
          DataLayerConfig.CircuitBreakerEnabled := false;
          DataLayerConfig.MaxDailyLossPercent := 5.0;
          DataLayerConfig.MaxConsecutiveLosses := 3 |};
     LayerConfig.AILayer :=
       {| AILayerConfig.Provider := "deepseek";
          AILayerConfig.Model := "deepseek-chat";
          AILayerConfig.APIKey := "test_key";
          AILayerConfig.BaseURL := "";
          AILayerConfig.MinConfidence := 0.75;
          AILayerConfig.EnableChainOfThought := false;
          AILayerConfig.MaxPromptLength := 650;
          AILayerConfig.MaxDecisionsPerHour := 100;
          AILayerConfig.CooldownMinutes := 0 |};
     LayerConfig.ExecutionLayer :=
       {| ExecutionLayerConfig.EnableSecondaryRiskCheck := true;
          ExecutionLayerConfig.MaxSlippagePercent := 0.5;
          ExecutionLayerConfig.OrderTimeoutSeconds := 30;
          ExecutionLayerConfig.EnablePositionSizing := true;
          ExecutionLayerConfig.PositionSizingMethod := "fixed";
          ExecutionLayerConfig.DryRun := true;
          ExecutionLayerConfig.RequireManualConfirmation := false |} |}.

(** [getTestMarketData] of [orchestrator_test.go], with the fields a test
    varies as arguments. *)
Definition marketData (symbol : string) (price rsi7 change1h change4h latestOI : Q)
    (rsi14Values : list Q) : market.Data :=
  {| market.Symbol := symbol;
     market.CurrentPrice := price;
     market.PriceChange1h := change1h;
     market.PriceChange4h := change4h;
     market.CurrentEMA20 := 44800.0;
     market.CurrentMACD := 0.0234;
     market.CurrentRSI7 := rsi7;
     market.FundingRate := 0.0001;
     market.OpenInterest :=
       Some {| market.Latest := latestOI; market.Average := 950000000.0 |};
     market.IntradaySeries :=
       Some {| market.MidPrices := [44500; 44600; 44800; 45000]%Q;
               market.EMA20Values := [44400; 44500; 44650; 44800]%Q;
               market.MACDValues := [0.01; 0.015; 0.020; 0.023]%Q;
               market.RSI7Values := [60; 62; 64; 65.5]%Q;
               market.RSI14Values := rsi14Values |};
     market.LongerTermContext :=
       Some {| market.EMA20 := 44800.0;
               market.EMA50 := 44200.0;
               market.ATR3 := 200.0;
               market.ATR14 := 250.0;
               market.CurrentVolume := 5000000.0;
               market.AverageVolume := 4500000.0 |} |}.

Definition getTestMarketData : market.Data :=
  marketData "BTCUSDT" 45000.0 65.5 2.5 5.8 1000000000.0 [58; 59; 60; 62]%Q.

(** A raw record whose indicators are outside their nominal ranges, with
    no intraday RSI14 sample. *)
Definition outOfRangeMarketData : market.Data :=
  marketData "BTCUSDT" 45000.0 150 80 (-200) (-5) [].

(** A raw record whose symbol alone is 700 bytes long. *)
Definition longSymbol : string := String.concat "" (repeat "A" 700).
Definition longMarketData : market.Data :=
  marketData longSymbol 45000.0 65.5 2.5 5.8 1000000000.0 [58; 59; 60; 62]%Q.

(** A cleaned record with the given indicators, as the tests of the risk
    calculator build them. *)
Definition indicators (price ema20 ema50 macd rsi14 atr volumeChange : Q)
  : CleanedMarketData.t :=
  {| CleanedMarketData.Symbol := "BTCUSDT"; CleanedMarketData.Timestamp := 0;
     CleanedMarketData.CurrentPrice := price;
     CleanedMarketData.PriceChange1h := 0;
     CleanedMarketData.PriceChange4h := 0;
     CleanedMarketData.PriceChange24h := 0;
     CleanedMarketData.EMA20 := ema20; CleanedMarketData.EMA50 := ema50;
     CleanedMarketData.MACD := macd; CleanedMarketData.MACDSignal := 0;
     CleanedMarketData.RSI7 := 0; CleanedMarketData.RSI14 := rsi14;
     CleanedMarketData.ATR := atr; CleanedMarketData.Volume24h := 0;
     CleanedMarketData.VolumeChange := volumeChange;
     CleanedMarketData.OpenInterest := 0; CleanedMarketData.OIChange := 0;
     CleanedMarketData.FundingRate := 0;
     CleanedMarketData.LongShortRatio := 0;
     CleanedMarketData.TopTraderRatio := 0;
     CleanedMarketData.DataQuality := 0;
     CleanedMarketData.IsValid := false;
     CleanedMarketData.CompressedSummary := "" |}.

(** The risk calculator of the tests:
    [NewRiskCalculator(config)] then [UpdateAccountInfo(10000, 8000, 2000)]. *)
Definition freshCalculator : RiskCalculator.t :=
  RiskCalculator.NewRiskCalculator (LayerConfig.DataLayer getTestConfig).
Definition fundedCalculator : RiskCalculator.t :=
  RiskCalculator.UpdateAccountInfo freshCalculator 10000.0 8000.0 2000.0.

(** The low-quality record of [data_processor_test.go]: a price of 0. *)
Definition lowQualityMarketData : market.Data :=
  marketData "BTCUSDT" 0 65.5 2.5 5.8 1000000000.0 [58; 59; 60; 62]%Q.

(** The test record with an RSI7 of 0: its quality is 0.7, below the
    threshold 0.8, and the rules still find a short entry in it. *)
Definition invalidMarketData : market.Data :=
  marketData "BTCUSDT" 45000.0 0 2.5 5.8 1000000000.0 [58; 59; 60; 62]%Q.



(** [MockTrader] of [orchestrator_test.go]. *)
Definition MockTrader : Trader :=
  {| GetBalance :=
       (<["total" := VFloat 10000.0]>
          (<["available" := VFloat 8000.0]>
             (<["used_margin" := VFloat 2000.0]> ∅)), None);
     SetLeverage := fun _ _ => None;
     OpenLong := fun _ _ _ => ("ORDER_123456", None);
     OpenShort := fun _ _ _ => ("ORDER_123457", None);
     CloseLong := fun _ _ => ("ORDER_123458", None);
     CloseShort := fun _ _ => ("ORDER_123459", None);
     SetStopLoss := fun _ _ _ => None;
     SetTakeProfit := fun _ _ _ => None |}.

(** A wall clock that stands at [now] for a whole cycle, and a language
    model that answers every call with [answer]. *)
Definition environment (now : Z) (answer : reply) : Orchestrator.Env :=
  {| Orchestrator.startTime := now;
     Orchestrator.cleanedNow := now;
     Orchestrator.decisionEnv :=
       {| DecisionMaker.startTime := now;
          DecisionMaker.rateCheckNow := now;
          DecisionMaker.sinceNow := now;
          DecisionMaker.updateNow := now;
          DecisionMaker.sendCondition := fun _ _ => answer;
          DecisionMaker.sendOpportunity := fun _ _ => answer;
          DecisionMaker.sendDecision := fun _ _ => answer |};
     Orchestrator.planNow := now;
     Orchestrator.senderEnv :=
       {| OrderSender.executorEnv :=
            {| OrderExecutor.trader := MockTrader;
               OrderExecutor.startTime := now;
               OrderExecutor.sinceNow := now |};
          OrderSender.dryRunIdNow := now;
          OrderSender.dryRunStampNow := now |};
     Orchestrator.durationNow := now |}.

(** Some instant of 2026, in nanoseconds since the zero time. *)
Definition someTime : Z := 63900000000 * 10 ^ 9.

Definition unreachable : reply := Failure "connection refused".

(** The orchestrator [NewOrchestrator(getTestConfig(), &MockTrader{})]. *)
Definition orchestrator : Orchestrator.t :=
  match Orchestrator.NewOrchestrator getTestConfig with
  | (Some o, _) => o
  | (None, _) =>
      Orchestrator.withCounters
        {| Orchestrator.config := getTestConfig;
           Orchestrator.dataProcessor :=
             DataProcessor.NewDataProcessor (LayerConfig.DataLayer getTestConfig);
           Orchestrator.riskCalculator :=
             RiskCalculator.NewRiskCalculator (LayerConfig.DataLayer getTestConfig);
           Orchestrator.orderExecutor :=
             OrderExecutor.NewOrderExecutor (LayerConfig.DataLayer getTestConfig);
           Orchestrator.decisionMaker :=
             fst (DecisionMaker.NewDecisionMaker (LayerConfig.AILayer getTestConfig));
           Orchestrator.paramCalculator :=
             ParameterCalculator.NewParameterCalculator
               (LayerConfig.ExecutionLayer getTestConfig);
           Orchestrator.riskValidator :=
             RiskValidator.NewRiskValidator (LayerConfig.ExecutionLayer getTestConfig);
           Orchestrator.orderSender :=
             OrderSender.NewOrderSender (LayerConfig.ExecutionLayer getTestConfig)
               (OrderExecutor.NewOrderExecutor (LayerConfig.DataLayer getTestConfig));
           Orchestrator.totalExecutions := 0;
           Orchestrator.successfulTrades := 0;
           Orchestrator.failedTrades := 0;
           Orchestrator.rejectedByRisk := 0 |} 0 0 0 0
  end.

(** The cleaned record of a raw one, under the test configuration. *)
Definition cleaned (raw : market.Data) : CleanedMarketData.t :=
  match DataProcessor.ProcessMarketData runtime
          (Orchestrator.dataProcessor orchestrator) someTime (Some raw) with
  | (Some c, _) => c
  | (None, _) =>
      {| CleanedMarketData.Symbol := ""; CleanedMarketData.Timestamp := 0;
         CleanedMarketData.CurrentPrice := 0;
         CleanedMarketData.PriceChange1h := 0;
         CleanedMarketData.PriceChange4h := 0;
         CleanedMarketData.PriceChange24h := 0;
         CleanedMarketData.EMA20 := 0; CleanedMarketData.EMA50 := 0;
         CleanedMarketData.MACD := 0; CleanedMarketData.MACDSignal := 0;
         CleanedMarketData.RSI7 := 0; CleanedMarketData.RSI14 := 0;
         CleanedMarketData.ATR := 0; CleanedMarketData.Volume24h := 0;
         CleanedMarketData.VolumeChange := 0;
         CleanedMarketData.OpenInterest := 0; CleanedMarketData.OIChange := 0;
         CleanedMarketData.FundingRate := 0;
         CleanedMarketData.LongShortRatio := 0;
         CleanedMarketData.TopTraderRatio := 0;
         CleanedMarketData.DataQuality := 0;
         CleanedMarketData.IsValid := false;
         CleanedMarketData.CompressedSummary := "" |}
  end.

(** Two cycles with the mutators of the orchestrator in between. *)
Definition session : list Call :=
  [ CallExecuteTradingCycle (environment someTime unreachable)
      (Some getTestMarketData);
    CallUpdateAccountInfo 10000.0 8000.0 2000.0;
    CallUpdateDailyPnL (-600);
    CallRecordTradeResult false;
    CallResetCircuitBreaker;
    CallExecuteTradingCycle (environment (someTime + time_Hour) unreachable)
      (Some lowQualityMarketData) ].

End Fixtures.


(** ** Further operations of the packages *)

(** *** [data_layer]: batch processing *)

(** The loop of [BatchProcessMarketData]. [clock i] is the reading of
    [time.Now()] while the item at position [i] is processed; [cleaned] is
    the slice built so far. A nil record with a nil error would be
    dereferenced. *)
Fixpoint batchProcessLoop (R : Runtime) (dp : DataProcessor.t)
    (clock : nat -> Z) (i : nat) (rawDataList : list (option market.Data))
    (cleaned : list CleanedMarketData.t) : exec (list CleanedMarketData.t) :=
  match rawDataList with
  | [] => Returns cleaned
  | rawData :: rest =>
      match rawData with
      | None => batchProcessLoop R dp clock (S i) rest cleaned
      | Some _ =>
          match DataProcessor.ProcessMarketData R dp (clock i) rawData with
          | (_, Some _) => batchProcessLoop R dp clock (S i) rest cleaned
          | (None, None) => Panics
          | (Some cleanedData, None) =>
              if CleanedMarketData.IsValid cleanedData
              then batchProcessLoop R dp clock (S i) rest
                     (cleaned ++ [cleanedData])
              else batchProcessLoop R dp clock (S i) rest cleaned
          end
      end
  end.

Definition BatchProcessMarketData (R : Runtime) (dp : DataProcessor.t)
    (clock : nat -> Z) (rawDataList : list (option market.Data))
  : exec (option (list CleanedMarketData.t) * error) :=
  match batchProcessLoop R dp clock 0 rawDataList [] with
  | Panics => Panics
  | Returns cleaned =>
      if (List.length cleaned =? 0)%nat
      then Returns (None, Some "no valid data after cleaning")
      else Returns (Some cleaned, None)
  end.

(** *** [data_layer]: the account summary of the risk calculator *)

Definition GetAccountRiskSummary (rc : RiskCalculator.t) : gmap string Value :=
  let marginUsagePercent :=
    if (RiskCalculator.totalBalance rc >? 0)%Q
    then (RiskCalculator.usedMargin rc / RiskCalculator.totalBalance rc * 100)%Q
    else 0%Q in
  <["total_balance" := VFloat (RiskCalculator.totalBalance rc)]>
    (<["available_balance" := VFloat (RiskCalculator.availableBalance rc)]>
       (<["used_margin" := VFloat (RiskCalculator.usedMargin rc)]>
          (<["margin_usage_percent" := VFloat marginUsagePercent]>
             (<["daily_pnl" := VFloat (RiskCalculator.dailyPnL rc)]>
                (<["consecutive_losses" :=
                     VInt (RiskCalculator.consecutiveLosses rc)]>
                   (<["circuit_breaker_active" :=
                        VBool (RiskCalculator.circuitBreakerActive rc)]> ∅)))))).

(** [n] losing trades recorded one after the other. *)
Definition recordLosses (n : nat) (rc : RiskCalculator.t) : RiskCalculator.t :=
  Nat.iter n (fun rc => RiskCalculator.RecordTradeResult rc false) rc.

(** *** [data_layer]: the dry run of the order executor

    Both functions dereference their plan at once; the model takes the
    plan of a call that gets past that. *)

Definition ValidateOrderParameters (R : Runtime) (oe : OrderExecutor.t)
    (plan : ExecutionPlan.t) : error :=
  if String.eqb (ExecutionPlan.Symbol plan) "" then Some "symbol is empty"
  else if (ExecutionPlan.Quantity plan <=? 0)%Q then
    Some ("quantity must be positive: " +:+ fmt_f R 6 (ExecutionPlan.Quantity plan))
  else if (ExecutionPlan.Leverage plan <? 1)
          || (ExecutionPlan.Leverage plan
              >? DataLayerConfig.MaxLeverage (OrderExecutor.config oe)) then
    Some ("invalid leverage: " +:+ fmt_d R (ExecutionPlan.Leverage plan)
          +:+ " (max: "
          +:+ fmt_d R (DataLayerConfig.MaxLeverage (OrderExecutor.config oe))
          +:+ ")")
  else if negb (String.eqb (ExecutionPlan.Action plan) "open_long")
          && negb (String.eqb (ExecutionPlan.Action plan) "open_short")
          && negb (String.eqb (ExecutionPlan.Action plan) "close_long")
          && negb (String.eqb (ExecutionPlan.Action plan) "close_short") then
    Some ("invalid action: " +:+ ExecutionPlan.Action plan)
  else None.

(** [idNow] and [stampNow] are the two readings of [time.Now()]. *)
Definition DryRunOrder (R : Runtime) (oe : OrderExecutor.t) (idNow stampNow : Z)
    (plan : ExecutionPlan.t) : OrderResult.t * error :=
  let result :=
    {| OrderResult.Success := true;
       OrderResult.OrderID := "DRYRUN-" +:+ fmt_d R (OrderSender.time_Unix idNow);
       OrderResult.FilledQuantity := ExecutionPlan.Quantity plan;
       OrderResult.AvgPrice := 0;
       OrderResult.ExecutionTimeMs := 0;
       OrderResult.ErrorMessage := "";
       OrderResult.Timestamp := stampNow |} in
  match ValidateOrderParameters R oe plan with
  | Some err =>
      ({| OrderResult.Success := false;
          OrderResult.OrderID := OrderResult.OrderID result;
          OrderResult.FilledQuantity := OrderResult.FilledQuantity result;
          OrderResult.AvgPrice := OrderResult.AvgPrice result;
          OrderResult.ExecutionTimeMs := OrderResult.ExecutionTimeMs result;
          OrderResult.ErrorMessage := err;
          OrderResult.Timestamp := OrderResult.Timestamp result |}, Some err)
  | None => (result, None)
  end.

(** *** [execution_layer]: batch dispatch *)

(** The loop of [BatchSendOrders]. [envs i] is what the order at position
    [i] reads from outside; the pause after an order has no effect on the
    results. *)
Fixpoint batchSendLoop (R : Runtime) (os : OrderSender.t)
    (envs : nat -> OrderSender.Env) (i : nat)
    (plans : list (option ExecutionPlan.t)) (results : list OrderResult.t)
  : list OrderResult.t :=
  match plans with
  | [] => results
  | plan :: rest =>
      match plan with
      | None => batchSendLoop R os envs (S i) rest results
      | Some p =>
          if negb (ExecutionPlan.RiskCheckPassed p)
          then batchSendLoop R os envs (S i) rest results
          else
            match OrderSender.SendOrder R os (envs i) p with
            | (_, Some _) => batchSendLoop R os envs (S i) rest results
            | (result, None) =>
                batchSendLoop R os envs (S i) rest (results ++ [result])
            end
      end
  end.

Definition BatchSendOrders (R : Runtime) (os : OrderSender.t)
    (envs : nat -> OrderSender.Env) (plans : list (option ExecutionPlan.t))
  : list OrderResult.t * error :=
  (batchSendLoop R os envs 0 plans [], None).

(** The plans of a batch that are dispatched: not nil and cleared. *)
Definition dispatchable (plan : option ExecutionPlan.t) : bool :=
  match plan with
  | Some p => ExecutionPlan.RiskCheckPassed p
  | None => false
  end.

(** *** Sequences of decisions on one decision maker *)

Definition decide_ (R : Runtime) (dm : DecisionMaker.t)
    (c : DecisionMaker.Env * option CleanedMarketData.t) : DecisionMaker.t :=
  fst (DecisionMaker.MakeDecision R dm (fst c) (snd c)).

Definition decisions (R : Runtime) (dm : DecisionMaker.t)
    (calls : list (DecisionMaker.Env * option CleanedMarketData.t))
  : DecisionMaker.t :=
  fold_left (decide_ R) calls dm.

(** The closed sets of tags. *)
Definition isDirection (d : Direction) : Prop :=
  d = DirectionLong \/ d = DirectionShort \/ d = DirectionWait.

Definition isRiskLevel (l : string) : Prop :=
  l = "low" \/ l = "medium" \/ l = "high" \/ l = "extreme".

(** *** Calls that leave a tripped circuit breaker alone *)

Definition isReset (c : Call) : bool :=
  match c with CallResetCircuitBreaker => true | _ => false end.

(** *** Sample records for the instances of the properties *)

Module Samples.

(** The data-layer configuration of the tests with the circuit breaker
    switched on. *)
Definition guardedConfig : DataLayerConfig.t :=
  {| DataLayerConfig.DataSources := [];
     DataLayerConfig.MinDataQuality := 0.8;
     DataLayerConfig.MaxAccountRiskPercent := 2.0;
     DataLayerConfig.MaxSingleTradeRiskPercent := 1.0;
     DataLayerConfig.DefaultLeverage := 3;
     DataLayerConfig.MaxLeverage := 5;
     DataLayerConfig.CircuitBreakerEnabled := true;
     DataLayerConfig.MaxDailyLossPercent := 5.0;
     DataLayerConfig.MaxConsecutiveLosses := 3 |}.

(** A risk calculator whose breaker has tripped. *)
Definition trippedCalculator : RiskCalculator.t :=
  {| RiskCalculator.config := guardedConfig;
     RiskCalculator.totalBalance := 10000;
     RiskCalculator.availableBalance := 8000;
     RiskCalculator.usedMargin := 2000;
     RiskCalculator.dailyPnL := -600;
     RiskCalculator.consecutiveLosses := 3;
     RiskCalculator.circuitBreakerActive := true |}.

Definition decision (direction : Direction) (confidence : Q)
    (condition : MarketCondition) (opportunity : TradingOpportunity)
  : AIDecision.t :=
  {| AIDecision.Symbol := "BTCUSDT";
     AIDecision.Timestamp := Fixtures.someTime;
     AIDecision.MarketCondition := condition;
     AIDecision.ConditionReason := "";
     AIDecision.Opportunity := opportunity;
     AIDecision.OpportunityReason := "";
     AIDecision.Direction := direction;
     AIDecision.Confidence := confidence;
     AIDecision.ChainOfThought := "";
     AIDecision.ModelUsed := "deepseek-chat";
     AIDecision.ResponseTimeMs := 0 |}.

Definition metrics (leverage : Z) (stopLoss takeProfit : Q) : RiskMetrics.t :=
  {| RiskMetrics.Symbol := "BTCUSDT";
     RiskMetrics.MaxPositionSizeUSD := 200;
     RiskMetrics.RecommendedLeverage := leverage;
     RiskMetrics.StopLossPrice := stopLoss;
     RiskMetrics.TakeProfitPrice := takeProfit;
     RiskMetrics.MaxLossUSD := 2;
     RiskMetrics.RequiredMargin := 66;
     RiskMetrics.MarginUsagePercent := 20;
     RiskMetrics.RiskLevel := "medium";
     RiskMetrics.CanTrade := true;
     RiskMetrics.RiskReason := "" |}.

Definition plan (action : string) (quantity : Q) (leverage : Z)
    (stopLoss takeProfit : Q) (cleared : bool) : ExecutionPlan.t :=
  {| ExecutionPlan.Symbol := "BTCUSDT";
     ExecutionPlan.Timestamp := Fixtures.someTime;
     ExecutionPlan.Action := action;
     ExecutionPlan.Quantity := quantity;
     ExecutionPlan.QuantityUSD := quantity * 45000;
     ExecutionPlan.Leverage := leverage;
     ExecutionPlan.StopLoss := stopLoss;
     ExecutionPlan.TakeProfit := takeProfit;
     ExecutionPlan.MaxSlippagePercent := 0.5;
     ExecutionPlan.TimeoutSeconds := 30;
     ExecutionPlan.RiskCheckPassed := cleared;
     ExecutionPlan.RiskCheckReason := "";
     ExecutionPlan.Priority := "normal";
     ExecutionPlan.SourceDecision := None |}.

(** An exchange that accepts orders and refuses to place stops and
    targets. *)
Definition stoplessTrader : Trader :=
  {| GetBalance := GetBalance Fixtures.MockTrader;
     SetLeverage := fun _ _ => None;
     OpenLong := fun _ _ _ => ("ORDER_1", None);
     OpenShort := fun _ _ _ => ("ORDER_2", None);
     CloseLong := fun _ _ => ("ORDER_3", None);
     CloseShort := fun _ _ => ("ORDER_4", None);
     SetStopLoss := fun _ _ _ => Some "stop orders are disabled";
     SetTakeProfit := fun _ _ _ => Some "stop orders are disabled" |}.

Definition executorEnv (tr : Trader) : OrderExecutor.Env :=
  {| OrderExecutor.trader := tr;
     OrderExecutor.startTime := Fixtures.someTime;
     OrderExecutor.sinceNow := Fixtures.someTime + 5 * 10 ^ 6 |}.

End Samples.

(** * Properties *)

(** ** Comparisons of rationals *)

Lemma Qltb_true (x y : Q) : (x <? y)%Q = true <-> (x < y)%Q.
Proof.
  unfold Qltb. rewrite negb_true_iff. split.
  - intros H. apply Qnot_le_lt. intros Hle.
    apply Qle_bool_iff in Hle. congruence.
  - intros H. destruct (Qle_bool y x) eqn:E; [|reflexivity].
    apply Qle_bool_iff in E. lra.
Qed.

Lemma Qltb_false (x y : Q) : (x <? y)%Q = false <-> (y <= x)%Q.
Proof.
  unfold Qltb. rewrite negb_false_iff. apply Qle_bool_iff.
Qed.

Lemma Qleb_true (x y : Q) : (x <=? y)%Q = true <-> (x <= y)%Q.
Proof. apply Qle_bool_iff. Qed.

Lemma Qleb_false (x y : Q) : (x <=? y)%Q = false <-> (y < x)%Q.
Proof.
  unfold Qleb. split.
  - intros H. apply Qnot_le_lt. intros Hle.
    apply Qle_bool_iff in Hle. congruence.
  - intros H. destruct (Qle_bool x y) eqn:E; [|reflexivity].
    apply Qle_bool_iff in E. lra.
Qed.

Lemma Qgtb_true (x y : Q) : (x >? y)%Q = true <-> (y < x)%Q.
Proof. apply Qltb_true. Qed.

Lemma Qgtb_false (x y : Q) : (x >? y)%Q = false <-> (x <= y)%Q.
Proof. apply Qltb_false. Qed.

Lemma Qgeb_true (x y : Q) : (x >=? y)%Q = true <-> (y <= x)%Q.
Proof. apply Qle_bool_iff. Qed.

Lemma Qgeb_false (x y : Q) : (x >=? y)%Q = false <-> (x < y)%Q.
Proof. apply Qleb_false. Qed.

(** Replace every comparison in the goal by the two cases of its
    outcome, stated as a proposition. *)
Ltac qcase :=
  match goal with
  | |- context [Qltb ?a ?b] =>
      let E := fresh "E" in
      destruct (Qltb a b) eqn:E;
      [apply Qltb_true in E | apply Qltb_false in E]
  | |- context [Qleb ?a ?b] =>
      let E := fresh "E" in
      destruct (Qleb a b) eqn:E;
      [apply Qleb_true in E | apply Qleb_false in E]
  | |- context [Qgtb ?a ?b] =>
      let E := fresh "E" in
      destruct (Qgtb a b) eqn:E;
      [apply Qgtb_true in E | apply Qgtb_false in E]
  | |- context [Qgeb ?a ?b] =>
      let E := fresh "E" in
      destruct (Qgeb a b) eqn:E;
      [apply Qgeb_true in E | apply Qgeb_false in E]
  end.

(** ** Conversions between [int] and [float64] *)

Lemma round53_small (n : Z) : Z.abs n < 2 ^ 53 -> round53 n = n.
Proof.
  intros H. unfold round53. cbv zeta.
  destruct (Z.ltb_spec (Z.abs n) (2 ^ 53)); [reflexivity | lia].
Qed.

Lemma round53_nonpos (n : Z) : n <= 0 -> round53 n <= 0.
Proof.
  intros H. unfold round53. cbv zeta.
  destruct (Z.ltb_spec (Z.abs n) (2 ^ 53)) as [|Hbig]; [exact H|].
  assert (Hlog : 53 <= Z.log2 (Z.abs n)).
  { apply Z.log2_le_pow2; lia. }
  set (e := Z.log2 (Z.abs n) - 52).
  assert (Hpow : 0 < 2 ^ e) by (apply Z.pow_pos_nonneg; lia).
  assert (Hq : 0 <= Z.abs n / 2 ^ e) by (apply Z.div_pos; lia).
  assert (Hsgn : Z.sgn n = -1) by (apply Z.sgn_neg; lia).
  rewrite Hsgn.
  repeat match goal with
         | |- context [if ?b then _ else _] => destruct b
         end; nia.
Qed.

(** Up to 2^53 the conversions are exact and the expression is the
    subtraction with its floor of 1. *)
Lemma int_max1_sub_exact (n k : Z) :
  n <= 2 ^ 53 -> 0 <= k -> int_max1_sub n k = Z.max 1 (n - k).
Proof.
  intros Hn Hk. unfold int_max1_sub.
  assert (Hin : forall x, x <= 2 ^ 53 -> int_of_float64 (Z.max 1 x) = Z.max 1 x).
  { intros x Hx. unfold int_of_float64.
    destruct (Z.ltb_spec (Z.max 1 x) (- 2 ^ 63)); [lia|].
    destruct (Z.leb_spec (2 ^ 63) (Z.max 1 x)); [lia | reflexivity]. }
  assert (Hlow : forall x, x <= 0 -> int_of_float64 (Z.max 1 (round53 x)) = 1).
  { intros x Hx. pose proof (round53_nonpos x Hx).
    replace (Z.max 1 (round53 x)) with 1 by lia. reflexivity. }
  assert (Hstep : forall x, x <= 2 ^ 53 ->
            int_of_float64 (Z.max 1 (round53 (x - k))) = Z.max 1 (x - k)).
  { intros x Hx.
    destruct (Z.lt_ge_cases (Z.abs (x - k)) (2 ^ 53)) as [Hs|Hs].
    - rewrite (round53_small (x - k)) by exact Hs. apply Hin. lia.
    - destruct (Z.eq_dec (x - k) (2 ^ 53)) as [E|E].
      + rewrite E. change (round53 (2 ^ 53)) with (2 ^ 53). apply Hin. lia.
      + rewrite (Hlow (x - k)) by lia. lia. }
  destruct (Z.lt_ge_cases (Z.abs n) (2 ^ 53)) as [Hs|Hs].
  - rewrite (round53_small n) by exact Hs. apply Hstep. exact Hn.
  - destruct (Z.eq_dec n (2 ^ 53)) as [E|E].
    + subst n. change (round53 (2 ^ 53)) with (2 ^ 53). apply Hstep. lia.
    + pose proof (round53_nonpos n ltac:(lia)) as Hneg.
      rewrite (Hlow (round53 n - k)) by lia. lia.
Qed.

(** ** Magnitudes and scaling *)

Lemma ordinary_pos (x : Q) : ordinary x -> (0 < x)%Q.
Proof.
  intros [Hlow _].
  assert (Hpos : (0 < / inject_Z (10 ^ 100))%Q) by (vm_compute; reflexivity).
  eapply Qlt_le_trans; [exact Hpos | exact Hlow].
Qed.

Lemma scaled_by_product (factor x : Q) :
  (0 <= factor <= 1)%Q -> scaledBy factor x (x * factor).
Proof.
  intros [Hlow Hhigh]. unfold scaledBy, within, tolerance.
  split; [intros Hx; nra|]. split; [intros Hx; nra|].
  split; intros Hx; apply ordinary_pos in Hx; lra.
Qed.


(** ** Byte strings *)

Lemma length_append (s1 s2 : string) :
  String.length (s1 +:+ s2) = (String.length s1 + String.length s2)%nat.
Proof.
  induction s1 as [|c s1 IH]; simpl; [reflexivity|].
  now rewrite IH.
Qed.

Lemma length_substring_prefix (n : nat) (s : string) :
  (n <= String.length s)%nat -> String.length (substring 0 n s) = n.
Proof.
  revert s. induction n as [|n IH]; intros s Hn.
  - destruct s; reflexivity.
  - destruct s as [|c s]; simpl in *; [lia|].
    rewrite IH; [reflexivity|lia].
Qed.

(** ** The data processor *)

Lemma summary_length (R : Runtime) (c : CleanedMarketData.t) :
  (String.length (DataProcessor.generateCompressedSummary R c) <= 650)%nat.
Proof.
  unfold DataProcessor.generateCompressedSummary.
  destruct (Nat.ltb_spec 650 (String.length (DataProcessor.summaryLine R c)))
    as [Hlong|Hshort].
  - rewrite length_append, length_substring_prefix by lia. simpl. lia.
  - exact Hshort.
Qed.

(** C8. Every compressed summary that [ProcessMarketData] emits is at
    most 650 bytes long, and when the pipe-delimited line is longer than
    650 bytes the summary is the first 647 bytes of the line followed by
    three dots. *)
Theorem C8_summary_at_most_650_bytes (R : Runtime) (dp : DataProcessor.t)
    (now : Z) (raw : option market.Data) (c : CleanedMarketData.t) :
  DataProcessor.ProcessMarketData R dp now raw = (Some c, None) ->
  (String.length (CleanedMarketData.CompressedSummary c) <= 650)%nat
  /\ ((650 < String.length (DataProcessor.summaryLine R c))%nat ->
      CleanedMarketData.CompressedSummary c
      = substring 0 647 (DataProcessor.summaryLine R c) +:+ "...").
Proof.
  unfold DataProcessor.ProcessMarketData.
  destruct raw as [raw|]; [|discriminate].
  intros H. injection H as <-. cbn [CleanedMarketData.CompressedSummary].
  split.
  - apply summary_length.
  - intros Hlong. unfold DataProcessor.generateCompressedSummary.
    unfold DataProcessor.summaryLine in *.
    cbn [CleanedMarketData.Symbol CleanedMarketData.CurrentPrice
         CleanedMarketData.PriceChange1h CleanedMarketData.PriceChange4h
         CleanedMarketData.PriceChange24h CleanedMarketData.EMA20
         CleanedMarketData.EMA50 CleanedMarketData.MACD
         CleanedMarketData.MACDSignal CleanedMarketData.RSI7
         CleanedMarketData.RSI14 CleanedMarketData.ATR
         CleanedMarketData.Volume24h CleanedMarketData.VolumeChange
         CleanedMarketData.OpenInterest CleanedMarketData.OIChange
         CleanedMarketData.FundingRate CleanedMarketData.DataQuality] in *.
    apply Nat.ltb_lt in Hlong. rewrite Hlong. reflexivity.
Qed.

Lemma C8_summary_at_most_650_bytes_witness :
  exists c,
    DataProcessor.ProcessMarketData Fixtures.runtime
      (Orchestrator.dataProcessor Fixtures.orchestrator) 0
      (Some Fixtures.longMarketData) = (Some c, None)
    /\ (String.length (CleanedMarketData.CompressedSummary c) <= 650)%nat
    /\ CleanedMarketData.CompressedSummary c
       = substring 0 647 (DataProcessor.summaryLine Fixtures.runtime c) +:+ "...".
Proof.
  eexists. split; [reflexivity|].
  destruct (C8_summary_at_most_650_bytes Fixtures.runtime
              (Orchestrator.dataProcessor Fixtures.orchestrator) 0
              (Some Fixtures.longMarketData) _ eq_refl) as [Hlen Htrunc].
  split; [exact Hlen|]. apply Htrunc. vm_compute. lia.
Defined.

(** C2, as amended. [ProcessMarketData] copies RSI7, the latest open
    interest and the 1h and 4h price changes from the raw record without
    clamping them, and takes RSI14 from the last intraday sample or else
    from RSI7; so the cleaned record is within the ranges of the
    specification exactly when the raw record already is. *)
Theorem C2_cleaned_fields_are_copied_unclamped (R : Runtime)
    (dp : DataProcessor.t) (now : Z) (raw : market.Data) :
  exists c,
    DataProcessor.ProcessMarketData R dp now (Some raw) = (Some c, None)
    /\ CleanedMarketData.RSI7 c = market.CurrentRSI7 raw
    /\ CleanedMarketData.RSI14 c
       = match market.IntradaySeries raw with
         | Some s => List.last (market.RSI14Values s) (market.CurrentRSI7 raw)
         | None => market.CurrentRSI7 raw
         end
    /\ CleanedMarketData.OpenInterest c
       = match market.OpenInterest raw with
         | Some oi => market.Latest oi
         | None => 0%Q
         end
    /\ CleanedMarketData.PriceChange1h c = market.PriceChange1h raw
    /\ CleanedMarketData.PriceChange4h c = market.PriceChange4h raw
    /\ (Spec.cleanedInRange c <-> Spec.rawInRange raw).
Proof.
  eexists. split; [reflexivity|].
  split; [reflexivity|]. split.
  - cbn. unfold DataProcessor.calculateRSI14.
    destruct (market.IntradaySeries raw) as [s|]; [|reflexivity].
    destruct (market.RSI14Values s) as [|v vs]; [reflexivity|].
    revert v. induction vs as [|w vs IH]; intros v; [reflexivity|].
    cbn in *. destruct vs; [reflexivity|]. apply IH.
  - split; [reflexivity|]. split; [reflexivity|]. split; [reflexivity|].
    unfold Spec.cleanedInRange, Spec.rawInRange. cbn. tauto.
Qed.

(** C2 as stated fails: an RSI7 of 150, an open interest of -5 and price
    changes of +80% and -200% come out of the processor as they went in. *)
Lemma C2_counterexample :
  exists c,
    DataProcessor.ProcessMarketData Fixtures.runtime
      (Orchestrator.dataProcessor Fixtures.orchestrator) 0
      (Some Fixtures.outOfRangeMarketData) = (Some c, None)
    /\ CleanedMarketData.RSI7 c = 150%Q
    /\ CleanedMarketData.RSI14 c = 150%Q
    /\ CleanedMarketData.OpenInterest c = (-5)%Q
    /\ CleanedMarketData.PriceChange1h c = 80%Q
    /\ CleanedMarketData.PriceChange4h c = (-200)%Q
    /\ ~ Spec.cleanedInRange c.
Proof.
  eexists. split; [reflexivity|]. cbn.
  repeat split; try reflexivity.
  unfold Spec.cleanedInRange. cbn. intros [[_ H] _]. lra.
Qed.

(** ** The language-model layer *)

(** C10. The keyword helper answers true for any two non-empty
    strings, whatever they contain; so a non-empty response that fails to
    decode is classified by the first branch of each text parser:
    condition trending, direction long with confidence 0.75. *)
Theorem C10_contains_ignores_content :
  (forall text substr : string,
      text <> "" -> substr <> "" ->
      MarketAnalyzer.contains text substr = true)
  /\ (forall text : string,
         text <> "" ->
         MarketAnalyzer.parseMarketConditionFromText text
         = (MarketTrending, "从文本解析：趋势市场", None))
  /\ (forall text : string,
         text <> "" ->
         DecisionMaker.parseDecisionFromText text
         = (DirectionLong, 0.75%Q, "从文本解析的决策", None))
  /\ (forall (R : Runtime) (send : string -> string -> reply)
             (data : CleanedMarketData.t) (text : string),
         send MarketAnalyzer.systemPrompt
           (MarketAnalyzer.userPrompt (CleanedMarketData.CompressedSummary data))
         = Response text ->
         json_condition R text = None ->
         text <> "" ->
         MarketAnalyzer.AnalyzeMarketCondition R send (Some data)
         = (MarketTrending, "从文本解析：趋势市场", None))
  /\ (forall (R : Runtime) (dm : DecisionMaker.t)
             (send : string -> string -> reply)
             (condition conditionReason opportunity oppReason : string)
             (data : CleanedMarketData.t) (prompt text : string),
         DecisionMaker.limitPrompt dm
           (DecisionMaker.userPrompt condition conditionReason opportunity
              oppReason (CleanedMarketData.CompressedSummary data))
         = Returns prompt ->
         send DecisionMaker.systemPrompt prompt = Response text ->
         json_decision R text = None ->
         text <> "" ->
         DecisionMaker.callAIForDecision R dm send condition conditionReason
           opportunity oppReason data
         = Returns (DirectionLong, 0.75%Q, "从文本解析的决策", None)).
Proof.
  assert (Hc : forall text substr : string,
             text <> "" -> substr <> "" ->
             MarketAnalyzer.contains text substr = true).
  { intros [|c text] [|c' substr] Ht Hs; try congruence. reflexivity. }
  assert (Hm : forall text : string,
             text <> "" ->
             MarketAnalyzer.parseMarketConditionFromText text
             = (MarketTrending, "从文本解析：趋势市场", None)).
  { intros text Ht. unfold MarketAnalyzer.parseMarketConditionFromText.
    rewrite (Hc text "trending") by (assumption || discriminate).
    reflexivity. }
  assert (Hd : forall text : string,
             text <> "" ->
             DecisionMaker.parseDecisionFromText text
             = (DirectionLong, 0.75%Q, "从文本解析的决策", None)).
  { intros text Ht. unfold DecisionMaker.parseDecisionFromText.
    rewrite (Hc text "long") by (assumption || discriminate).
    reflexivity. }
  repeat split; try assumption.
  - intros R send data text Hsend Hjson Ht.
    unfold MarketAnalyzer.AnalyzeMarketCondition.
    rewrite Hsend, Hjson. now apply Hm.
  - intros R dm send condition conditionReason opportunity oppReason data
      prompt text Hlimit Hsend Hjson Ht.
    unfold DecisionMaker.callAIForDecision.
    rewrite Hlimit, Hsend, Hjson. now rewrite Hd.
Qed.

Lemma C10_contains_ignores_content_witness :
  MarketAnalyzer.contains "wait" "long" = true
  /\ MarketAnalyzer.parseMarketConditionFromText "the market is ranging"
     = (MarketTrending, "从文本解析：趋势市场", None)
  /\ DecisionMaker.parseDecisionFromText "wait"
     = (DirectionLong, 0.75%Q, "从文本解析的决策", None)
  /\ MarketAnalyzer.AnalyzeMarketCondition Fixtures.runtime
       (fun _ _ => Response "ranging")
       (Some (Fixtures.cleaned Fixtures.getTestMarketData))
     = (MarketTrending, "从文本解析：趋势市场", None)
  /\ DecisionMaker.callAIForDecision Fixtures.runtime
       (Orchestrator.decisionMaker Fixtures.orchestrator)
       (fun _ _ => Response "wait") MarketRanging "r" OpportunityNone "o"
       (Fixtures.cleaned Fixtures.getTestMarketData)
     = Returns (DirectionLong, 0.75%Q, "从文本解析的决策", None).
Proof.
  destruct C10_contains_ignores_content as (Hc & Hm & Hd & Ha & Hcall).
  split; [apply Hc; discriminate|].
  split; [apply Hm; discriminate|].
  split; [apply Hd; discriminate|].
  split.
  - apply (Ha Fixtures.runtime (fun _ _ => Response "ranging")
             (Fixtures.cleaned Fixtures.getTestMarketData) "ranging");
      [reflexivity | reflexivity | discriminate].
  - eapply (Hcall Fixtures.runtime
              (Orchestrator.decisionMaker Fixtures.orchestrator)
              (fun _ _ => Response "wait") MarketRanging "r" OpportunityNone
              "o" (Fixtures.cleaned Fixtures.getTestMarketData) _ "wait");
      [vm_compute; reflexivity | reflexivity | reflexivity | discriminate].
Defined.


(** Turn a boolean fact about comparisons into the proposition it
    decides. *)
Ltac bprop H :=
  repeat first
    [ rewrite andb_true_iff in H | rewrite orb_true_iff in H
    | rewrite andb_false_iff in H | rewrite orb_false_iff in H
    | rewrite negb_true_iff in H | rewrite negb_false_iff in H
    | rewrite Qltb_true in H | rewrite Qltb_false in H
    | rewrite Qleb_true in H | rewrite Qleb_false in H
    | rewrite Qgtb_true in H | rewrite Qgtb_false in H
    | rewrite Qgeb_true in H | rewrite Qgeb_false in H
    | rewrite Z.gtb_ltb in H | rewrite Z.geb_leb in H
    | rewrite Z.ltb_lt in H | rewrite Z.ltb_ge in H
    | rewrite Z.leb_le in H | rewrite Z.leb_gt in H ].

(** Case analysis on the outermost conditional of the goal. *)
Ltac bcase :=
  match goal with
  | |- context [if ?b then _ else _] =>
      let E := fresh "E" in destruct b eqn:E; bprop E
  end.

(** C3, as amended. The classifier answers trending when the trending
    rule holds with a margin and only when it holds up to that margin (the
    spread is a computed quotient). When it does not answer trending, it
    answers breakout exactly when the price is above both EMA20 and EMA50
    and the volume change is above 50 (EMA20 need not be above EMA50);
    otherwise it falls through to the volatile rule (ATR above 5 percent
    of the price, decided by the computed quotient: surely above the
    margin, never below it), then to the consolidate rule, then to
    ranging. *)
Theorem C3_breakout_then_fall_through (R : Runtime) (d : CleanedMarketData.t) :
  let condition := fst (MarketAnalyzer.AnalyzeMarketConditionWithTechnicals R d) in
  (trendingBeyond (2 + tolerance) d -> condition = MarketTrending)
  /\ (condition = MarketTrending -> trendingBeyond (2 - tolerance) d)
  /\ (condition <> MarketTrending ->
      (condition = MarketBreakout <-> breakoutFires d)
      /\ (~ breakoutFires d ->
          (volatileBeyond (5 + tolerance) d -> condition = MarketVolatile)
          /\ (condition = MarketVolatile -> volatileBeyond (5 - tolerance) d)
          /\ (condition <> MarketVolatile ->
              (condition = MarketConsolidate <-> consolidateFires d)
              /\ (~ consolidateFires d -> condition = MarketRanging)))).
Proof.
  intros condition. subst condition.
  unfold trendingBeyond, volatileBeyond, breakoutFires, consolidateFires,
    tolerance.
  unfold MarketAnalyzer.AnalyzeMarketConditionWithTechnicals.
  cbv zeta.
  repeat bcase; cbn [fst];
    intuition (try discriminate; try reflexivity; try congruence; try lra).
Qed.

Lemma C3_breakout_then_fall_through_witness :
  let d := Fixtures.indicators 100 90 95 0 50 1 60 in
  fst (MarketAnalyzer.AnalyzeMarketConditionWithTechnicals Fixtures.runtime d)
  = MarketBreakout.
Proof.
  intros d.
  destruct (C3_breakout_then_fall_through Fixtures.runtime d)
    as (_ & _ & Hrest).
  assert (Hnt : fst (MarketAnalyzer.AnalyzeMarketConditionWithTechnicals
                       Fixtures.runtime d) <> MarketTrending)
    by (vm_compute; discriminate).
  destruct (Hrest Hnt) as [Hbreakout _].
  apply Hbreakout. unfold breakoutFires, d. cbn. repeat split; reflexivity.
Defined.

(** C3 as stated fails: with the price at 100 above EMA20 at 90 and EMA50
    at 95, a flat MACD and a volume change of 60, the trending rule does
    not fire and the classifier answers breakout although EMA20 is below
    EMA50. *)
Lemma C3_counterexample :
  let d := Fixtures.indicators 100 90 95 0 50 1 60 in
  ~ trendingFires d
  /\ fst (MarketAnalyzer.AnalyzeMarketConditionWithTechnicals Fixtures.runtime d)
     = MarketBreakout
  /\ ~ Spec.breakoutRule d.
Proof.
  intros d. split; [|split].
  - unfold trendingFires, d. cbn. intros (_ & _ & _ & [[_ H]|[_ H]]); lra.
  - reflexivity.
  - unfold Spec.breakoutRule, d. cbn. intros (_ & H & _). lra.
Qed.

(** ** The risk calculator *)

Lemma percent_nonpos (a b : Q) : (a <= 0 -> 0 < b -> a / b * 100 <= 0)%Q.
Proof.
  intros Ha Hb. unfold Qdiv.
  assert (Hi : (0 < / b)%Q) by now apply Qinv_lt_0_compat.
  nra.
Qed.

(** Past the pre-check, [CalculateRiskMetrics] returns metrics whose
    leverage, stop and target are those of the helper functions. *)
Lemma metrics_past_precheck (R : Runtime) (rc : RiskCalculator.t)
    (direction : Direction) (d : CleanedMarketData.t) :
  preCheckPasses rc ->
  exists m,
    RiskCalculator.CalculateRiskMetrics R rc direction (Some d) = (Some m, None)
    /\ RiskMetrics.RecommendedLeverage m
       = RiskCalculator.calculateRecommendedLeverage rc d
    /\ RiskMetrics.StopLossPrice m
       = (if String.eqb direction DirectionLong
          then RiskCalculator.calculateLongStopLoss rc d
          else if String.eqb direction DirectionShort
          then RiskCalculator.calculateShortStopLoss rc d
          else 0%Q)
    /\ RiskMetrics.TakeProfitPrice m
       = (if String.eqb direction DirectionLong
          then RiskCalculator.calculateLongTakeProfit rc d
          else if String.eqb direction DirectionShort
          then RiskCalculator.calculateShortTakeProfit rc d
          else 0%Q).
Proof.
  intros (Hbreaker & Htotal & Havailable).
  unfold RiskCalculator.CalculateRiskMetrics. rewrite Hbreaker.
  apply Qleb_false in Htotal, Havailable. rewrite Htotal, Havailable.
  cbn [orb]. cbv zeta.
  match goal with
  | |- context [RiskCalculator.canTrade ?R ?rc ?m] =>
      destruct (RiskCalculator.canTrade R rc m) as [ok reason]
  end.
  eexists. split; [reflexivity|]. cbn. repeat split; reflexivity.
Qed.

(** C4, as amended. Past the pre-check, for a positive price and a
    default leverage from 1 to 2^53, the recommended leverage is the
    default less a volatility cut and an RSI cut, kept at 1 or more and
    then capped at the maximum leverage. The volatility cut is 2 when ATR
    is above 5 percent of the price, 1 when it is above 3 percent and 0
    otherwise; the comparison is made on the computed quotient, so the cut
    is settled when the exact ratio is at least the margin away from 5 and
    from 3, and is one of the two adjoining cuts in between. The RSI cut is
    1 when RSI14 is above 70 or below 30 and 0 otherwise. The comparisons
    are strict: an RSI14 of exactly 70 or 30 cuts nothing. *)
Theorem C4_recommended_leverage (R : Runtime) (rc : RiskCalculator.t)
    (direction : Direction) (d : CleanedMarketData.t) :
  let percent :=
    (CleanedMarketData.ATR d / CleanedMarketData.CurrentPrice d * 100)%Q in
  let rsi := CleanedMarketData.RSI14 d in
  let defaultLeverage := DataLayerConfig.DefaultLeverage (RiskCalculator.config rc) in
  let maxLeverage := DataLayerConfig.MaxLeverage (RiskCalculator.config rc) in
  preCheckPasses rc ->
  (0 < CleanedMarketData.CurrentPrice d)%Q ->
  1 <= defaultLeverage <= 2 ^ 53 ->
  exists (m : RiskMetrics.t) (volatilityCut rsiCut : Z),
    RiskCalculator.CalculateRiskMetrics R rc direction (Some d) = (Some m, None)
    /\ 0 <= volatilityCut <= 2
    /\ ((5 + tolerance <= percent)%Q -> volatilityCut = 2)
    /\ ((3 + tolerance <= percent)%Q -> 1 <= volatilityCut)
    /\ ((percent <= 5 - tolerance)%Q -> volatilityCut <= 1)
    /\ ((percent <= 3 - tolerance)%Q -> volatilityCut = 0)
    /\ ((70 < rsi)%Q \/ (rsi < 30)%Q -> rsiCut = 1)
    /\ ((30 <= rsi <= 70)%Q -> rsiCut = 0)
    /\ RiskMetrics.RecommendedLeverage m
       = Z.min maxLeverage (Z.max 1 (defaultLeverage - volatilityCut - rsiCut)).
Proof.
  intros percent rsi defaultLeverage maxLeverage Hpre Hprice Hdefault.
  destruct (metrics_past_precheck R rc direction d Hpre)
    as (m & Hm & Hlev & _).
  exists m,
    (if (CleanedMarketData.ATR d >? 0)%Q
     then if (percent >? 5)%Q then 2 else if (percent >? 3)%Q then 1 else 0
     else 0),
    (if (rsi >? 70)%Q || (rsi <? 30)%Q then 1 else 0).
  split; [exact Hm|]. rewrite Hlev.
  unfold RiskCalculator.calculateRecommendedLeverage.
  fold defaultLeverage maxLeverage. cbv zeta. fold percent rsi.
  assert (Hnonpos : (CleanedMarketData.ATR d <= 0)%Q -> (percent <= 0)%Q).
  { intros Hatr. exact (percent_nonpos _ _ Hatr Hprice). }
  apply Qgtb_true in Hprice. rewrite Hprice, andb_true_r.
  unfold tolerance.
  destruct (CleanedMarketData.ATR d >? 0)%Q eqn:Ea; bprop Ea;
    destruct (percent >? 5)%Q eqn:E5; bprop E5;
    destruct (percent >? 3)%Q eqn:E3; bprop E3;
    destruct ((rsi >? 70)%Q || (rsi <? 30)%Q) eqn:Er; bprop Er;
    try specialize (Hnonpos Ea);
    cbn [andb orb];
    rewrite ?(int_max1_sub_exact defaultLeverage) by lia;
    rewrite ?int_max1_sub_exact by lia;
    (repeat split; try lia; try (intros; exfalso; intuition lra));
    bcase; lia.
Qed.

(** Close a comparison between two given rationals. *)
Ltac qfact := cbv; intuition (try discriminate; try congruence).

Lemma C4_recommended_leverage_witness :
  exists (m : RiskMetrics.t) (volatilityCut rsiCut : Z),
    RiskCalculator.CalculateRiskMetrics Fixtures.runtime
      Fixtures.fundedCalculator DirectionLong
      (Some (Fixtures.indicators 45000 44800 44200 0 75 2500 0)) = (Some m, None)
    /\ volatilityCut = 2
    /\ rsiCut = 1
    /\ RiskMetrics.RecommendedLeverage m
       = Z.min 5 (Z.max 1 (3 - volatilityCut - rsiCut)).
Proof.
  destruct (C4_recommended_leverage Fixtures.runtime Fixtures.fundedCalculator
              DirectionLong (Fixtures.indicators 45000 44800 44200 0 75 2500 0))
    as (m & volatilityCut & rsiCut & Hm & _ & Hv & _ & _ & _ & Hr & _ & Hlev).
  - repeat split.
  - reflexivity.
  - cbn. lia.
  - exists m, volatilityCut, rsiCut. split; [exact Hm|].
    split; [apply Hv; cbv; discriminate|].
    split; [apply Hr; left; reflexivity|].
    exact Hlev.
Defined.

(** C4 as stated fails at the boundaries: with the default leverage 3 and
    the maximum 5, an RSI14 of exactly 70 leaves the leverage at 3 where the
    specification gives 2, and an ATR of exactly 5% of the price lowers it
    to 2 where the specification gives 1. *)
Lemma C4_counterexample :
  let rc := Fixtures.fundedCalculator in
  let defaultLeverage := DataLayerConfig.DefaultLeverage (RiskCalculator.config rc) in
  let maxLeverage := DataLayerConfig.MaxLeverage (RiskCalculator.config rc) in
  let atRSI70 := Fixtures.indicators 45000 44800 44200 0 70 250 0 in
  let atFivePercent := Fixtures.indicators 100 100 100 0 50 5 0 in
  (exists m,
      RiskCalculator.CalculateRiskMetrics Fixtures.runtime rc DirectionLong
        (Some atRSI70) = (Some m, None)
      /\ RiskMetrics.RecommendedLeverage m = 3
      /\ Spec.recommendedLeverage defaultLeverage maxLeverage
           (CleanedMarketData.ATR atRSI70) (CleanedMarketData.CurrentPrice atRSI70)
           (CleanedMarketData.RSI14 atRSI70) = 2)
  /\ (exists m,
         RiskCalculator.CalculateRiskMetrics Fixtures.runtime rc DirectionLong
           (Some atFivePercent) = (Some m, None)
         /\ RiskMetrics.RecommendedLeverage m = 2
         /\ Spec.recommendedLeverage defaultLeverage maxLeverage
              (CleanedMarketData.ATR atFivePercent)
              (CleanedMarketData.CurrentPrice atFivePercent)
              (CleanedMarketData.RSI14 atFivePercent) = 1).
Proof.
  split; eexists; (split; [vm_compute; reflexivity|]); split; reflexivity.
Qed.

(** C7, as amended. Past the pre-check and for a positive price, a long
    position has its stop at or below the price and its target at or
    above, a short position the mirror image. For a price of ordinary
    magnitude and an ATR that is either not positive or ordinary and at
    least a millionth of the price, the inequalities are strict, the
    distance to the target is twice the distance to the stop, and the stop
    is [price - 2 ATR] (short: [price + 2 ATR]) when ATR is positive and
    [0.98 price] (short: [1.02 price]) otherwise, each up to the
    tolerance: the values are computed in float64, where a smaller ATR is
    absorbed by the price. *)
Theorem C7_stops_and_targets (R : Runtime) (rc : RiskCalculator.t)
    (d : CleanedMarketData.t) :
  let price := CleanedMarketData.CurrentPrice d in
  let atr := CleanedMarketData.ATR d in
  preCheckPasses rc ->
  (0 < price)%Q ->
  exists long short : RiskMetrics.t,
    RiskCalculator.CalculateRiskMetrics R rc DirectionLong (Some d)
    = (Some long, None)
    /\ RiskCalculator.CalculateRiskMetrics R rc DirectionShort (Some d)
       = (Some short, None)
    /\ (RiskMetrics.StopLossPrice long <= price
        <= RiskMetrics.TakeProfitPrice long)%Q
    /\ (RiskMetrics.TakeProfitPrice short <= price
        <= RiskMetrics.StopLossPrice short)%Q
    /\ (ordinary price ->
        ((0 < atr)%Q -> ordinary atr /\ (price <= 1000000 * atr)%Q) ->
        (RiskMetrics.StopLossPrice long < price
         < RiskMetrics.TakeProfitPrice long)%Q
        /\ (RiskMetrics.TakeProfitPrice short < price
            < RiskMetrics.StopLossPrice short)%Q
        /\ within (RiskMetrics.TakeProfitPrice long - price)
             (2 * (price - RiskMetrics.StopLossPrice long))
             (price - RiskMetrics.StopLossPrice long)
        /\ within (price - RiskMetrics.TakeProfitPrice short)
             (2 * (RiskMetrics.StopLossPrice short - price))
             (RiskMetrics.StopLossPrice short - price)
        /\ ((0 < atr)%Q ->
            within (RiskMetrics.StopLossPrice long) (price - 2 * atr) atr
            /\ within (RiskMetrics.StopLossPrice short) (price + 2 * atr) atr)
        /\ ((atr <= 0)%Q ->
            within (RiskMetrics.StopLossPrice long) (price * 0.98) price
            /\ within (RiskMetrics.StopLossPrice short) (price * 1.02)
                 price)).
Proof.
  intros price atr Hpre Hprice.
  destruct (metrics_past_precheck R rc DirectionLong d Hpre)
    as (long & Hlong & _ & Hls & Hlt).
  destruct (metrics_past_precheck R rc DirectionShort d Hpre)
    as (short & Hshort & _ & Hss & Hst).
  exists long, short. split; [exact Hlong|]. split; [exact Hshort|].
  cbn [String.eqb Ascii.eqb Bool.eqb DirectionLong DirectionShort]
    in Hls, Hlt, Hss, Hst.
  rewrite Hls, Hlt, Hss, Hst.
  unfold RiskCalculator.calculateLongTakeProfit,
    RiskCalculator.calculateLongStopLoss,
    RiskCalculator.calculateShortTakeProfit,
    RiskCalculator.calculateShortStopLoss, within, tolerance.
  fold price atr. cbv zeta.
  destruct (atr >? 0)%Q eqn:E; bprop E;
    (split; [lra|]); (split; [lra|]); intros _ _;
    repeat split; intros; lra.
Qed.

Lemma C7_stops_and_targets_witness :
  exists long short : RiskMetrics.t,
    RiskCalculator.CalculateRiskMetrics Fixtures.runtime
      Fixtures.fundedCalculator DirectionLong
      (Some (Fixtures.indicators 45000 44800 44200 0 65 250 0))
    = (Some long, None)
    /\ RiskCalculator.CalculateRiskMetrics Fixtures.runtime
         Fixtures.fundedCalculator DirectionShort
         (Some (Fixtures.indicators 45000 44800 44200 0 65 250 0))
       = (Some short, None)
    /\ (RiskMetrics.StopLossPrice long < 45000
        < RiskMetrics.TakeProfitPrice long)%Q
    /\ (RiskMetrics.TakeProfitPrice short < 45000
        < RiskMetrics.StopLossPrice short)%Q
    /\ within (RiskMetrics.StopLossPrice long) 44500 250
    /\ within (RiskMetrics.TakeProfitPrice long - 45000)
         (2 * (45000 - RiskMetrics.StopLossPrice long))
         (45000 - RiskMetrics.StopLossPrice long).
Proof.
  destruct (C7_stops_and_targets Fixtures.runtime Fixtures.fundedCalculator
              (Fixtures.indicators 45000 44800 44200 0 65 250 0))
    as (long & short & Hlong & Hshort & _ & _ & Hrest).
  - repeat split.
  - reflexivity.
  - exists long, short. split; [exact Hlong|]. split; [exact Hshort|].
    destruct Hrest as (Hl & Hs & Hratio & _ & Hatr & _).
    + cbv. split; discriminate.
    + intros _. cbv. repeat split; discriminate.
    + split; [exact Hl|]. split; [exact Hs|].
      split; [|exact Hratio].
      exact (proj1 (Hatr eq_refl)).
Defined.

(** C7 as stated fails for a calculator that has not passed its
    pre-check: a newly built one has no balance, and for a long position
    at 45000 with an ATR of 250 it returns a stop and a target of 0. *)
Lemma C7_counterexample :
  let d := Fixtures.indicators 45000 44800 44200 0 65 250 0 in
  exists m,
    RiskCalculator.CalculateRiskMetrics Fixtures.runtime
      Fixtures.freshCalculator DirectionLong (Some d) = (Some m, None)
    /\ RiskMetrics.StopLossPrice m = 0%Q
    /\ RiskMetrics.TakeProfitPrice m = 0%Q
    /\ ~ (RiskMetrics.StopLossPrice m
          == CleanedMarketData.CurrentPrice d - 2 * CleanedMarketData.ATR d)%Q
    /\ ~ (CleanedMarketData.CurrentPrice d < RiskMetrics.TakeProfitPrice m)%Q.
Proof.
  intros d. eexists. split; [vm_compute; reflexivity|].
  cbn. repeat split; try reflexivity; intros H; revert H; qfact.
Qed.

(** ** The decision maker *)

Lemma calculateConfidence_at_least (d : CleanedMarketData.t) (isLong : bool) :
  (0.75 <= DecisionMaker.calculateConfidence d isLong)%Q.
Proof.
  unfold DecisionMaker.calculateConfidence. cbv zeta.
  repeat bcase; lra.
Qed.

Lemma makeRuleBasedDecision_confidence (condition : MarketCondition)
    (opportunity : TradingOpportunity) (d : CleanedMarketData.t)
    (direction : Direction) (confidence : Q) :
  DecisionMaker.makeRuleBasedDecision condition opportunity d
  = (direction, confidence) ->
  direction <> DirectionWait ->
  (0.75 <= confidence)%Q.
Proof.
  unfold DecisionMaker.makeRuleBasedDecision.
  repeat bcase; intros H; injection H as <- <-; intros Hdir;
    try congruence; try apply calculateConfidence_at_least; lra.
Qed.

Lemma callAIForDecision_confidence (R : Runtime) (dm : DecisionMaker.t)
    (send : string -> string -> reply)
    (condition conditionReason opportunity oppReason : string)
    (d : CleanedMarketData.t) (direction : Direction) (confidence : Q)
    (chain : string) :
  DecisionMaker.callAIForDecision R dm send condition conditionReason
    opportunity oppReason d = Returns (direction, confidence, chain, None) ->
  (0.7 <= confidence)%Q.
Proof.
  unfold DecisionMaker.callAIForDecision.
  destruct (DecisionMaker.limitPrompt dm _) as [prompt|]; [|discriminate].
  destruct (send _ prompt) as [response|err]; [|discriminate].
  destruct (json_decision R response) as [[[rd rc] rr]|].
  - cbv zeta. intros H. injection H as _ <- _.
    repeat bcase; lra.
  - unfold DecisionMaker.parseDecisionFromText.
    intros H. injection H as _ <- _. lra.
Qed.

Lemma checkRateLimit_config (dm : DecisionMaker.t) (now : Z) :
  DecisionMaker.config (fst (DecisionMaker.checkRateLimit dm now))
  = DecisionMaker.config dm.
Proof.
  unfold DecisionMaker.checkRateLimit. repeat bcase; reflexivity.
Qed.

(** C5. Every decision that [MakeDecision] returns with a direction other
    than wait has a confidence of at least 0.7 and of at least the
    configured minimum, whatever the configuration and whatever the
    language model answers (a decoded object, text that fails to decode,
    or an error). *)
Theorem C5_trade_decisions_are_confident (R : Runtime) (dm dm' : DecisionMaker.t)
    (env : DecisionMaker.Env) (data : option CleanedMarketData.t)
    (decision : AIDecision.t) (err : error) :
  DecisionMaker.MakeDecision R dm env data = (dm', Returns (decision, err)) ->
  AIDecision.Direction decision <> DirectionWait ->
  (0.7 <= AIDecision.Confidence decision)%Q
  /\ (AILayerConfig.MinConfidence (DecisionMaker.config dm)
      <= AIDecision.Confidence decision)%Q.
Proof.
  unfold DecisionMaker.MakeDecision.
  pose proof (checkRateLimit_config dm (DecisionMaker.rateCheckNow env)) as Hcfg.
  destruct (DecisionMaker.checkRateLimit dm (DecisionMaker.rateCheckNow env))
    as [dm1 allowed].
  cbn [fst] in Hcfg. rewrite <- Hcfg.
  destruct data as [d|]; [|discriminate].
  destruct allowed; cbn [negb].
  2:{ intros H. injection H as _ <- _. cbn. congruence. }
  destruct (match MarketAnalyzer.AnalyzeMarketCondition R _ (Some d) with
            | (_, _, Some _) => _ | (c, r, None) => _ end)
    as [marketCondition conditionReason].
  destruct (match OpportunityDetector.DetectOpportunity R _ marketCondition (Some d) with
            | (_, _, Some _) => _ | (o, r, None) => _ end)
    as [opportunity oppReason].
  destruct (DecisionMaker.callAIForDecision R dm1 _ marketCondition
              conditionReason opportunity oppReason d)
    as [[[[direction confidence] chain] failure]|] eqn:Hcall; [|discriminate].
  assert (Hconf : exists direction' confidence' chain',
             (match failure with
              | Some _ =>
                  let '(d0, c0) :=
                    DecisionMaker.makeRuleBasedDecision marketCondition
                      opportunity d in
                  (d0, c0, "AI调用失败，使用规则引擎决策")
              | None => (direction, confidence, chain)
              end) = (direction', confidence', chain')
             /\ (direction' <> DirectionWait -> (0.7 <= confidence')%Q)).
  { destruct failure as [e|].
    - destruct (DecisionMaker.makeRuleBasedDecision marketCondition opportunity d)
        as [d0 c0] eqn:Hrule.
      do 3 eexists. split; [reflexivity|]. intros Hd.
      pose proof (makeRuleBasedDecision_confidence _ _ _ _ _ Hrule Hd). lra.
    - do 3 eexists. split; [reflexivity|]. intros _.
      exact (callAIForDecision_confidence _ _ _ _ _ _ _ _ _ _ _ Hcall). }
  destruct Hconf as (direction' & confidence' & chain' & -> & Hconf).
  cbv zeta.
  destruct (confidence' <? AILayerConfig.MinConfidence (DecisionMaker.config dm1))%Q
    eqn:Egate; bprop Egate;
    intros H; injection H as _ <- _; cbn; intros Hdir.
  - congruence.
  - split; [apply Hconf; exact Hdir | exact Egate].
Qed.

Lemma C5_trade_decisions_are_confident_witness :
  exists dm' decision,
    DecisionMaker.MakeDecision Fixtures.runtime
      (Orchestrator.decisionMaker Fixtures.orchestrator)
      (Orchestrator.decisionEnv
         (Fixtures.environment Fixtures.someTime Fixtures.unreachable))
      (Some (Fixtures.cleaned Fixtures.getTestMarketData))
    = (dm', Returns (decision, None))
    /\ AIDecision.Direction decision = DirectionShort
    /\ (0.7 <= AIDecision.Confidence decision)%Q
    /\ (0.75 <= AIDecision.Confidence decision)%Q.
Proof.
  eexists _, _. split; [vm_compute; reflexivity|].
  split; [reflexivity|].
  eapply (C5_trade_decisions_are_confident Fixtures.runtime
            (Orchestrator.decisionMaker Fixtures.orchestrator) _
            (Orchestrator.decisionEnv
               (Fixtures.environment Fixtures.someTime Fixtures.unreachable))
            (Some (Fixtures.cleaned Fixtures.getTestMarketData)) _ None).
  - vm_compute. reflexivity.
  - cbn. discriminate.
Defined.

(** ** The parameter calculator *)

Lemma copyEntries_id (m : gmap string Value) :
  ParameterCalculator.copyEntries m = m.
Proof.
  unfold ParameterCalculator.copyEntries.
  apply (map_fold_weak_ind (fun (r m : gmap string Value) => r = m)).
  - reflexivity.
  - intros k v m' r _ ->. reflexivity.
Qed.





(** ** The orchestrator *)

(** Case analysis on every [match] of the goal, outermost first. *)
Ltac mcase :=
  match goal with
  | |- context [match ?x with _ => _ end] => destruct x eqn:?
  end.

(** What one cycle does to the four counters: the executions advance by
    one, and at most one of the other three advances by one. *)
Lemma cycle_counters (R : Runtime) (o : Orchestrator.t) (env : Orchestrator.Env)
    (raw : option market.Data) :
  let o' := fst (Orchestrator.ExecuteTradingCycle R o env raw) in
  Orchestrator.totalExecutions o' = int_succ (Orchestrator.totalExecutions o)
  /\ ((Orchestrator.successfulTrades o' = Orchestrator.successfulTrades o
       /\ Orchestrator.failedTrades o' = Orchestrator.failedTrades o
       /\ Orchestrator.rejectedByRisk o' = Orchestrator.rejectedByRisk o)
      \/ (Orchestrator.successfulTrades o'
          = int_succ (Orchestrator.successfulTrades o)
          /\ Orchestrator.failedTrades o' = Orchestrator.failedTrades o
          /\ Orchestrator.rejectedByRisk o' = Orchestrator.rejectedByRisk o)
      \/ (Orchestrator.successfulTrades o' = Orchestrator.successfulTrades o
          /\ Orchestrator.failedTrades o'
             = int_succ (Orchestrator.failedTrades o)
          /\ Orchestrator.rejectedByRisk o' = Orchestrator.rejectedByRisk o)
      \/ (Orchestrator.successfulTrades o' = Orchestrator.successfulTrades o
          /\ Orchestrator.failedTrades o' = Orchestrator.failedTrades o
          /\ Orchestrator.rejectedByRisk o'
             = int_succ (Orchestrator.rejectedByRisk o))).
Proof.
  unfold Orchestrator.ExecuteTradingCycle. cbv zeta.
  repeat mcase; cbn; tauto.
Qed.

Lemma int_succ_small (n : Z) : 0 <= n < 2 ^ 63 - 1 -> int_succ n = n + 1.
Proof.
  intros Hn. unfold int_succ, int_wrap.
  rewrite Z.mod_small; lia.
Qed.

Lemma call_keeps_counters (R : Runtime) (o : Orchestrator.t) (c : Call) (n : Z) :
  countersWithin n o ->
  n + cycles [c] < 2 ^ 63 ->
  countersWithin (n + cycles [c]) (call R o c).
Proof.
  intros (Htotal & Hs & Hf & Hr & Hsum) Hn.
  destruct c as [env raw| | | |];
    try (unfold cycles in *; cbn in *; rewrite Z.add_0_r;
         repeat split; assumption).
  unfold cycles in *. cbn [call isCycle List.filter List.length] in *.
  change (Z.of_nat 1) with 1 in *.
  destruct (cycle_counters R o env raw) as (Ht & Hcases).
  cbv zeta in Ht, Hcases. unfold countersWithin.
  rewrite Ht, Htotal. rewrite int_succ_small by lia.
  destruct Hcases as [(-> & -> & ->)|[(-> & -> & ->)|[(-> & -> & ->)|(-> & -> & ->)]]];
    rewrite ?int_succ_small by lia; repeat split; lia.
Qed.

Lemma cycles_cons (c : Call) (calls : list Call) :
  cycles (c :: calls) = cycles [c] + cycles calls.
Proof.
  unfold cycles. cbn. destruct (isCycle c); cbn [List.length]; lia.
Qed.

Lemma cycles_nonneg (calls : list Call) : 0 <= cycles calls.
Proof. unfold cycles. lia. Qed.

Lemma run_keeps_counters (R : Runtime) (calls : list Call) :
  forall (o : Orchestrator.t) (n : Z),
    countersWithin n o ->
    n + cycles calls < 2 ^ 63 ->
    countersWithin (n + cycles calls) (run R o calls).
Proof.
  induction calls as [|c calls IH]; intros o n Hinv Hn.
  - unfold cycles. cbn. now rewrite Z.add_0_r.
  - rewrite cycles_cons in *. pose proof (cycles_nonneg calls).
    pose proof (cycles_nonneg [c]).
    unfold run. cbn [fold_left]. fold (run R (call R o c) calls).
    rewrite Z.add_assoc. apply IH; [|lia].
    apply call_keeps_counters; [exact Hinv|lia].
Qed.

(** C6. Starting from a newly built orchestrator, after any sequence of
    trading cycles, whatever happens at each stage, and of the mutators in
    between, the successful, failed and rejected cycles together are at
    most the executions. The counters are 64-bit integers: the sequence is
    one of fewer than 2^63 cycles. *)
Theorem C6_counters_within_executions (R : Runtime) (config : LayerConfig.t)
    (o : Orchestrator.t) (calls : list Call) :
  Orchestrator.NewOrchestrator config = (Some o, None) ->
  cycles calls < 2 ^ 63 ->
  Orchestrator.successfulTrades (run R o calls)
  + Orchestrator.failedTrades (run R o calls)
  + Orchestrator.rejectedByRisk (run R o calls)
  <= Orchestrator.totalExecutions (run R o calls).
Proof.
  intros Hnew Hcycles.
  assert (Hinit : countersWithin 0 o).
  { unfold Orchestrator.NewOrchestrator in Hnew. cbn in Hnew.
    injection Hnew as <-. unfold countersWithin. cbn. lia. }
  destruct (run_keeps_counters R calls o 0 Hinit) as (Ht & _ & _ & _ & Hsum);
    [lia|].
  rewrite Ht. exact Hsum.
Qed.

Lemma C6_counters_within_executions_witness :
  let o := run Fixtures.runtime Fixtures.orchestrator Fixtures.session in
  Orchestrator.successfulTrades o + Orchestrator.failedTrades o
  + Orchestrator.rejectedByRisk o <= Orchestrator.totalExecutions o.
Proof.
  apply (C6_counters_within_executions Fixtures.runtime Fixtures.getTestConfig
           Fixtures.orchestrator Fixtures.session).
  - reflexivity.
  - reflexivity.
Defined.

(** * Further properties *)

(** ** The data processor *)

(** Case analysis on a conditional whose test holds no conditional. *)
Ltac icase :=
  match goal with
  | |- context [if ?b then _ else _] =>
      lazymatch b with
      | context [if _ then _ else _] => fail
      | _ => let E := fresh "E" in destruct b eqn:E; bprop E
      end
  end.

(** X1. The quality score of any raw record lies between 0.1 and 1; a
    price that is not positive caps it at 0.5; and the cleaned record is
    marked valid exactly when its score reaches the configured minimum. *)
Theorem X1_quality_score_bounds (R : Runtime) (dp : DataProcessor.t) (now : Z)
    (raw : market.Data) :
  exists c,
    DataProcessor.ProcessMarketData R dp now (Some raw) = (Some c, None)
    /\ (0.1 <= CleanedMarketData.DataQuality c <= 1)%Q
    /\ ((market.CurrentPrice raw <= 0)%Q ->
        (CleanedMarketData.DataQuality c <= 0.5)%Q)
    /\ (CleanedMarketData.IsValid c = true <->
        (DataLayerConfig.MinDataQuality (DataProcessor.config dp)
         <= CleanedMarketData.DataQuality c)%Q).
Proof.
  eexists. split; [reflexivity|].
  cbn [CleanedMarketData.DataQuality CleanedMarketData.IsValid].
  split; [|split].
  - unfold DataProcessor.assessDataQuality. cbv zeta.
    repeat icase; lra.
  - intros Hprice. unfold DataProcessor.assessDataQuality. cbv zeta.
    repeat icase; lra.
  - apply Qgeb_true.
Qed.

Lemma X1_quality_score_bounds_witness :
  exists c,
    DataProcessor.ProcessMarketData Fixtures.runtime
      (Orchestrator.dataProcessor Fixtures.orchestrator) 0
      (Some Fixtures.lowQualityMarketData) = (Some c, None)
    /\ (CleanedMarketData.DataQuality c <= 0.5)%Q.
Proof.
  destruct (X1_quality_score_bounds Fixtures.runtime
              (Orchestrator.dataProcessor Fixtures.orchestrator) 0
              Fixtures.lowQualityMarketData) as (c & Hc & _ & Hcap & _).
  exists c. split; [exact Hc|].
  apply Hcap. cbv. discriminate.
Defined.

Lemma summaryLine_length (R : Runtime) (c : CleanedMarketData.t) :
  (3 <= String.length (DataProcessor.summaryLine R c))%nat.
Proof.
  unfold DataProcessor.summaryLine.
  rewrite !length_append. cbn [String.length]. lia.
Qed.

(** X2. A compressed summary is never empty; a line of at most 650
    bytes is emitted unchanged, and a longer one is cut to exactly 650
    bytes, the first 647 of which are those of the line. *)
Theorem X2_summary_shape (R : Runtime) (c : CleanedMarketData.t) :
  let line := DataProcessor.summaryLine R c in
  let summary := DataProcessor.generateCompressedSummary R c in
  (0 < String.length summary)%nat
  /\ ((String.length line <= 650)%nat -> summary = line)
  /\ ((650 < String.length line)%nat ->
      String.length summary = 650%nat
      /\ substring 0 647 summary = substring 0 647 line).
Proof.
  intros line summary. subst summary.
  unfold DataProcessor.generateCompressedSummary. fold line. cbv zeta.
  pose proof (summaryLine_length R c) as Hline. fold line in Hline.
  destruct (Nat.ltb_spec 650 (String.length line)) as [Hlong|Hshort].
  - assert (Hlen : String.length (substring 0 647 line) = 647%nat)
      by (apply length_substring_prefix; lia).
    split; [rewrite length_append, Hlen; cbn; lia|].
    split; [lia|]. intros _.
    split; [rewrite length_append, Hlen; reflexivity|].
    generalize dependent (substring 0 647 line). intros s Hs.
    clear - Hs. revert s Hs. generalize 647%nat as n.
    induction n as [|n IH]; intros [|a s] Hs; simpl in *; try lia.
    + reflexivity.
    + f_equal. apply IH. lia.
  - split; [lia|]. split; [reflexivity|]. lia.
Qed.

Lemma X2_summary_shape_witness :
  let c := Fixtures.cleaned Fixtures.longMarketData in
  String.length (DataProcessor.generateCompressedSummary Fixtures.runtime c)
  = 650%nat.
Proof.
  intros c.
  destruct (X2_summary_shape Fixtures.runtime c) as (_ & _ & Hlong).
  apply Hlong. vm_compute. lia.
Defined.

(** X3. The signal line of the MACD. With nine or more intraday
    samples it is the mean of the last nine: no earlier sample has a part
    in it, and it is their sum divided by nine, up to the tolerance
    relative to any bound of ordinary magnitude on their absolute values.
    With fewer than nine samples, or without an intraday series, it is
    nine tenths of the current MACD: it lies between 0 and the current
    MACD, and it is 0.9 times the current MACD up to the tolerance when
    that has an ordinary magnitude. *)
Theorem X3_macd_signal_is_a_mean (raw : market.Data) :
  let signal := DataProcessor.calculateMACDSignal raw in
  let macd := market.CurrentMACD raw in
  (forall (s : market.IntradayData) (earlier : list Q)
          (v1 v2 v3 v4 v5 v6 v7 v8 v9 B : Q),
      market.IntradaySeries raw = Some s ->
      market.MACDValues s = earlier ++ [v1; v2; v3; v4; v5; v6; v7; v8; v9] ->
      (forall (raw' : market.Data) (s' : market.IntradayData)
              (earlier' : list Q),
          market.IntradaySeries raw' = Some s' ->
          market.MACDValues s'
          = earlier' ++ [v1; v2; v3; v4; v5; v6; v7; v8; v9] ->
          DataProcessor.calculateMACDSignal raw' = signal)
      /\ (ordinary B ->
          Forall (fun v => - B <= v <= B)%Q [v1; v2; v3; v4; v5; v6; v7; v8; v9] ->
          within signal ((v1 + v2 + v3 + v4 + v5 + v6 + v7 + v8 + v9) / 9) B))
  /\ (market.IntradaySeries raw = None
      \/ (exists s : market.IntradayData,
             market.IntradaySeries raw = Some s
             /\ (List.length (market.MACDValues s) < 9)%nat) ->
      ((0 <= macd)%Q -> (0 <= signal <= macd)%Q)
      /\ ((macd <= 0)%Q -> (macd <= signal <= 0)%Q)
      /\ (ordinary macd -> within signal (macd * 0.9) macd)
      /\ (ordinary (- macd) -> within signal (macd * 0.9) (- macd))).
Proof.
  intros signal macd.
  assert (Hnine : forall (raw' : market.Data) (s' : market.IntradayData)
                         (earlier' : list Q) (v1 v2 v3 v4 v5 v6 v7 v8 v9 : Q),
             market.IntradaySeries raw' = Some s' ->
             market.MACDValues s'
             = earlier' ++ [v1; v2; v3; v4; v5; v6; v7; v8; v9] ->
             DataProcessor.calculateMACDSignal raw'
             = ((0 + v1 + v2 + v3 + v4 + v5 + v6 + v7 + v8 + v9) / 9)%Q).
  { intros raw' s' earlier' v1 v2 v3 v4 v5 v6 v7 v8 v9 Hs Hv.
    unfold DataProcessor.calculateMACDSignal, DataProcessor.sum_last9.
    rewrite Hs, Hv. rewrite length_app. cbn [List.length].
    destruct (Nat.leb_spec 9 (List.length earlier' + 9)); [|lia].
    replace (List.length earlier' + 9 - 9)%nat with (List.length earlier')
      by lia.
    change skipn with (@drop Q). rewrite drop_app_length. reflexivity. }
  split.
  - intros s earlier v1 v2 v3 v4 v5 v6 v7 v8 v9 B Hs Hv. split.
    + intros raw' s' earlier' Hs' Hv'. subst signal.
      rewrite (Hnine _ _ _ _ _ _ _ _ _ _ _ _ Hs' Hv').
      rewrite (Hnine _ _ _ _ _ _ _ _ _ _ _ _ Hs Hv). reflexivity.
    + intros HB _. apply ordinary_pos in HB. subst signal.
      rewrite (Hnine _ _ _ _ _ _ _ _ _ _ _ _ Hs Hv).
      unfold within, tolerance.
      set (mean := ((v1 + v2 + v3 + v4 + v5 + v6 + v7 + v8 + v9) / 9)%Q).
      assert (E : ((0 + v1 + v2 + v3 + v4 + v5 + v6 + v7 + v8 + v9) / 9
                   == mean)%Q) by (subst mean; field).
      rewrite E. split; lra.
  - intros Hfew. subst signal macd.
    assert (E : DataProcessor.calculateMACDSignal raw
                = (market.CurrentMACD raw * 0.9)%Q).
    { unfold DataProcessor.calculateMACDSignal.
      destruct Hfew as [-> | (s & -> & Hlen)]; [reflexivity|].
      destruct (Nat.leb_spec 9 (List.length (market.MACDValues s)));
        [lia | reflexivity]. }
    rewrite E. unfold within, tolerance.
    repeat split; intros; try apply ordinary_pos in H; lra.
Qed.

Lemma X3_macd_signal_is_a_mean_witness :
  let raw :=
    {| market.Symbol := "BTCUSDT"; market.CurrentPrice := 1;
       market.PriceChange1h := 0; market.PriceChange4h := 0;
       market.CurrentEMA20 := 1; market.CurrentMACD := 5;
       market.CurrentRSI7 := 50; market.FundingRate := 0;
       market.OpenInterest := None;
       market.IntradaySeries :=
         Some {| market.MidPrices := []; market.EMA20Values := [];
                 market.MACDValues := [9; 1; 2; 3; 1; 2; 3; 1; 2; 3]%Q;
                 market.RSI7Values := []; market.RSI14Values := [] |};
       market.LongerTermContext := None |} in
  within (DataProcessor.calculateMACDSignal raw) 2 3.
Proof.
  intros raw.
  destruct (X3_macd_signal_is_a_mean raw) as [Hmean _].
  destruct (Hmean _ [9%Q] 1 2 3 1 2 3 1 2 3 3 eq_refl eq_refl)%Q
    as [_ Hwithin].
  apply Hwithin.
  - cbv. split; discriminate.
  - repeat constructor; cbv; discriminate.
Defined.

Lemma ProcessMarketData_some (R : Runtime) (dp : DataProcessor.t) (now : Z)
    (raw : market.Data) :
  exists c, DataProcessor.ProcessMarketData R dp now (Some raw) = (Some c, None).
Proof. eexists. reflexivity. Qed.

(** What the loop of the batch appends to the slice it was given. *)
Lemma batchProcessLoop_appends (R : Runtime) (dp : DataProcessor.t)
    (clock : nat -> Z) (rawDataList : list (option market.Data)) :
  forall (i : nat) (cleaned : list CleanedMarketData.t),
  exists kept,
    batchProcessLoop R dp clock i rawDataList cleaned = Returns (cleaned ++ kept)
    /\ (List.length kept <= List.length rawDataList)%nat
    /\ Forall (fun c =>
         CleanedMarketData.IsValid c = true
         /\ exists j raw,
              rawDataList !! j = Some (Some raw)
              /\ DataProcessor.ProcessMarketData R dp (clock (i + j)%nat)
                   (Some raw) = (Some c, None)) kept
    /\ (kept = [] ->
        forall j raw c,
          rawDataList !! j = Some (Some raw) ->
          DataProcessor.ProcessMarketData R dp (clock (i + j)%nat) (Some raw)
          = (Some c, None) ->
          CleanedMarketData.IsValid c = false).
Proof.
  induction rawDataList as [|rawData rest IH]; intros i cleaned.
  - exists []. cbn [batchProcessLoop]. rewrite app_nil_r.
    repeat split; [cbn; lia | constructor |].
    intros _ j raw c Hj. rewrite lookup_nil in Hj. discriminate.
  - cbn [batchProcessLoop]. destruct rawData as [raw|].
    + destruct (ProcessMarketData_some R dp (clock i) raw) as [c Hc].
      rewrite Hc. destruct (CleanedMarketData.IsValid c) eqn:Hvalid.
      * destruct (IH (S i) (cleaned ++ [c])) as (kept & Hloop & Hlen & Hall & _).
        exists (c :: kept). rewrite Hloop, <- app_assoc. cbn [app List.length].
        repeat split; [lia | | discriminate].
        constructor.
        -- split; [exact Hvalid|]. exists 0%nat, raw.
           rewrite Nat.add_0_r. split; [reflexivity | exact Hc].
        -- eapply Forall_impl; [exact Hall|].
           cbv beta. intros c' (Hv & j & raw' & Hj & Hp).
           split; [exact Hv|]. exists (S j), raw'.
           rewrite Nat.add_succ_r. split; [exact Hj | exact Hp].
      * destruct (IH (S i) cleaned) as (kept & Hloop & Hlen & Hall & Hnone).
        exists kept. rewrite Hloop. cbn [List.length].
        repeat split; [lia | |].
        -- eapply Forall_impl; [exact Hall|].
           cbv beta. intros c' (Hv & j & raw' & Hj & Hp).
           split; [exact Hv|]. exists (S j), raw'.
           rewrite Nat.add_succ_r. split; [exact Hj | exact Hp].
        -- intros Hk [|j] raw' c' Hj Hp.
           ++ cbn in Hj. injection Hj as ->.
              rewrite Nat.add_0_r in Hp. rewrite Hc in Hp.
              injection Hp as <-. exact Hvalid.
           ++ apply (Hnone Hk j raw' c' Hj).
              rewrite Nat.add_succ_r in Hp. exact Hp.
    + destruct (IH (S i) cleaned) as (kept & Hloop & Hlen & Hall & Hnone).
      exists kept. rewrite Hloop. cbn [List.length].
      repeat split; [lia | |].
      * eapply Forall_impl; [exact Hall|].
        cbv beta. intros c' (Hv & j & raw' & Hj & Hp).
        split; [exact Hv|]. exists (S j), raw'.
        rewrite Nat.add_succ_r. split; [exact Hj | exact Hp].
      * intros Hk [|j] raw' c' Hj Hp.
        -- cbn in Hj. discriminate.
        -- apply (Hnone Hk j raw' c' Hj).
           rewrite Nat.add_succ_r in Hp. exact Hp.
Qed.

(** X4. A batch never panics. It answers either with the error
    [no valid data after cleaning], and then no record of the batch
    is valid, or with a non-empty list, no longer than the batch,
    of valid records each of which is the cleaned form of a non-nil
    record of the batch. *)
Theorem X4_batch_keeps_the_valid_records (R : Runtime) (dp : DataProcessor.t)
    (clock : nat -> Z) (rawDataList : list (option market.Data)) :
  (BatchProcessMarketData R dp clock rawDataList
   = Returns (None, Some "no valid data after cleaning")
   /\ forall i raw c,
        rawDataList !! i = Some (Some raw) ->
        DataProcessor.ProcessMarketData R dp (clock i) (Some raw)
        = (Some c, None) ->
        CleanedMarketData.IsValid c = false)
  \/ (exists cleaned,
        BatchProcessMarketData R dp clock rawDataList
        = Returns (Some cleaned, None)
        /\ (0 < List.length cleaned <= List.length rawDataList)%nat
        /\ Forall (fun c =>
             CleanedMarketData.IsValid c = true
             /\ exists i raw,
                  rawDataList !! i = Some (Some raw)
                  /\ DataProcessor.ProcessMarketData R dp (clock i) (Some raw)
                     = (Some c, None)) cleaned).
Proof.
  unfold BatchProcessMarketData.
  destruct (batchProcessLoop_appends R dp clock rawDataList 0 [])
    as (kept & Hloop & Hlen & Hall & Hnone).
  rewrite Hloop. cbn [app]. destruct kept as [|c kept].
  - left. split; [reflexivity|]. exact (Hnone eq_refl).
  - right. exists (c :: kept). split; [reflexivity|].
    split; [cbn [List.length] in *; lia | exact Hall].
Qed.

(** ** The risk calculator *)

Lemma cycle_keeps_breaker (R : Runtime) (o : Orchestrator.t)
    (env : Orchestrator.Env) (raw : option market.Data) :
  RiskCalculator.circuitBreakerActive (Orchestrator.riskCalculator o) = true ->
  RiskCalculator.circuitBreakerActive
    (Orchestrator.riskCalculator
       (fst (Orchestrator.ExecuteTradingCycle R o env raw))) = true.
Proof.
  intros Hactive. unfold Orchestrator.ExecuteTradingCycle. cbv zeta.
  repeat mcase; cbn; exact Hactive.
Qed.

Lemma call_keeps_breaker (R : Runtime) (o : Orchestrator.t) (c : Call) :
  RiskCalculator.circuitBreakerActive (Orchestrator.riskCalculator o) = true ->
  isReset c = false ->
  RiskCalculator.circuitBreakerActive
    (Orchestrator.riskCalculator (call R o c)) = true.
Proof.
  intros Hactive Hc. destruct c as [env raw|total available used|pnl|isWin|].
  - apply cycle_keeps_breaker. exact Hactive.
  - exact Hactive.
  - cbn. rewrite Hactive. now destruct (_ && _).
  - cbn. rewrite Hactive. now destruct (_ && _).
  - discriminate.
Qed.

(** X5. The circuit breaker latches: once it is active, no sequence of
    trading cycles, account updates, daily results and trade results
    clears it; only [ResetCircuitBreaker] does, and it also zeroes the
    daily result and the losing streak. *)
Theorem X5_breaker_latches (R : Runtime) (o : Orchestrator.t)
    (calls : list Call) :
  RiskCalculator.circuitBreakerActive (Orchestrator.riskCalculator o) = true ->
  forallb (fun c => negb (isReset c)) calls = true ->
  RiskCalculator.circuitBreakerActive
    (Orchestrator.riskCalculator (run R o calls)) = true
  /\ let rc :=
       Orchestrator.riskCalculator
         (Orchestrator.ResetCircuitBreaker (run R o calls)) in
     RiskCalculator.circuitBreakerActive rc = false
     /\ RiskCalculator.consecutiveLosses rc = 0
     /\ (RiskCalculator.dailyPnL rc == 0)%Q.
Proof.
  intros Hactive Hcalls. split; [|cbn; repeat split; reflexivity].
  revert o Hactive. induction calls as [|c calls IH]; intros o Hactive.
  - exact Hactive.
  - cbn [forallb] in Hcalls. apply andb_true_iff in Hcalls as [Hc Hrest].
    apply negb_true_iff in Hc.
    unfold run. cbn [fold_left]. fold (run R (call R o c) calls).
    apply IH; [exact Hrest|]. apply call_keeps_breaker; assumption.
Qed.

Lemma X5_breaker_latches_witness :
  let o :=
    Orchestrator.withComponents Fixtures.orchestrator
      Samples.trippedCalculator
      (Orchestrator.decisionMaker Fixtures.orchestrator)
      (Orchestrator.riskValidator Fixtures.orchestrator) in
  let calls :=
    [ CallExecuteTradingCycle
        (Fixtures.environment Fixtures.someTime Fixtures.unreachable)
        (Some Fixtures.getTestMarketData);
      CallUpdateAccountInfo 10000 9000 1000;
      CallUpdateDailyPnL 50;
      CallRecordTradeResult true ] in
  RiskCalculator.circuitBreakerActive
    (Orchestrator.riskCalculator (run Fixtures.runtime o calls)) = true.
Proof.
  intros o calls.
  refine (proj1 (X5_breaker_latches Fixtures.runtime o calls _ _));
    reflexivity.
Defined.

Lemma recordLosses_S (n : nat) (rc : RiskCalculator.t) :
  recordLosses (S n) rc
  = RiskCalculator.RecordTradeResult (recordLosses n rc) false.
Proof. reflexivity. Qed.

Lemma recordLosses_config (n : nat) (rc : RiskCalculator.t) :
  RiskCalculator.config (recordLosses n rc) = RiskCalculator.config rc.
Proof.
  induction n as [|n IH]; [reflexivity|]. rewrite recordLosses_S. exact IH.
Qed.

Lemma recordLosses_streak (n : nat) (rc : RiskCalculator.t) :
  0 <= RiskCalculator.consecutiveLosses rc ->
  RiskCalculator.consecutiveLosses rc + Z.of_nat n < 2 ^ 63 ->
  RiskCalculator.consecutiveLosses (recordLosses n rc)
  = RiskCalculator.consecutiveLosses rc + Z.of_nat n.
Proof.
  intros H0. induction n as [|n IH]; intros Hn.
  - cbn. lia.
  - rewrite recordLosses_S.
    unfold RiskCalculator.RecordTradeResult.
    cbn [RiskCalculator.consecutiveLosses].
    rewrite IH by lia. rewrite int_succ_small by lia. lia.
Qed.

(** X6. With the breaker enabled, a run of losing trades that brings
    the streak to the configured maximum trips the breaker; a winning
    trade after it resets the streak to zero and leaves the breaker
    tripped. The streak is a 64-bit integer: it stays below 2^63. *)
Theorem X6_losing_streak_trips_the_breaker (rc : RiskCalculator.t) (n : nat) :
  DataLayerConfig.CircuitBreakerEnabled (RiskCalculator.config rc) = true ->
  0 <= RiskCalculator.consecutiveLosses rc ->
  (0 < n)%nat ->
  DataLayerConfig.MaxConsecutiveLosses (RiskCalculator.config rc)
  <= RiskCalculator.consecutiveLosses rc + Z.of_nat n < 2 ^ 63 ->
  let rc' := recordLosses n rc in
  RiskCalculator.circuitBreakerActive rc' = true
  /\ RiskCalculator.consecutiveLosses rc'
     = RiskCalculator.consecutiveLosses rc + Z.of_nat n
  /\ RiskCalculator.consecutiveLosses
       (RiskCalculator.RecordTradeResult rc' true) = 0
  /\ RiskCalculator.circuitBreakerActive
       (RiskCalculator.RecordTradeResult rc' true) = true.
Proof.
  intros Hon H0 Hn Hmax rc'.
  assert (Hstreak : RiskCalculator.consecutiveLosses rc'
                    = RiskCalculator.consecutiveLosses rc + Z.of_nat n)
    by (apply recordLosses_streak; lia).
  assert (Hactive : RiskCalculator.circuitBreakerActive rc' = true).
  { subst rc'. destruct n as [|n]; [lia|].
    rewrite recordLosses_S in *.
    unfold RiskCalculator.RecordTradeResult in *.
    cbn [RiskCalculator.circuitBreakerActive RiskCalculator.consecutiveLosses
         RiskCalculator.config] in *.
    rewrite recordLosses_config, Hon. cbn [andb].
    rewrite Hstreak.
    destruct (Z.geb_spec (RiskCalculator.consecutiveLosses rc + Z.of_nat (S n))
                (DataLayerConfig.MaxConsecutiveLosses (RiskCalculator.config rc)));
      [reflexivity | lia]. }
  repeat split; [exact Hactive | exact Hstreak |].
  cbn. rewrite Hactive. now destruct (_ && _).
Qed.

Lemma X6_losing_streak_trips_the_breaker_witness :
  RiskCalculator.circuitBreakerActive
    (recordLosses 3 (RiskCalculator.NewRiskCalculator Samples.guardedConfig))
  = true.
Proof.
  refine (proj1 (X6_losing_streak_trips_the_breaker
                   (RiskCalculator.NewRiskCalculator Samples.guardedConfig)
                   3 _ _ _ _));
    cbn; try reflexivity; lia.
Defined.

(** X7. Metrics that allow a trade were computed with the breaker
    inactive and both balances positive, for a long or a short; their
    level is not extreme and their stop price is positive. When their
    leverage is not 0, so that the required margin is a quotient, the
    margin is covered by the available balance and the margin usage is at
    most 90 percent. *)
Theorem X7_tradable_metrics (R : Runtime) (rc : RiskCalculator.t)
    (direction : Direction) (d : CleanedMarketData.t) (m : RiskMetrics.t) :
  RiskCalculator.CalculateRiskMetrics R rc direction (Some d) = (Some m, None) ->
  RiskMetrics.CanTrade m = true ->
  preCheckPasses rc
  /\ (direction = DirectionLong \/ direction = DirectionShort)
  /\ RiskMetrics.RiskLevel m <> "extreme"
  /\ (0 < RiskMetrics.StopLossPrice m)%Q
  /\ (RiskMetrics.RecommendedLeverage m <> 0 ->
      (RiskMetrics.RequiredMargin m <= RiskCalculator.availableBalance rc)%Q
      /\ (RiskMetrics.MarginUsagePercent m <= 90)%Q).
Proof.
  intros Hcalc Hcan. unfold RiskCalculator.CalculateRiskMetrics in Hcalc.
  destruct (RiskCalculator.circuitBreakerActive rc) eqn:Hb.
  { injection Hcalc as <-. discriminate. }
  destruct ((RiskCalculator.totalBalance rc <=? 0)%Q
            || (RiskCalculator.availableBalance rc <=? 0)%Q) eqn:Hbal.
  { injection Hcalc as <-. discriminate. }
  bprop Hbal. cbv zeta in Hcalc.
  match type of Hcalc with
  | context [RiskCalculator.canTrade ?R ?rc ?x] =>
      set (metrics := x) in *;
      destruct (RiskCalculator.canTrade R rc metrics) as [ok reason] eqn:Hct
  end.
  injection Hcalc as <-.
  cbn [RiskMetrics.CanTrade RiskMetrics.RequiredMargin
       RiskMetrics.MarginUsagePercent RiskMetrics.RiskLevel
       RiskMetrics.StopLossPrice RiskMetrics.RecommendedLeverage] in *.
  subst ok. unfold RiskCalculator.canTrade in Hct. rewrite Hb in Hct.
  destruct (RiskCalculator.availableBalance rc
            <? RiskMetrics.RequiredMargin metrics)%Q eqn:E1; [discriminate|].
  destruct (RiskMetrics.MarginUsagePercent metrics >? 90)%Q eqn:E2;
    [discriminate|].
  destruct (String.eqb (RiskMetrics.RiskLevel metrics) "extreme") eqn:E3;
    [discriminate|].
  destruct (RiskMetrics.StopLossPrice metrics <=? 0)%Q eqn:E4; [discriminate|].
  bprop E1. bprop E2. bprop E4. apply String.eqb_neq in E3.
  subst metrics.
  cbn [RiskMetrics.CanTrade RiskMetrics.RequiredMargin
       RiskMetrics.MarginUsagePercent RiskMetrics.RiskLevel
       RiskMetrics.StopLossPrice] in *.
  split; [unfold preCheckPasses; intuition|].
  split; [|intuition].
  destruct (String.eqb direction DirectionLong) eqn:Hl.
  { left. now apply String.eqb_eq. }
  destruct (String.eqb direction DirectionShort) eqn:Hs.
  { right. now apply String.eqb_eq. }
  exfalso. lra.
Qed.

Lemma X7_tradable_metrics_witness :
  exists m,
    RiskCalculator.CalculateRiskMetrics Fixtures.runtime
      Fixtures.fundedCalculator DirectionLong
      (Some (Fixtures.cleaned Fixtures.getTestMarketData)) = (Some m, None)
    /\ (RiskMetrics.MarginUsagePercent m <= 90)%Q.
Proof.
  eexists. split; [reflexivity|].
  refine (proj2 (proj2 (proj2 (proj2 (proj2
            (X7_tradable_metrics Fixtures.runtime Fixtures.fundedCalculator
               DirectionLong (Fixtures.cleaned Fixtures.getTestMarketData)
               _ eq_refl _)))) _)).
  - vm_compute. reflexivity.
  - vm_compute. discriminate.
Defined.

Lemma assessRiskLevel_levels (rc : RiskCalculator.t) (m : RiskMetrics.t) :
  isRiskLevel (RiskCalculator.assessRiskLevel rc m).
Proof.
  unfold RiskCalculator.assessRiskLevel, isRiskLevel. cbv zeta.
  repeat match goal with
         | |- context [if ?b then "extreme" else _] => destruct b
         | |- context [if ?b then "high" else _] => destruct b
         | |- context [if ?b then "medium" else _] => destruct b
         end; tauto.
Qed.

(** Metrics without a positive stop price do not allow a trade. *)
Lemma canTrade_needs_a_stop (R : Runtime) (rc : RiskCalculator.t)
    (m : RiskMetrics.t) :
  (RiskMetrics.StopLossPrice m <= 0)%Q ->
  fst (RiskCalculator.canTrade R rc m) = false.
Proof.
  intros Hstop. unfold RiskCalculator.canTrade.
  apply Qleb_true in Hstop. rewrite Hstop.
  repeat match goal with
         | |- context [if ?b then _ else _] => destruct b
         end; reflexivity.
Qed.

(** X8. For a non-nil record the risk metrics are always returned
    with a nil error and a level among low, medium, high and extreme. When
    the pre-check fails they hold no number but zeros, at the extreme
    level, and forbid trading. For a direction that is neither long nor
    short no stop, target or maximum loss is computed, and trading is
    forbidden. Past the pre-check, for a balance of ordinary magnitude and
    risk percentages that are zero or ordinary, the position size is not
    negative and is capped by the account risk and by fifty times the
    single-trade risk; and when the fallback stop of two percent is used,
    at an ordinary price, the maximum loss is within the single-trade
    risk. The caps are computed in float64 and hold up to the
    tolerance. *)
Theorem X8_position_caps (R : Runtime) (rc : RiskCalculator.t)
    (direction : Direction) (d : CleanedMarketData.t) :
  let total := RiskCalculator.totalBalance rc in
  let accountPercent :=
    DataLayerConfig.MaxAccountRiskPercent (RiskCalculator.config rc) in
  let tradePercent :=
    DataLayerConfig.MaxSingleTradeRiskPercent (RiskCalculator.config rc) in
  let accountRisk := (total * accountPercent / 100)%Q in
  let tradeRisk := (total * tradePercent / 100)%Q in
  exists m,
    RiskCalculator.CalculateRiskMetrics R rc direction (Some d) = (Some m, None)
    /\ isRiskLevel (RiskMetrics.RiskLevel m)
    /\ (~ preCheckPasses rc ->
        RiskMetrics.MaxPositionSizeUSD m = 0%Q
        /\ RiskMetrics.RecommendedLeverage m = 0
        /\ RiskMetrics.StopLossPrice m = 0%Q
        /\ RiskMetrics.TakeProfitPrice m = 0%Q
        /\ RiskMetrics.MaxLossUSD m = 0%Q
        /\ RiskMetrics.RequiredMargin m = 0%Q
        /\ RiskMetrics.MarginUsagePercent m = 0%Q
        /\ RiskMetrics.RiskLevel m = "extreme"
        /\ RiskMetrics.CanTrade m = false)
    /\ (direction <> DirectionLong -> direction <> DirectionShort ->
        RiskMetrics.StopLossPrice m = 0%Q
        /\ RiskMetrics.TakeProfitPrice m = 0%Q
        /\ RiskMetrics.MaxLossUSD m = 0%Q
        /\ RiskMetrics.CanTrade m = false)
    /\ (preCheckPasses rc ->
        ordinary total ->
        ordinaryOrZero accountPercent ->
        ordinaryOrZero tradePercent ->
        (0 <= RiskMetrics.MaxPositionSizeUSD m)%Q
        /\ (RiskMetrics.MaxPositionSizeUSD m
            <= accountRisk * (1 + tolerance))%Q
        /\ (RiskMetrics.MaxPositionSizeUSD m
            <= 50 * tradeRisk * (1 + tolerance))%Q
        /\ ((CleanedMarketData.ATR d <= 0)%Q ->
            ordinary (CleanedMarketData.CurrentPrice d) ->
            direction = DirectionLong \/ direction = DirectionShort ->
            (0 <= RiskMetrics.MaxLossUSD m
             <= tradeRisk * (1 + tolerance))%Q)).
Proof.
  intros total accountPercent tradePercent accountRisk tradeRisk.
  unfold RiskCalculator.CalculateRiskMetrics.
  destruct (RiskCalculator.circuitBreakerActive rc) eqn:Hb.
  { eexists. split; [reflexivity|]. cbn.
    split; [unfold isRiskLevel; tauto|].
    split; [intros _; repeat split|].
    split; [intros _ _; repeat split|].
    intros (Hp & _). congruence. }
  destruct ((RiskCalculator.totalBalance rc <=? 0)%Q
            || (RiskCalculator.availableBalance rc <=? 0)%Q) eqn:Hbal.
  { eexists. split; [reflexivity|]. cbn.
    split; [unfold isRiskLevel; tauto|].
    split; [intros _; repeat split|].
    split; [intros _ _; repeat split|].
    intros (_ & Ht & Ha). bprop Hbal. exfalso. lra. }
  bprop Hbal. cbv zeta.
  match goal with
  | |- context [RiskCalculator.canTrade ?R ?rc ?x] =>
      pose proof (canTrade_needs_a_stop R rc x) as Hstop;
      destruct (RiskCalculator.canTrade R rc x) as [ok reason]
  end.
  cbn [fst RiskMetrics.StopLossPrice] in Hstop.
  eexists. split; [reflexivity|].
  cbn [RiskMetrics.RiskLevel RiskMetrics.MaxPositionSizeUSD
       RiskMetrics.MaxLossUSD RiskMetrics.StopLossPrice
       RiskMetrics.TakeProfitPrice RiskMetrics.CanTrade
       RiskMetrics.RecommendedLeverage RiskMetrics.RequiredMargin
       RiskMetrics.MarginUsagePercent].
  split; [apply assessRiskLevel_levels|].
  split.
  { intros Hnot. exfalso. apply Hnot. unfold preCheckPasses. intuition. }
  split.
  { intros Hl Hs. apply String.eqb_neq in Hl, Hs.
    rewrite Hl, Hs in *. repeat split. apply Hstop. lra. }
  clear Hstop.
  intros _ Htotal Haccount Htrade.
  fold total accountPercent tradePercent. fold tradeRisk. fold accountRisk.
  apply ordinary_pos in Htotal.
  assert (Hshare : forall percent : Q,
             ordinaryOrZero percent -> (0 <= total * percent / 100)%Q).
  { intros percent [E|Hpos].
    - rewrite E. unfold Qdiv. rewrite Qmult_0_r, Qmult_0_l. lra.
    - apply ordinary_pos in Hpos.
      apply Qle_shift_div_l; [reflexivity|]. rewrite Qmult_0_l.
      apply Qmult_le_0_compat; lra. }
  assert (Hacc0 : (0 <= accountRisk)%Q) by (apply Hshare; exact Haccount).
  assert (Htr0 : (0 <= tradeRisk)%Q) by (apply Hshare; exact Htrade).
  clear Hshare.
  assert (Hfifty : (tradeRisk / 0.02 == 50 * tradeRisk)%Q) by (field).
  set (maxPosition :=
         if (tradeRisk / 0.02 >? accountRisk)%Q then accountRisk
         else (tradeRisk / 0.02)%Q).
  assert (Hmax : (0 <= maxPosition /\ maxPosition <= accountRisk
                  /\ maxPosition <= 50 * tradeRisk)%Q).
  { subst maxPosition.
    destruct (tradeRisk / 0.02 >? accountRisk)%Q eqn:E; bprop E; lra. }
  destruct Hmax as (Hpos & Hacc & Hfif).
  unfold tolerance.
  split; [exact Hpos|]. split; [lra|]. split; [lra|].
  intros Hatr Hprice Hdir. apply ordinary_pos in Hprice.
  set (price := CleanedMarketData.CurrentPrice d) in *.
  assert (Hratio : forall stop : Q,
             (Qabs (price - stop) == 0.02 * price)%Q ->
             (0 <= Qabs (price - stop) / price * maxPosition
              <= tradeRisk * (1 + (1 # 1000000)))%Q).
  { intros stop Habs. rewrite Habs.
    assert (E : (0.02 * price / price * maxPosition == 0.02 * maxPosition)%Q)
      by (field; lra).
    rewrite E. lra. }
  apply Qgtb_false in Hatr.
  destruct Hdir as [-> | ->]; cbn [String.eqb Ascii.eqb Bool.eqb DirectionLong
                                   DirectionShort].
  - unfold RiskCalculator.calculateLongStopLoss. rewrite Hatr. fold price.
    assert (Hp : (price * 0.98 >? 0)%Q = true) by (apply Qgtb_true; lra).
    rewrite Hp. apply Hratio.
    rewrite Qabs_pos by lra. ring.
  - unfold RiskCalculator.calculateShortStopLoss. rewrite Hatr. fold price.
    assert (Hp : (price * 1.02 >? 0)%Q = true) by (apply Qgtb_true; lra).
    rewrite Hp. apply Hratio.
    rewrite Qabs_neg by lra. ring.
Qed.

Lemma percent_bounds (a b : Q) :
  (0 <= a -> a <= b -> 0 < b -> 0 <= a / b * 100 <= 100)%Q.
Proof.
  intros Ha Hab Hb.
  assert (Hinv : (0 < / b)%Q) by (apply Qinv_lt_0_compat; exact Hb).
  assert (Hone : (b * / b == 1)%Q) by (field; lra).
  unfold Qdiv. split; [nra|].
  assert (Hle : (a * / b <= b * / b)%Q) by nra.
  lra.
Qed.

(** X9. The account summary reads back what [UpdateAccountInfo] and
    [UpdateDailyPnL] stored; it has exactly seven entries; its margin usage
    is a float that is 0 for an account with no positive balance, so no
    division by zero takes place, and that lies between 0 and 100 when
    the used margin lies between 0 and the total. *)
Theorem X9_account_summary_round_trip (rc : RiskCalculator.t)
    (total available used pnl : Q) :
  let summary :=
    GetAccountRiskSummary
      (RiskCalculator.UpdateDailyPnL
         (RiskCalculator.UpdateAccountInfo rc total available used) pnl) in
  summary !! "total_balance" = Some (VFloat total)
  /\ summary !! "available_balance" = Some (VFloat available)
  /\ summary !! "used_margin" = Some (VFloat used)
  /\ summary !! "daily_pnl" = Some (VFloat pnl)
  /\ summary !! "consecutive_losses"
     = Some (VInt (RiskCalculator.consecutiveLosses rc))
  /\ size summary = 7%nat
  /\ exists usage,
       summary !! "margin_usage_percent" = Some (VFloat usage)
       /\ ((total <= 0)%Q -> usage = 0%Q)
       /\ ((0 <= used)%Q -> (used <= total)%Q -> (0 <= usage <= 100)%Q).
Proof.
  intros summary. subst summary. unfold GetAccountRiskSummary.
  cbn [RiskCalculator.UpdateDailyPnL RiskCalculator.UpdateAccountInfo
       RiskCalculator.totalBalance RiskCalculator.availableBalance
       RiskCalculator.usedMargin RiskCalculator.dailyPnL
       RiskCalculator.consecutiveLosses RiskCalculator.circuitBreakerActive
       RiskCalculator.config].
  cbv zeta.
  do 5 (split; [reflexivity|]).
  split.
  { repeat (rewrite map_size_insert_None;
            [| repeat (rewrite lookup_insert_ne by discriminate);
               apply lookup_empty]).
    rewrite map_size_empty. reflexivity. }
  eexists. split; [reflexivity|]. split.
  - intros Ht. apply Qgtb_false in Ht. now rewrite Ht.
  - intros Hu Hut. destruct (total >? 0)%Q eqn:E; bprop E; [|lra].
    apply percent_bounds; assumption.
Qed.

(** ** The market analyzer and the opportunity detector *)

Lemma parseMarketConditionFromText_valid (text : string) :
  let '(condition, _, err) := MarketAnalyzer.parseMarketConditionFromText text in
  MarketAnalyzer.isValidMarketCondition condition = true /\ err = None.
Proof.
  unfold MarketAnalyzer.parseMarketConditionFromText.
  repeat bcase; split; reflexivity.
Qed.

Lemma technicals_condition_valid (R : Runtime) (d : CleanedMarketData.t) :
  MarketAnalyzer.isValidMarketCondition
    (fst (MarketAnalyzer.AnalyzeMarketConditionWithTechnicals R d)) = true.
Proof.
  unfold MarketAnalyzer.AnalyzeMarketConditionWithTechnicals. cbv zeta.
  repeat match goal with
         | |- context [if ?b then _ else _] => destruct b
         end; reflexivity.
Qed.

(** X10. The market analysis answers with one of the five market
    conditions whenever its error is nil, whatever the language model
    sends, and with the empty condition when its error is not nil, which
    happens exactly for nil data or a failed call; the rule-based analysis
    always answers with one of the five. *)
Theorem X10_condition_is_one_of_five (R : Runtime)
    (send : string -> string -> reply) (data : option CleanedMarketData.t) :
  let '(condition, _, err) :=
    MarketAnalyzer.AnalyzeMarketCondition R send data in
  (err = None ->
   MarketAnalyzer.isValidMarketCondition condition = true)
  /\ (err <> None -> condition = "")
  /\ (err <> None <->
      data = None
      \/ exists d e,
           data = Some d
           /\ send MarketAnalyzer.systemPrompt
                (MarketAnalyzer.userPrompt
                   (CleanedMarketData.CompressedSummary d)) = Failure e)
  /\ forall d,
       MarketAnalyzer.isValidMarketCondition
         (fst (MarketAnalyzer.AnalyzeMarketConditionWithTechnicals R d)) = true.
Proof.
  unfold MarketAnalyzer.AnalyzeMarketCondition.
  destruct data as [d|].
  2:{ repeat split; try congruence; try discriminate.
      - intros _. now left.
      - apply technicals_condition_valid. }
  destruct (send _ _) as [text|e] eqn:Hsend.
  2:{ repeat split; try congruence; try discriminate.
      - intros _. right. exists d, e. split; [reflexivity | exact Hsend].
      - apply technicals_condition_valid. }
  assert (Hno : ~ (Some d = None
                   \/ exists d0 e,
                        Some d = Some d0
                        /\ send MarketAnalyzer.systemPrompt
                             (MarketAnalyzer.userPrompt
                                (CleanedMarketData.CompressedSummary d0))
                           = Failure e)).
  { intros [H|(d0 & e & H & Hs)]; [discriminate|].
    injection H as <-. congruence. }
  destruct (json_condition R text) as [[condition reason]|].
  - destruct (MarketAnalyzer.isValidMarketCondition condition) eqn:Hvalid;
      cbn [negb]; repeat split; try congruence; try tauto;
      try apply technicals_condition_valid.
  - pose proof (parseMarketConditionFromText_valid text) as Hparse.
    destruct (MarketAnalyzer.parseMarketConditionFromText text)
      as [[condition reason] err].
    destruct Hparse as [Hvalid ->].
    repeat split; try congruence; try tauto;
      try apply technicals_condition_valid.
Qed.

Lemma parseOpportunityFromText_cases (text : string) :
  OpportunityDetector.parseOpportunityFromText text
  = if (0 <? String.length text)%nat
    then (OpportunityLongEntry, "从文本解析：做多机会", None)
    else (OpportunityNone, "无交易机会", None).
Proof.
  unfold OpportunityDetector.parseOpportunityFromText, MarketAnalyzer.contains.
  destruct (0 <? String.length text)%nat; reflexivity.
Qed.

(** X11. The opportunity detection answers with one of the six
    opportunities whenever its error is nil; a response that does not
    decode is read as a long entry when it is not empty, whatever it says,
    and as no opportunity when it is empty. *)
Theorem X11_opportunity_is_one_of_six (R : Runtime)
    (send : string -> string -> reply) (condition : MarketCondition)
    (data : option CleanedMarketData.t) :
  (let '(opportunity, _, err) :=
     OpportunityDetector.DetectOpportunity R send condition data in
   (err = None ->
    OpportunityDetector.isValidOpportunity opportunity = true)
   /\ (err <> None -> opportunity = OpportunityNone))
  /\ forall d text,
       data = Some d ->
       send OpportunityDetector.systemPrompt
         (OpportunityDetector.userPrompt condition
            (CleanedMarketData.CompressedSummary d)) = Response text ->
       json_opportunity R text = None ->
       fst (fst (OpportunityDetector.DetectOpportunity R send condition data))
       = if String.eqb text "" then OpportunityNone else OpportunityLongEntry.
Proof.
  unfold OpportunityDetector.DetectOpportunity. split.
  - destruct data as [d|]; [|split; [discriminate | reflexivity]].
    destruct (send _ _) as [text|e]; [|split; [discriminate | reflexivity]].
    destruct (json_opportunity R text) as [[opportunity reason]|].
    + destruct (OpportunityDetector.isValidOpportunity opportunity) eqn:Hvalid;
        cbn [negb];
        (split; [intros _; first [exact Hvalid | reflexivity] | congruence]).
    + rewrite parseOpportunityFromText_cases.
      destruct (0 <? String.length text)%nat;
        (split; [intros _; reflexivity | congruence]).
  - intros d text -> Hsend Hjson. rewrite Hsend, Hjson.
    rewrite parseOpportunityFromText_cases.
    destruct text; reflexivity.
Qed.

Lemma X11_opportunity_is_one_of_six_witness :
  fst (fst (OpportunityDetector.DetectOpportunity Fixtures.runtime
              (fun _ _ => Response "short_entry is the only sensible trade")
              MarketRanging
              (Some (Fixtures.cleaned Fixtures.getTestMarketData))))
  = OpportunityLongEntry.
Proof.
  refine (proj2 (X11_opportunity_is_one_of_six Fixtures.runtime
                   (fun _ _ => Response "short_entry is the only sensible trade")
                   MarketRanging
                   (Some (Fixtures.cleaned Fixtures.getTestMarketData)))
            _ _ eq_refl eq_refl eq_refl).
Defined.

(** X12. The rule-based detection never proposes an exit; it proposes
    a scalp only in a volatile market and only with an extreme RSI7, and
    nothing at all in a consolidating market or under a condition it does
    not know. In a trending market a long entry needs EMA20 above EMA50
    and a short entry EMA20 below EMA50; in a breakout a long entry needs
    the price above both averages and a short entry the price below
    both, with the volume change above 50 in either case. *)
Theorem X12_rule_based_opportunities (condition : MarketCondition)
    (d : CleanedMarketData.t) :
  let opportunity :=
    fst (OpportunityDetector.DetectOpportunityWithTechnicals condition d) in
  let price := CleanedMarketData.CurrentPrice d in
  let ema20 := CleanedMarketData.EMA20 d in
  let ema50 := CleanedMarketData.EMA50 d in
  opportunity <> OpportunityLongExit
  /\ opportunity <> OpportunityShortExit
  /\ (opportunity = OpportunityScalp ->
      condition = MarketVolatile
      /\ (CleanedMarketData.RSI7 d < 25 \/ 75 < CleanedMarketData.RSI7 d)%Q)
  /\ (MarketAnalyzer.isValidMarketCondition condition = false
      \/ condition = MarketConsolidate ->
      opportunity = OpportunityNone)
  /\ (condition = MarketTrending ->
      (opportunity = OpportunityLongEntry -> (ema50 < ema20)%Q)
      /\ (opportunity = OpportunityShortEntry -> (ema20 < ema50)%Q))
  /\ (condition = MarketBreakout ->
      (opportunity = OpportunityLongEntry ->
       (ema20 < price /\ ema50 < price
        /\ 50 < CleanedMarketData.VolumeChange d)%Q)
      /\ (opportunity = OpportunityShortEntry ->
          (price < ema20 /\ price < ema50
           /\ 50 < CleanedMarketData.VolumeChange d)%Q)).
Proof.
  intros opportunity price ema20 ema50. subst opportunity price ema20 ema50.
  unfold OpportunityDetector.DetectOpportunityWithTechnicals,
    MarketAnalyzer.isValidMarketCondition.
  destruct (String.eqb condition MarketTrending) eqn:Ht.
  { apply String.eqb_eq in Ht. subst condition.
    unfold OpportunityDetector.detectTrendingOpportunity. cbv zeta.
    repeat bcase; cbn [fst];
      repeat split; try discriminate; try (intros; lra);
      intros [H|H]; discriminate. }
  destruct (String.eqb condition MarketBreakout) eqn:Hb.
  { apply String.eqb_eq in Hb. subst condition.
    unfold OpportunityDetector.detectBreakoutOpportunity. cbv zeta.
    repeat bcase; cbn [fst];
      repeat split; try discriminate; try (intros; lra);
      intros [H|H]; discriminate. }
  destruct (String.eqb condition MarketRanging) eqn:Hr.
  { apply String.eqb_eq in Hr. subst condition.
    unfold OpportunityDetector.detectRangingOpportunity.
    repeat bcase; cbn [fst];
      repeat split; try discriminate; intros [H|H]; discriminate. }
  destruct (String.eqb condition MarketConsolidate) eqn:Hc.
  { apply String.eqb_eq in Hc. subst condition. cbn.
    repeat split; try discriminate. }
  destruct (String.eqb condition MarketVolatile) eqn:Hv.
  { apply String.eqb_eq in Hv. subst condition.
    unfold OpportunityDetector.detectVolatileOpportunity.
    bcase; cbn [fst]; repeat split; try discriminate; try tauto;
      intros [H|H]; discriminate. }
  apply String.eqb_neq in Ht, Hb. cbn [fst orb].
  repeat split; try discriminate; try congruence.
Qed.

(** ** The decision maker *)

Lemma analyzed_condition_valid (R : Runtime) (send : string -> string -> reply)
    (d : CleanedMarketData.t) :
  MarketAnalyzer.isValidMarketCondition
    (fst (match MarketAnalyzer.AnalyzeMarketCondition R send (Some d) with
          | (_, _, Some _) =>
              MarketAnalyzer.AnalyzeMarketConditionWithTechnicals R d
          | (c, r, None) => (c, r)
          end)) = true.
Proof.
  unfold MarketAnalyzer.AnalyzeMarketCondition.
  destruct (send _ _) as [text|e]; [|apply technicals_condition_valid].
  destruct (json_condition R text) as [[condition reason]|].
  - destruct (MarketAnalyzer.isValidMarketCondition condition) eqn:Hvalid;
      cbn [negb fst]; [exact Hvalid | reflexivity].
  - pose proof (parseMarketConditionFromText_valid text) as Hparse.
    destruct (MarketAnalyzer.parseMarketConditionFromText text)
      as [[condition reason] err].
    destruct Hparse as [Hvalid ->]. exact Hvalid.
Qed.

Lemma technicals_opportunity_valid (condition : MarketCondition)
    (d : CleanedMarketData.t) :
  OpportunityDetector.isValidOpportunity
    (fst (OpportunityDetector.DetectOpportunityWithTechnicals condition d))
  = true.
Proof.
  unfold OpportunityDetector.DetectOpportunityWithTechnicals,
    OpportunityDetector.detectTrendingOpportunity,
    OpportunityDetector.detectBreakoutOpportunity,
    OpportunityDetector.detectRangingOpportunity,
    OpportunityDetector.detectConsolidateOpportunity,
    OpportunityDetector.detectVolatileOpportunity.
  cbv zeta.
  repeat match goal with
         | |- context [if ?b then _ else _] => destruct b
         end; reflexivity.
Qed.

Lemma detected_opportunity_valid (R : Runtime)
    (send : string -> string -> reply) (condition : MarketCondition)
    (d : CleanedMarketData.t) :
  OpportunityDetector.isValidOpportunity
    (fst (match OpportunityDetector.DetectOpportunity R send condition
                  (Some d) with
          | (_, _, Some _) =>
              OpportunityDetector.DetectOpportunityWithTechnicals condition d
          | (o, r, None) => (o, r)
          end)) = true.
Proof.
  unfold OpportunityDetector.DetectOpportunity.
  destruct (send _ _) as [text|e]; [|apply technicals_opportunity_valid].
  destruct (json_opportunity R text) as [[opportunity reason]|].
  - destruct (OpportunityDetector.isValidOpportunity opportunity) eqn:Hvalid;
      cbn [negb fst]; [exact Hvalid | reflexivity].
  - rewrite parseOpportunityFromText_cases.
    destruct (0 <? String.length text)%nat; reflexivity.
Qed.

Lemma calculateConfidence_at_most (d : CleanedMarketData.t) (isLong : bool) :
  (DecisionMaker.calculateConfidence d isLong <= 1)%Q.
Proof.
  unfold DecisionMaker.calculateConfidence. cbv zeta.
  repeat icase; lra.
Qed.

Lemma makeRuleBasedDecision_shape (condition : MarketCondition)
    (opportunity : TradingOpportunity) (d : CleanedMarketData.t) :
  isDirection (fst (DecisionMaker.makeRuleBasedDecision condition opportunity d))
  /\ (0 <= snd (DecisionMaker.makeRuleBasedDecision condition opportunity d)
      <= 1)%Q.
Proof.
  unfold DecisionMaker.makeRuleBasedDecision, isDirection.
  pose proof (calculateConfidence_at_least d true).
  pose proof (calculateConfidence_at_least d false).
  pose proof (calculateConfidence_at_most d true).
  pose proof (calculateConfidence_at_most d false).
  repeat match goal with
         | |- context [if ?b then _ else _] => destruct b
         end; cbn [fst snd]; (split; [tauto | lra]).
Qed.

Lemma callAIForDecision_shape (R : Runtime) (dm : DecisionMaker.t)
    (send : string -> string -> reply)
    (condition conditionReason opportunity oppReason : string)
    (d : CleanedMarketData.t) (direction : Direction) (confidence : Q)
    (chain : string) :
  DecisionMaker.callAIForDecision R dm send condition conditionReason
    opportunity oppReason d = Returns (direction, confidence, chain, None) ->
  isDirection direction /\ (0 <= confidence <= 1)%Q.
Proof.
  unfold DecisionMaker.callAIForDecision, isDirection.
  destruct (DecisionMaker.limitPrompt dm _) as [prompt|]; [|discriminate].
  destruct (send _ prompt) as [response|err]; [|discriminate].
  destruct (json_decision R response) as [[[rd rc] rr]|].
  - cbv zeta. intros H. injection H as <- <- _. split.
    + destruct (String.eqb rd DirectionLong) eqn:El;
        [apply String.eqb_eq in El; tauto|].
      destruct (String.eqb rd DirectionShort) eqn:Es;
        [apply String.eqb_eq in Es; tauto|].
      destruct (String.eqb rd DirectionWait) eqn:Ew;
        [apply String.eqb_eq in Ew; tauto|].
      cbn. tauto.
    + repeat icase; lra.
  - unfold DecisionMaker.parseDecisionFromText.
    intros H. injection H as <- <- _. split; [|lra].
    repeat match goal with
           | |- context [if ?b then _ else _] => destruct b
           end; tauto.
Qed.

(** X13. A decision that [MakeDecision] returns is well formed,
    whatever the language model answered: the data was not nil, the error
    is nil, the direction is long, short or wait, the confidence lies
    between 0 and 1, the market condition is one of the five and the
    opportunity one of the six, and the symbol is that of the data. *)
Theorem X13_decisions_are_well_formed (R : Runtime) (dm dm' : DecisionMaker.t)
    (env : DecisionMaker.Env) (data : option CleanedMarketData.t)
    (decision : AIDecision.t) (err : error) :
  DecisionMaker.MakeDecision R dm env data = (dm', Returns (decision, err)) ->
  err = None
  /\ isDirection (AIDecision.Direction decision)
  /\ (0 <= AIDecision.Confidence decision <= 1)%Q
  /\ MarketAnalyzer.isValidMarketCondition (AIDecision.MarketCondition decision)
     = true
  /\ OpportunityDetector.isValidOpportunity (AIDecision.Opportunity decision)
     = true
  /\ exists d,
       data = Some d
       /\ AIDecision.Symbol decision = CleanedMarketData.Symbol d.
Proof.
  unfold DecisionMaker.MakeDecision.
  destruct (DecisionMaker.checkRateLimit dm (DecisionMaker.rateCheckNow env))
    as [dm1 allowed].
  destruct data as [d|]; [|discriminate].
  destruct allowed; cbn [negb].
  2:{ intros H. injection H as _ <- <-. cbn. unfold isDirection.
      repeat split; try tauto; try lra. exists d. split; reflexivity. }
  pose proof (analyzed_condition_valid R (DecisionMaker.sendCondition env) d)
    as Hcondition.
  destruct (match MarketAnalyzer.AnalyzeMarketCondition R _ (Some d) with
            | (_, _, Some _) => _ | (c, r, None) => _ end)
    as [marketCondition conditionReason].
  pose proof (detected_opportunity_valid R (DecisionMaker.sendOpportunity env)
                marketCondition d) as Hopportunity.
  destruct (match OpportunityDetector.DetectOpportunity R _ marketCondition (Some d) with
            | (_, _, Some _) => _ | (o, r, None) => _ end)
    as [opportunity oppReason].
  cbn [fst] in Hcondition, Hopportunity.
  destruct (DecisionMaker.callAIForDecision R dm1 _ marketCondition
              conditionReason opportunity oppReason d)
    as [[[[direction confidence] chain] failure]|] eqn:Hcall; [|discriminate].
  assert (Hshape : exists direction' confidence' chain',
             (match failure with
              | Some _ =>
                  let '(d0, c0) :=
                    DecisionMaker.makeRuleBasedDecision marketCondition
                      opportunity d in
                  (d0, c0, "AI调用失败，使用规则引擎决策")
              | None => (direction, confidence, chain)
              end) = (direction', confidence', chain')
             /\ isDirection direction' /\ (0 <= confidence' <= 1)%Q).
  { destruct failure as [e|].
    - pose proof (makeRuleBasedDecision_shape marketCondition opportunity d)
        as Hrule.
      destruct (DecisionMaker.makeRuleBasedDecision marketCondition opportunity d)
        as [d0 c0].
      do 3 eexists. split; [reflexivity | exact Hrule].
    - do 3 eexists. split; [reflexivity|].
      exact (callAIForDecision_shape _ _ _ _ _ _ _ _ _ _ _ Hcall). }
  destruct Hshape as (direction' & confidence' & chain' & -> & Hdir & Hconf).
  cbv zeta.
  destruct (confidence' <? AILayerConfig.MinConfidence (DecisionMaker.config dm1))%Q;
    intros H; injection H as _ <- <-; cbn;
    (split; [reflexivity|]); (split; [unfold isDirection in *; tauto|]);
    (split; [exact Hconf|]); (split; [exact Hcondition|]);
    (split; [exact Hopportunity|]); exists d; split; reflexivity.
Qed.

Lemma X13_decisions_are_well_formed_witness :
  exists dm' decision,
    DecisionMaker.MakeDecision Fixtures.runtime
      (Orchestrator.decisionMaker Fixtures.orchestrator)
      (Orchestrator.decisionEnv
         (Fixtures.environment Fixtures.someTime (Response "hold on")))
      (Some (Fixtures.cleaned Fixtures.getTestMarketData))
    = (dm', Returns (decision, None))
    /\ isDirection (AIDecision.Direction decision)
    /\ (0 <= AIDecision.Confidence decision <= 1)%Q.
Proof.
  eexists _, _. split; [vm_compute; reflexivity|].
  refine (let H := X13_decisions_are_well_formed Fixtures.runtime
                     (Orchestrator.decisionMaker Fixtures.orchestrator) _
                     (Orchestrator.decisionEnv
                        (Fixtures.environment Fixtures.someTime
                           (Response "hold on")))
                     (Some (Fixtures.cleaned Fixtures.getTestMarketData))
                     _ None _ in
          conj (proj1 (proj2 H)) (proj1 (proj2 (proj2 H)))).
  vm_compute. reflexivity.
Defined.

(** X14. A call that arrives before the cooldown has elapsed since
    the last decision is answered with a wait of confidence 0 under the
    ranging condition, without any model being named, and the time of the
    last decision stays as it was. The cooldown is a duration of fewer
    than 2^63 nanoseconds. *)
Theorem X14_cooldown_refuses (R : Runtime) (dm : DecisionMaker.t)
    (env : DecisionMaker.Env) (d : CleanedMarketData.t) :
  let cooldown :=
    AILayerConfig.CooldownMinutes (DecisionMaker.config dm) * time_Minute in
  cooldown < 2 ^ 63 ->
  DecisionMaker.lastDecisionTime dm <= DecisionMaker.rateCheckNow env
  < DecisionMaker.lastDecisionTime dm + cooldown ->
  exists dm' decision,
    DecisionMaker.MakeDecision R dm env (Some d)
    = (dm', Returns (decision, None))
    /\ DecisionMaker.lastDecisionTime dm' = DecisionMaker.lastDecisionTime dm
    /\ AIDecision.Direction decision = DirectionWait
    /\ (AIDecision.Confidence decision == 0)%Q
    /\ AIDecision.MarketCondition decision = MarketRanging
    /\ AIDecision.Opportunity decision = OpportunityNone
    /\ AIDecision.ModelUsed decision = "".
Proof.
  intros cooldown Hsmall Hnow. subst cooldown.
  unfold DecisionMaker.MakeDecision, DecisionMaker.checkRateLimit.
  set (elapsed := time_Sub (DecisionMaker.rateCheckNow env)
                    (DecisionMaker.lastDecisionTime dm)).
  assert (Helapsed : elapsed = DecisionMaker.rateCheckNow env
                               - DecisionMaker.lastDecisionTime dm).
  { subst elapsed. unfold time_Sub. lia. }
  assert (Hwrap :
            int_wrap (AILayerConfig.CooldownMinutes (DecisionMaker.config dm)
                      * time_Minute)
            = AILayerConfig.CooldownMinutes (DecisionMaker.config dm)
              * time_Minute).
  { unfold int_wrap. rewrite Z.mod_small; lia. }
  assert (Hrefused :
            forall dm1 : DecisionMaker.t,
              DecisionMaker.config dm1 = DecisionMaker.config dm ->
              DecisionMaker.lastDecisionTime dm1
              = DecisionMaker.lastDecisionTime dm ->
              exists dm',
                (if DecisionMaker.decisionsThisHour dm1
                    >=? AILayerConfig.MaxDecisionsPerHour
                          (DecisionMaker.config dm1)
                 then (dm1, false)
                 else if time_Sub (DecisionMaker.rateCheckNow env)
                           (DecisionMaker.lastDecisionTime dm1)
                         <? int_wrap
                              (AILayerConfig.CooldownMinutes
                                 (DecisionMaker.config dm1) * time_Minute)
                 then (dm1, false)
                 else (dm1, true)) = (dm', false)
                /\ DecisionMaker.lastDecisionTime dm'
                   = DecisionMaker.lastDecisionTime dm).
  { intros dm1 Hcfg Hlast. rewrite Hcfg, Hlast, Hwrap. fold elapsed.
    destruct (_ >=? _); [exists dm1; split; [reflexivity | exact Hlast]|].
    destruct (Z.ltb_spec elapsed
                (AILayerConfig.CooldownMinutes (DecisionMaker.config dm)
                 * time_Minute)); [|lia].
    exists dm1. split; [reflexivity | exact Hlast]. }
  cbv zeta.
  destruct (elapsed >? time_Hour).
  - destruct (Hrefused
                {| DecisionMaker.config := DecisionMaker.config dm;
                   DecisionMaker.lastDecisionTime :=
                     DecisionMaker.lastDecisionTime dm;
                   DecisionMaker.decisionsThisHour := 0 |} eq_refl eq_refl)
      as (dm' & -> & Hlast).
    cbn [negb]. eexists _, _. split; [reflexivity|].
    cbn. repeat split; try reflexivity; exact Hlast.
  - destruct (Hrefused dm eq_refl eq_refl) as (dm' & -> & Hlast).
    cbn [negb]. eexists _, _. split; [reflexivity|].
    cbn. repeat split; try reflexivity; exact Hlast.
Qed.

Lemma X14_cooldown_refuses_witness :
  let dm :=
    {| DecisionMaker.config :=
         {| AILayerConfig.Provider := "deepseek";
            AILayerConfig.Model := "deepseek-chat";
            AILayerConfig.APIKey := "test_key";
            AILayerConfig.BaseURL := "";
            AILayerConfig.MinConfidence := 0.75;
            AILayerConfig.EnableChainOfThought := false;
            AILayerConfig.MaxPromptLength := 650;
            AILayerConfig.MaxDecisionsPerHour := 100;
            AILayerConfig.CooldownMinutes := 5 |};
       DecisionMaker.lastDecisionTime := Fixtures.someTime;
       DecisionMaker.decisionsThisHour := 1 |} in
  let env :=
    Orchestrator.decisionEnv
      (Fixtures.environment (Fixtures.someTime + time_Minute)
         (Response "long")) in
  exists dm' decision,
    DecisionMaker.MakeDecision Fixtures.runtime dm env
      (Some (Fixtures.cleaned Fixtures.getTestMarketData))
    = (dm', Returns (decision, None))
    /\ AIDecision.Direction decision = DirectionWait.
Proof.
  intros dm env.
  destruct (X14_cooldown_refuses Fixtures.runtime dm env
              (Fixtures.cleaned Fixtures.getTestMarketData))
    as (dm' & decision & Hcall & _ & Hwait & _).
  - reflexivity.
  - split; [discriminate | reflexivity].
  - exists dm', decision. split; [exact Hcall | exact Hwait].
Defined.

Lemma MakeDecision_rate_state (R : Runtime) (dm : DecisionMaker.t)
    (env : DecisionMaker.Env) (data : option CleanedMarketData.t) :
  let dm' := fst (DecisionMaker.MakeDecision R dm env data) in
  DecisionMaker.config dm' = DecisionMaker.config dm
  /\ (DecisionMaker.decisionsThisHour dm' = DecisionMaker.decisionsThisHour dm
      \/ DecisionMaker.decisionsThisHour dm' = 0
      \/ (DecisionMaker.decisionsThisHour dm'
          = int_succ (DecisionMaker.decisionsThisHour dm)
          /\ DecisionMaker.decisionsThisHour dm
             < AILayerConfig.MaxDecisionsPerHour (DecisionMaker.config dm))
      \/ (DecisionMaker.decisionsThisHour dm' = int_succ 0
          /\ 0 < AILayerConfig.MaxDecisionsPerHour (DecisionMaker.config dm))).
Proof.
  unfold DecisionMaker.MakeDecision.
  destruct (DecisionMaker.checkRateLimit dm (DecisionMaker.rateCheckNow env))
    as [dm1 allowed] eqn:Hcheck.
  assert (Hdm1 :
            DecisionMaker.config dm1 = DecisionMaker.config dm
            /\ (DecisionMaker.decisionsThisHour dm1
                = DecisionMaker.decisionsThisHour dm
                \/ DecisionMaker.decisionsThisHour dm1 = 0)
            /\ (allowed = true ->
                DecisionMaker.decisionsThisHour dm1
                < AILayerConfig.MaxDecisionsPerHour (DecisionMaker.config dm))).
  { unfold DecisionMaker.checkRateLimit in Hcheck.
    destruct (_ >? time_Hour) in Hcheck;
      cbn [DecisionMaker.config DecisionMaker.decisionsThisHour
           DecisionMaker.lastDecisionTime] in Hcheck;
      repeat match type of Hcheck with
             | context [if ?b then _ else _] =>
                 let E := fresh "E" in destruct b eqn:E; bprop E
             end;
      injection Hcheck as <- <-; cbn;
      (split; [reflexivity|]); (split; [tauto|]);
      intros; try discriminate; lia. }
  destruct Hdm1 as (Hcfg & Hcount & Hroom).
  assert (Hgranted :
            forall now : Z,
              allowed = true ->
              DecisionMaker.config (DecisionMaker.updateRateLimit dm1 now)
              = DecisionMaker.config dm
              /\ ((DecisionMaker.decisionsThisHour
                     (DecisionMaker.updateRateLimit dm1 now)
                   = int_succ (DecisionMaker.decisionsThisHour dm)
                   /\ DecisionMaker.decisionsThisHour dm
                      < AILayerConfig.MaxDecisionsPerHour
                          (DecisionMaker.config dm))
                  \/ (DecisionMaker.decisionsThisHour
                        (DecisionMaker.updateRateLimit dm1 now) = int_succ 0
                      /\ 0 < AILayerConfig.MaxDecisionsPerHour
                               (DecisionMaker.config dm)))).
  { intros now Hallowed. specialize (Hroom Hallowed). cbn.
    split; [exact Hcfg|].
    destruct Hcount as [Hc|Hc]; rewrite Hc in *; [left | right];
      (split; [reflexivity | exact Hroom]). }
  destruct data as [d|]; [|cbn; tauto].
  destruct allowed; cbn [negb]; [|cbn; tauto].
  specialize (Hgranted (DecisionMaker.updateNow env) eq_refl).
  repeat (match goal with
          | |- context [let '(_, _) := ?x in _] => destruct x
          | |- context [match ?x with Returns _ => _ | Panics => _ end] =>
              destruct x as [[[[? ?] ?] ?]|]
          end);
    cbv zeta;
    repeat (match goal with
            | |- context [let '(_, _) := ?x in _] => destruct x
            end);
    cbn [fst]; tauto.
Qed.

(** X15. The count of decisions of the current hour never exceeds the
    configured maximum per hour: starting between 0 and the maximum, it
    is still there after any sequence of calls of [MakeDecision], whatever
    the clock and the language model do, and the configuration is
    unchanged. The maximum is a 64-bit integer. *)
Theorem X15_decisions_per_hour_bounded (R : Runtime) (dm : DecisionMaker.t)
    (calls : list (DecisionMaker.Env * option CleanedMarketData.t)) :
  let limit :=
    Z.max 0 (AILayerConfig.MaxDecisionsPerHour (DecisionMaker.config dm)) in
  limit < 2 ^ 63 ->
  0 <= DecisionMaker.decisionsThisHour dm <= limit ->
  0 <= DecisionMaker.decisionsThisHour (decisions R dm calls) <= limit
  /\ DecisionMaker.config (decisions R dm calls) = DecisionMaker.config dm.
Proof.
  intros limit. remember limit as bound eqn:Hbound. subst limit.
  revert dm Hbound.
  induction calls as [|[env data] calls IH]; intros dm Hbound Hint Hdm.
  - split; [exact Hdm | reflexivity].
  - unfold decisions. cbn [fold_left].
    fold (decisions R (decide_ R dm (env, data)) calls).
    destruct (MakeDecision_rate_state R dm env data) as (Hcfg & Hcount).
    cbv zeta in Hcfg, Hcount.
    change (fst (DecisionMaker.MakeDecision R dm env data))
      with (decide_ R dm (env, data)) in Hcfg, Hcount.
    set (dm1 := decide_ R dm (env, data)) in *.
    destruct (IH dm1) as (Hrest & Hconfig).
    + rewrite Hcfg. exact Hbound.
    + exact Hint.
    + destruct Hcount as [-> | [-> | [(-> & Hroom) | (-> & Hroom)]]];
        rewrite ?int_succ_small by lia; lia.
    + split; [exact Hrest | congruence].
Qed.

Lemma X15_decisions_per_hour_bounded_witness :
  let dm := Orchestrator.decisionMaker Fixtures.orchestrator in
  let call :=
    (Orchestrator.decisionEnv
       (Fixtures.environment Fixtures.someTime Fixtures.unreachable),
     Some (Fixtures.cleaned Fixtures.getTestMarketData)) in
  0 <= DecisionMaker.decisionsThisHour
         (decisions Fixtures.runtime dm [call; call; call]) <= 100.
Proof.
  intros dm call.
  refine (proj1 (X15_decisions_per_hour_bounded Fixtures.runtime dm
                   [call; call; call] _ _)).
  - reflexivity.
  - cbn. lia.
Defined.

Lemma userPrompt_length (condition conditionReason opportunity oppReason
                         summary : string) :
  (15 <= String.length
           (DecisionMaker.userPrompt condition conditionReason opportunity
              oppReason summary))%nat.
Proof.
  unfold DecisionMaker.userPrompt. rewrite length_append.
  change (String.length "市场分析：") with 15%nat. lia.
Qed.

(** X16. With a maximum prompt length of at least 3, the prompt that
    is sent is never longer than the maximum: a prompt within the
    maximum is sent unchanged and a longer one is cut to exactly the
    maximum. With a maximum below 3 a prompt longer than the maximum makes
    the slice panic, and as the prompt of the final decision is never
    shorter than 15 bytes, [callAIForDecision] then always panics. Lengths
    and the maximum are 64-bit integers. *)
Theorem X16_prompt_limit (R : Runtime) (dm : DecisionMaker.t) :
  let maxLen := AILayerConfig.MaxPromptLength (DecisionMaker.config dm) in
  - 2 ^ 63 <= maxLen < 2 ^ 63 ->
  (3 <= maxLen ->
   forall prompt : string,
   exists sent,
     DecisionMaker.limitPrompt dm prompt = Returns sent
     /\ Z.of_nat (String.length sent) <= maxLen
     /\ (Z.of_nat (String.length prompt) <= maxLen -> sent = prompt)
     /\ (maxLen < Z.of_nat (String.length prompt) ->
         Z.of_nat (String.length sent) = maxLen))
  /\ (maxLen < 3 ->
      (forall prompt : string,
          maxLen < Z.of_nat (String.length prompt) < 2 ^ 63 - 3 ->
          DecisionMaker.limitPrompt dm prompt = Panics)
      /\ forall (send : string -> string -> reply)
                (condition conditionReason opportunity oppReason : string)
                (d : CleanedMarketData.t),
           Z.of_nat
             (String.length
                (DecisionMaker.userPrompt condition conditionReason
                   opportunity oppReason
                   (CleanedMarketData.CompressedSummary d))) < 2 ^ 63 - 3 ->
           DecisionMaker.callAIForDecision R dm send condition conditionReason
             opportunity oppReason d = Panics).
Proof.
  intros maxLen Hint.
  assert (Hpanic : maxLen < 3 ->
                   forall prompt : string,
                     maxLen < Z.of_nat (String.length prompt) < 2 ^ 63 - 3 ->
                     DecisionMaker.limitPrompt dm prompt = Panics).
  { intros Hsmall prompt Hlen. unfold DecisionMaker.limitPrompt. fold maxLen.
    cbv zeta.
    destruct (Z.gtb_spec (Z.of_nat (String.length prompt)) maxLen); [|lia].
    assert (Hhigh : int_wrap (maxLen - 3) < 0
                    \/ Z.of_nat (String.length prompt) < int_wrap (maxLen - 3)).
    { unfold int_wrap.
      destruct (Z.le_gt_cases (- 2 ^ 63 + 3) maxLen) as [Hin|Hout].
      - left. rewrite Z.mod_small by lia. lia.
      - right.
        replace (maxLen - 3 + 2 ^ 63)
          with (maxLen - 3 + 2 ^ 63 + 2 ^ 64 + (-1) * 2 ^ 64) by lia.
        rewrite Z.mod_add by lia. rewrite Z.mod_small by lia. lia. }
    destruct Hhigh as [Hneg|Hbig].
    - destruct (Z.ltb_spec (int_wrap (maxLen - 3)) 0); [reflexivity | lia].
    - destruct (int_wrap (maxLen - 3) <? 0); [reflexivity|]. cbn [orb].
      destruct (Z.gtb_spec (int_wrap (maxLen - 3))
                  (Z.of_nat (String.length prompt))); [reflexivity | lia]. }
  split.
  - intros Hmax prompt. unfold DecisionMaker.limitPrompt. fold maxLen.
    cbv zeta.
    destruct (Z.gtb_spec (Z.of_nat (String.length prompt)) maxLen)
      as [Hlong|Hshort].
    + assert (Hwrap : int_wrap (maxLen - 3) = maxLen - 3)
        by (unfold int_wrap; rewrite Z.mod_small; lia).
      rewrite Hwrap.
      destruct (Z.ltb_spec (maxLen - 3) 0); [lia|]. cbn [orb].
      destruct (Z.gtb_spec (maxLen - 3) (Z.of_nat (String.length prompt)));
        [lia|].
      eexists. split; [reflexivity|].
      rewrite length_append, length_substring_prefix by lia.
      cbn [String.length]. repeat split; lia.
    + exists prompt. repeat split; try reflexivity; lia.
  - intros Hsmall. split; [exact (Hpanic Hsmall)|].
    intros send condition conditionReason opportunity oppReason d Hlen.
    unfold DecisionMaker.callAIForDecision.
    rewrite (Hpanic Hsmall); [reflexivity|].
    pose proof (userPrompt_length condition conditionReason opportunity
                  oppReason (CleanedMarketData.CompressedSummary d)).
    lia.
Qed.

Lemma X16_prompt_limit_witness :
  exists sent,
    DecisionMaker.limitPrompt
      (Orchestrator.decisionMaker Fixtures.orchestrator)
      Fixtures.longSymbol = Returns sent
    /\ Z.of_nat (String.length sent) <= 650.
Proof.
  destruct (X16_prompt_limit Fixtures.runtime
              (Orchestrator.decisionMaker Fixtures.orchestrator))
    as [Hcut _]; [cbn; lia|].
  destruct (Hcut ltac:(cbn; lia) Fixtures.longSymbol)
    as (sent & Hsent & Hlen & _).
  exists sent. split; [exact Hsent | exact Hlen].
Defined.

(** ** The parameter calculator *)

Lemma fraction_of (base m : Q) :
  (0 <= base -> 0 <= m <= 1 -> 0 <= base * m <= base)%Q.
Proof. intros Hb Hm. nra. Qed.

Lemma positionUSD_within (pc : ParameterCalculator.t) (decision : AIDecision.t)
    (metrics : RiskMetrics.t) (d : CleanedMarketData.t) :
  (0 <= RiskMetrics.MaxPositionSizeUSD metrics)%Q ->
  (0 <= snd (ParameterCalculator.calculatePositionSize pc decision metrics d)
   <= RiskMetrics.MaxPositionSizeUSD metrics)%Q.
Proof.
  intros Hbase. unfold ParameterCalculator.calculatePositionSize. cbv zeta.
  cbn [snd].
  set (base := RiskMetrics.MaxPositionSizeUSD metrics) in *.
  set (c := AIDecision.Confidence decision).
  assert (Hconf :
            (0 <= base * (if (c >=? 0.7)%Q && (c <=? 1.0)%Q
                          then (c - 0.7) / 0.3 * 0.5 + 0.5
                          else if (c <? 0.7)%Q then 0.5 else 1.0)
             <= base)%Q).
  { apply fraction_of; [exact Hbase|].
    destruct ((c >=? 0.7)%Q && (c <=? 1.0)%Q) eqn:E; bprop E.
    - assert (Eq : ((c - 0.7) / 0.3 * 0.5 + 0.5
                    == (c - 0.7) * (5 # 3) + 0.5)%Q) by field.
      rewrite Eq. lra.
    - icase; lra. }
  destruct (ExecutionLayerConfig.EnablePositionSizing
              (ParameterCalculator.config pc)); [|exact Hconf].
  destruct (String.eqb _ "fixed"); [lra|].
  destruct (String.eqb _ "kelly").
  { set (k := ((2.0 * c - (1 - c)) / 2.0)%Q).
    set (k1 := if (k <? 0)%Q then 0%Q else k).
    set (k2 := if (k1 >? 0.25)%Q then 0.25%Q else k1).
    assert (Hk : (0 <= k2 <= 0.25)%Q).
    { subst k2 k1. repeat icase; lra. }
    assert (E : (base * k2 / 0.25 == base * (4 * k2))%Q) by field.
    rewrite E. apply fraction_of; [exact Hbase | lra]. }
  destruct (String.eqb _ "volatility"); [|exact Hconf].
  destruct ((CleanedMarketData.ATR d >? 0)%Q
            && (CleanedMarketData.CurrentPrice d >? 0)%Q) eqn:E;
    [|exact Hconf].
  bprop E. destruct E as [Hatr Hprice].
  apply fraction_of; [exact Hbase|].
  set (v := (CleanedMarketData.ATR d / CleanedMarketData.CurrentPrice d)%Q).
  assert (Hv : (0 < v)%Q).
  { subst v. unfold Qdiv. apply Qmult_lt_0_compat; [exact Hatr|].
    apply Qinv_lt_0_compat. exact Hprice. }
  assert (Hinv : (0 < / (1.0 + v * 10))%Q) by (apply Qinv_lt_0_compat; lra).
  assert (Hone : ((1.0 + v * 10) * / (1.0 + v * 10) == 1)%Q)
    by (field; lra).
  unfold Qdiv. split; [lra|]. nra.
Qed.

(** X17. The position is sized within the recommended maximum: for a
    maximum that is not negative the amount in USD is not negative, and it
    is at most the maximum when the maximum is zero or of ordinary
    magnitude, under every sizing method and every confidence. The
    quantity is 0 when the price is not positive, so no division by zero
    takes place. Otherwise it is the amount divided by the price: it is
    not negative, it is at most the amount for a price of 1 or more and at
    least the amount for a price of 1 or less, and for a price and an
    amount of ordinary magnitude the quantity times the price is the
    amount up to the tolerance. *)
Theorem X17_position_within_maximum (pc : ParameterCalculator.t)
    (decision : AIDecision.t) (metrics : RiskMetrics.t)
    (d : CleanedMarketData.t) :
  let quantity :=
    fst (ParameterCalculator.calculatePositionSize pc decision metrics d) in
  let quantityUSD :=
    snd (ParameterCalculator.calculatePositionSize pc decision metrics d) in
  let price := CleanedMarketData.CurrentPrice d in
  let maximum := RiskMetrics.MaxPositionSizeUSD metrics in
  (0 <= maximum)%Q ->
  (0 <= quantityUSD)%Q
  /\ (ordinaryOrZero maximum -> (quantityUSD <= maximum)%Q)
  /\ ((price <= 0)%Q -> quantity = 0%Q)
  /\ ((0 < price)%Q -> (0 <= quantity)%Q)
  /\ ((1 <= price)%Q -> (quantity <= quantityUSD)%Q)
  /\ ((0 < price <= 1)%Q -> (quantityUSD <= quantity)%Q)
  /\ (ordinary price -> ordinary quantityUSD ->
      within (quantity * price) quantityUSD quantityUSD).
Proof.
  intros quantity quantityUSD price maximum Hbase.
  destruct (positionUSD_within pc decision metrics d Hbase) as [Hlow Hhigh].
  fold quantityUSD in Hlow, Hhigh.
  split; [exact Hlow|]. split; [intros _; exact Hhigh|].
  assert (Hq : quantity
               = if (price >? 0)%Q then (quantityUSD / price)%Q else 0%Q).
  { subst quantity quantityUSD.
    unfold ParameterCalculator.calculatePositionSize. cbv zeta. reflexivity. }
  rewrite Hq. clearbody quantityUSD. clear Hq quantity.
  assert (Hdiv : (0 < price)%Q ->
                 (price >? 0)%Q = true
                 /\ (quantityUSD / price * price == quantityUSD)%Q).
  { intros Hp. split; [now apply Qgtb_true|]. field. lra. }
  split.
  { intros Hp. apply Qgtb_false in Hp. rewrite Hp. reflexivity. }
  split.
  { intros Hp. destruct (Hdiv Hp) as [-> E]. nra. }
  split.
  { intros Hp. destruct Hdiv as [-> E]; [lra|]. nra. }
  split.
  { intros [Hp Hp1]. destruct (Hdiv Hp) as [-> E]. nra. }
  intros Hp Hu. apply ordinary_pos in Hp, Hu.
  destruct (Hdiv Hp) as [-> E]. unfold within, tolerance. rewrite E. lra.
Qed.

Lemma X17_position_within_maximum_witness :
  let pc := Orchestrator.paramCalculator Fixtures.orchestrator in
  let d := Fixtures.cleaned Fixtures.getTestMarketData in
  let decision := Samples.decision DirectionLong 0.85 MarketTrending
                    OpportunityLongEntry in
  let m := Samples.metrics 3 44500 46000 in
  (0 <= snd (ParameterCalculator.calculatePositionSize pc decision m d)
   <= 200)%Q.
Proof.
  intros pc d decision m.
  destruct (X17_position_within_maximum pc decision m d) as (Hlow & Hhigh & _).
  - vm_compute. discriminate.
  - split; [exact Hlow|]. apply Hhigh. right. cbv. split; discriminate.
Defined.

(** X18. The leverage of a plan is never above the recommended one
    and never below 1, for a recommended leverage from 1 to 2^53; it is
    lower than the recommended one by at most 2, one step for a confidence
    under 0.8 and one for a volatile market, and it is the recommended one
    when neither applies. *)
Theorem X18_leverage_only_lowered (pc : ParameterCalculator.t)
    (decision : AIDecision.t) (metrics : RiskMetrics.t)
    (d : CleanedMarketData.t) :
  let recommended := RiskMetrics.RecommendedLeverage metrics in
  let leverage := ParameterCalculator.calculateLeverage pc decision metrics d in
  1 <= recommended <= 2 ^ 53 ->
  1 <= leverage <= recommended
  /\ recommended - 2 <= leverage
  /\ ((0.8 <= AIDecision.Confidence decision)%Q ->
      AIDecision.MarketCondition decision <> MarketVolatile ->
      leverage = recommended).
Proof.
  intros recommended leverage Hrec. subst leverage.
  unfold ParameterCalculator.calculateLeverage. cbv zeta.
  fold recommended.
  destruct (AIDecision.Confidence decision <? 0.8)%Q eqn:Ec; bprop Ec;
    (destruct (String.eqb (AIDecision.MarketCondition decision) MarketVolatile)
       eqn:Ev; [apply String.eqb_eq in Ev | apply String.eqb_neq in Ev]);
    rewrite ?(int_max1_sub_exact recommended) by lia;
    rewrite ?int_max1_sub_exact by lia;
    (split; [lia|]); (split; [lia|]); intros Hc Hv;
    try reflexivity; try congruence; exfalso; lra.
Qed.

Lemma X18_leverage_only_lowered_witness :
  1 <= ParameterCalculator.calculateLeverage
         (Orchestrator.paramCalculator Fixtures.orchestrator)
         (Samples.decision DirectionLong 0.75 MarketVolatile
            OpportunityLongEntry)
         (Samples.metrics 3 44500 46000)
         (Fixtures.cleaned Fixtures.getTestMarketData) <= 3.
Proof.
  refine (proj1 (X18_leverage_only_lowered _ _ _ _ _)).
  cbn. lia.
Defined.

Lemma calculated_parameters (pc : ParameterCalculator.t)
    (decision : AIDecision.t) (metrics : RiskMetrics.t)
    (d : CleanedMarketData.t) :
  ParameterCalculator.CalculateParameters pc (Some decision) (Some metrics)
    (Some d)
  = (Some
       (<["priority" :=
            VString (ParameterCalculator.determinePriority pc decision)]>
          (<["timeout_seconds" :=
               VInt (ExecutionLayerConfig.OrderTimeoutSeconds
                       (ParameterCalculator.config pc))]>
             (<["max_slippage_percent" :=
                  VFloat (ExecutionLayerConfig.MaxSlippagePercent
                            (ParameterCalculator.config pc))]>
                (<["take_profit" :=
                     VFloat (ParameterCalculator.calculateTakeProfit pc
                               decision metrics d)]>
                   (<["stop_loss" :=
                        VFloat (ParameterCalculator.calculateStopLoss pc
                                  decision metrics d)]>
                      (<["leverage" :=
                           VInt (ParameterCalculator.calculateLeverage pc
                                   decision metrics d)]>
                         (<["quantity_usd" :=
                              VFloat (snd (ParameterCalculator.calculatePositionSize
                                             pc decision metrics d))]>
                            (<["quantity" :=
                                 VFloat (fst (ParameterCalculator.calculatePositionSize
                                                pc decision metrics d))]>
                               (<["action" :=
                                    VString (ParameterCalculator.determineAction
                                               decision)]> ∅))))))))),
     None).
Proof.
  unfold ParameterCalculator.CalculateParameters.
  destruct (ParameterCalculator.calculatePositionSize pc decision metrics d).
  reflexivity.
Qed.

(** The nine entries read back into a plan. *)
Lemma prepared_plan (os : OrderSender.t) (now : Z) (decision : AIDecision.t)
    (metrics : RiskMetrics.t) (passed : bool) (reason : string)
    (action priority : string) (quantity quantityUSD stopLoss takeProfit
                                 slippage : Q) (leverage timeout : Z) :
  OrderSender.PrepareExecutionPlan os now decision metrics
    (<["priority" := VString priority]>
       (<["timeout_seconds" := VInt timeout]>
          (<["max_slippage_percent" := VFloat slippage]>
             (<["take_profit" := VFloat takeProfit]>
                (<["stop_loss" := VFloat stopLoss]>
                   (<["leverage" := VInt leverage]>
                      (<["quantity_usd" := VFloat quantityUSD]>
                         (<["quantity" := VFloat quantity]>
                            (<["action" := VString action]> ∅)))))))))
    passed reason
  = Returns
      {| ExecutionPlan.Symbol := AIDecision.Symbol decision;
         ExecutionPlan.Timestamp := now;
         ExecutionPlan.Action := action;
         ExecutionPlan.Quantity := quantity;
         ExecutionPlan.QuantityUSD := quantityUSD;
         ExecutionPlan.Leverage := leverage;
         ExecutionPlan.StopLoss := stopLoss;
         ExecutionPlan.TakeProfit := takeProfit;
         ExecutionPlan.MaxSlippagePercent := slippage;
         ExecutionPlan.TimeoutSeconds := timeout;
         ExecutionPlan.RiskCheckPassed := passed;
         ExecutionPlan.RiskCheckReason := reason;
         ExecutionPlan.Priority := priority;
         ExecutionPlan.SourceDecision := Some decision |}.
Proof. reflexivity. Qed.

(** X19. The parameters that [CalculateParameters] computes always
    make a plan: [PrepareExecutionPlan] finds every key with the type it
    asserts and does not panic. The plan carries the action of the
    decision, which is open_long, open_short or wait and never a close,
    the computed sizes, the symbol and the decision itself.
    [CalculateParameters] fails exactly when one of its inputs is nil. *)
Theorem X19_parameters_make_a_plan (pc : ParameterCalculator.t)
    (os : OrderSender.t) (now : Z) (passed : bool) (reason : string) :
  (forall decision metrics d,
      exists params plan,
        ParameterCalculator.CalculateParameters pc (Some decision)
          (Some metrics) (Some d) = (Some params, None)
        /\ OrderSender.PrepareExecutionPlan os now decision metrics params
             passed reason = Returns plan
        /\ ExecutionPlan.Action plan = ParameterCalculator.determineAction decision
        /\ (ExecutionPlan.Action plan = "open_long"
            \/ ExecutionPlan.Action plan = "open_short"
            \/ ExecutionPlan.Action plan = "wait")
        /\ (ExecutionPlan.Quantity plan, ExecutionPlan.QuantityUSD plan)
           = ParameterCalculator.calculatePositionSize pc decision metrics d
        /\ ExecutionPlan.Leverage plan
           = ParameterCalculator.calculateLeverage pc decision metrics d
        /\ ExecutionPlan.Symbol plan = AIDecision.Symbol decision
        /\ ExecutionPlan.SourceDecision plan = Some decision
        /\ ExecutionPlan.RiskCheckPassed plan = passed)
  /\ forall decision metrics data,
       snd (ParameterCalculator.CalculateParameters pc decision metrics data)
       = None
       <-> decision <> None /\ metrics <> None /\ data <> None.
Proof.
  split.
  - intros decision metrics d. eexists _, _.
    split; [apply calculated_parameters|].
    split; [apply prepared_plan|].
    cbn [ExecutionPlan.Action ExecutionPlan.Quantity ExecutionPlan.QuantityUSD
         ExecutionPlan.Leverage ExecutionPlan.Symbol
         ExecutionPlan.SourceDecision ExecutionPlan.RiskCheckPassed].
    repeat split.
    unfold ParameterCalculator.determineAction.
    repeat match goal with
           | |- context [if ?b then _ else _] => destruct b
           end; tauto.
  - intros [decision|] [metrics|] [d|];
      try (rewrite calculated_parameters; cbn [snd];
           split; [intros _; repeat split; discriminate | reflexivity]);
      cbn [ParameterCalculator.CalculateParameters snd];
      (split; [discriminate | intros (? & ? & ?); congruence]).
Qed.

Lemma adjusted_map (pc : ParameterCalculator.t)
    (heap : gmap nat (gmap string Value)) (params : nat) (riskLevel : string)
    (m : gmap string Value) :
  heap !! params = Some m ->
  let '(heap', address) :=
    ParameterCalculator.AdjustParametersForRisk pc heap params riskLevel in
  heap' !! address
  = Some (if String.eqb riskLevel "extreme"
          then <["action" := VString "wait"]> m
          else if String.eqb riskLevel "high"
          then ParameterCalculator.lowerLeverage "leverage"
                 (ParameterCalculator.scaleFloat "quantity_usd" 0.5
                    (ParameterCalculator.scaleFloat "quantity" 0.5 m))
          else if String.eqb riskLevel "medium"
          then ParameterCalculator.scaleFloat "quantity_usd" 0.8
                 (ParameterCalculator.scaleFloat "quantity" 0.8 m)
          else m).
Proof.
  intros Hm. unfold ParameterCalculator.AdjustParametersForRisk. cbv zeta.
  rewrite lookup_insert_eq, Hm, copyEntries_id. cbn [default].
  repeat match goal with
         | |- context [if ?b then _ else _] => destruct b
         end; reflexivity.
Qed.

(** The plan of a nine-entry map after the adjustment for a risk
    level. *)
Lemma adjusted_plan (os : OrderSender.t) (now : Z) (decision : AIDecision.t)
    (metrics : RiskMetrics.t) (passed : bool) (reason riskLevel : string)
    (action priority : string) (quantity quantityUSD stopLoss takeProfit
                                 slippage : Q) (leverage timeout : Z) :
  let m : gmap string Value :=
    <["priority" := VString priority]>
      (<["timeout_seconds" := VInt timeout]>
         (<["max_slippage_percent" := VFloat slippage]>
            (<["take_profit" := VFloat takeProfit]>
               (<["stop_loss" := VFloat stopLoss]>
                  (<["leverage" := VInt leverage]>
                     (<["quantity_usd" := VFloat quantityUSD]>
                        (<["quantity" := VFloat quantity]>
                           (<["action" := VString action]> ∅)))))))) in
  let scaledPlan (factor : Q) (lowered : Z) (act : string) :=
    {| ExecutionPlan.Symbol := AIDecision.Symbol decision;
       ExecutionPlan.Timestamp := now;
       ExecutionPlan.Action := act;
       ExecutionPlan.Quantity := (quantity * factor)%Q;
       ExecutionPlan.QuantityUSD := (quantityUSD * factor)%Q;
       ExecutionPlan.Leverage := lowered;
       ExecutionPlan.StopLoss := stopLoss;
       ExecutionPlan.TakeProfit := takeProfit;
       ExecutionPlan.MaxSlippagePercent := slippage;
       ExecutionPlan.TimeoutSeconds := timeout;
       ExecutionPlan.RiskCheckPassed := passed;
       ExecutionPlan.RiskCheckReason := reason;
       ExecutionPlan.Priority := priority;
       ExecutionPlan.SourceDecision := Some decision |} in
  OrderSender.PrepareExecutionPlan os now decision metrics
    (if String.eqb riskLevel "extreme"
     then <["action" := VString "wait"]> m
     else if String.eqb riskLevel "high"
     then ParameterCalculator.lowerLeverage "leverage"
            (ParameterCalculator.scaleFloat "quantity_usd" 0.5
               (ParameterCalculator.scaleFloat "quantity" 0.5 m))
     else if String.eqb riskLevel "medium"
     then ParameterCalculator.scaleFloat "quantity_usd" 0.8
            (ParameterCalculator.scaleFloat "quantity" 0.8 m)
     else m) passed reason
  = if String.eqb riskLevel "extreme"
    then OrderSender.PrepareExecutionPlan os now decision metrics
           (<["action" := VString "wait"]> m) passed reason
    else if String.eqb riskLevel "high"
    then Returns (scaledPlan 0.5%Q (int_max1_sub leverage 1) action)
    else if String.eqb riskLevel "medium"
    then Returns (scaledPlan 0.8%Q leverage action)
    else OrderSender.PrepareExecutionPlan os now decision metrics m
           passed reason.
Proof.
  cbv zeta.
  destruct (String.eqb riskLevel "extreme"); [reflexivity|].
  destruct (String.eqb riskLevel "high"); [reflexivity|].
  destruct (String.eqb riskLevel "medium"); reflexivity.
Qed.

(** X20. The parameters that [CalculateParameters] computes still
    make a plan after [AdjustParametersForRisk], at every risk level: the
    adjustment keeps every key and the type of every value, so
    [PrepareExecutionPlan] does not panic. At the extreme level the
    plan waits; at the high level its quantity and its amount are halved
    and its leverage goes through [int(math.Max(1, float64(l)-1))], which
    for a leverage up to 2^53 is one lower, though not below 1; at the
    medium level quantity and amount are scaled by 0.8; at any other level
    the plan is the unadjusted one. The products are float64 products,
    stated by [scaledBy]. *)
Theorem X20_adjusted_parameters_make_a_plan (pc : ParameterCalculator.t)
    (os : OrderSender.t) (now : Z) (passed : bool) (reason : string)
    (decision : AIDecision.t) (metrics : RiskMetrics.t)
    (d : CleanedMarketData.t) (heap : gmap nat (gmap string Value))
    (params : nat) (riskLevel : string) (m : gmap string Value)
    (plan0 : ExecutionPlan.t) :
  ParameterCalculator.CalculateParameters pc (Some decision) (Some metrics)
    (Some d) = (Some m, None) ->
  heap !! params = Some m ->
  OrderSender.PrepareExecutionPlan os now decision metrics m passed reason
  = Returns plan0 ->
  let '(heap', address) :=
    ParameterCalculator.AdjustParametersForRisk pc heap params riskLevel in
  exists adjusted plan,
    heap' !! address = Some adjusted
    /\ OrderSender.PrepareExecutionPlan os now decision metrics adjusted
         passed reason = Returns plan
    /\ (riskLevel = "extreme" ->
        ExecutionPlan.Action plan = "wait"
        /\ ExecutionPlan.Quantity plan = ExecutionPlan.Quantity plan0
        /\ ExecutionPlan.QuantityUSD plan = ExecutionPlan.QuantityUSD plan0
        /\ ExecutionPlan.Leverage plan = ExecutionPlan.Leverage plan0)
    /\ (riskLevel = "high" ->
        scaledBy 0.5 (ExecutionPlan.Quantity plan0) (ExecutionPlan.Quantity plan)
        /\ scaledBy 0.5 (ExecutionPlan.QuantityUSD plan0)
             (ExecutionPlan.QuantityUSD plan)
        /\ ExecutionPlan.Leverage plan
           = int_max1_sub (ExecutionPlan.Leverage plan0) 1
        /\ (ExecutionPlan.Leverage plan0 <= 2 ^ 53 ->
            ExecutionPlan.Leverage plan
            = Z.max 1 (ExecutionPlan.Leverage plan0 - 1))
        /\ ExecutionPlan.Action plan = ExecutionPlan.Action plan0
        /\ ExecutionPlan.StopLoss plan = ExecutionPlan.StopLoss plan0
        /\ ExecutionPlan.TakeProfit plan = ExecutionPlan.TakeProfit plan0)
    /\ (riskLevel = "medium" ->
        scaledBy 0.8 (ExecutionPlan.Quantity plan0) (ExecutionPlan.Quantity plan)
        /\ scaledBy 0.8 (ExecutionPlan.QuantityUSD plan0)
             (ExecutionPlan.QuantityUSD plan)
        /\ ExecutionPlan.Leverage plan = ExecutionPlan.Leverage plan0
        /\ ExecutionPlan.Action plan = ExecutionPlan.Action plan0)
    /\ (riskLevel <> "extreme" -> riskLevel <> "high" ->
        riskLevel <> "medium" -> plan = plan0).
Proof.
  intros Hcalc Hheap Hplan.
  pose proof (adjusted_map pc heap params riskLevel m Hheap) as Hadjusted.
  destruct (ParameterCalculator.AdjustParametersForRisk pc heap params riskLevel)
    as [heap' address].
  rewrite calculated_parameters in Hcalc.
  match type of Hcalc with
  | (Some ?x, _) = _ => assert (Hm : m = x) by congruence
  end.
  clear Hcalc Hheap. subst m.
  rewrite prepared_plan in Hplan.
  match type of Hplan with
  | Returns ?x = _ => assert (Hp : plan0 = x) by congruence
  end.
  clear Hplan. subst plan0.
  match type of Hadjusted with _ = Some ?a => exists a end.
  match goal with
  | |- exists plan, _ /\ @?P plan =>
      assert (Hex : exists plan, P plan);
      [| destruct Hex as (plan & Hex); exists plan;
         split; [exact Hadjusted | exact Hex]]
  end.
  clear Hadjusted. cbv beta. rewrite adjusted_plan.
  destruct (String.eqb riskLevel "extreme") eqn:Ee;
    [apply String.eqb_eq in Ee | apply String.eqb_neq in Ee].
  { subst riskLevel. eexists. split; [reflexivity|].
    repeat split; try discriminate; congruence. }
  destruct (String.eqb riskLevel "high") eqn:Eh;
    [apply String.eqb_eq in Eh | apply String.eqb_neq in Eh].
  { subst riskLevel. eexists. split; [reflexivity|].
    cbn [ExecutionPlan.Quantity ExecutionPlan.QuantityUSD
         ExecutionPlan.Leverage ExecutionPlan.Action ExecutionPlan.StopLoss
         ExecutionPlan.TakeProfit].
    split; [discriminate|].
    split; [|split; [discriminate | congruence]].
    intros _.
    split; [apply scaled_by_product; lra|].
    split; [apply scaled_by_product; lra|].
    split; [reflexivity|].
    split; [intros Hbound; apply int_max1_sub_exact; [exact Hbound | lia]|].
    repeat split. }
  destruct (String.eqb riskLevel "medium") eqn:Em;
    [apply String.eqb_eq in Em | apply String.eqb_neq in Em].
  { subst riskLevel. eexists. split; [reflexivity|].
    cbn [ExecutionPlan.Quantity ExecutionPlan.QuantityUSD
         ExecutionPlan.Leverage ExecutionPlan.Action].
    split; [discriminate|]. split; [discriminate|].
    split; [|congruence].
    intros _.
    split; [apply scaled_by_product; lra|].
    split; [apply scaled_by_product; lra|].
    repeat split. }
  eexists. split; [apply prepared_plan|].
  repeat split; congruence.
Qed.

Lemma X20_adjusted_parameters_make_a_plan_witness :
  let pc := Orchestrator.paramCalculator Fixtures.orchestrator in
  let os := Orchestrator.orderSender Fixtures.orchestrator in
  let decision := Samples.decision DirectionLong 0.85 MarketTrending
                    OpportunityLongEntry in
  let metrics := Samples.metrics 3 44500 46000 in
  let d := Fixtures.cleaned Fixtures.getTestMarketData in
  exists m plan0,
    ParameterCalculator.CalculateParameters pc (Some decision) (Some metrics)
      (Some d) = (Some m, None)
    /\ OrderSender.PrepareExecutionPlan os Fixtures.someTime decision metrics m
         true "ok" = Returns plan0
    /\ let '(heap', address) :=
         ParameterCalculator.AdjustParametersForRisk pc (<[0%nat := m]> ∅)
           0%nat "high" in
       exists adjusted plan,
         heap' !! address = Some adjusted
         /\ OrderSender.PrepareExecutionPlan os Fixtures.someTime decision
              metrics adjusted true "ok" = Returns plan
         /\ ExecutionPlan.Leverage plan
            = Z.max 1 (ExecutionPlan.Leverage plan0 - 1).
Proof.
  intros pc os decision metrics d.
  eexists _, _. split; [apply calculated_parameters|].
  split; [apply prepared_plan|].
  pose proof (X20_adjusted_parameters_make_a_plan pc os Fixtures.someTime true
                "ok" decision metrics d (<[0%nat := _]> ∅) 0%nat "high" _ _
                (calculated_parameters pc decision metrics d)
                (lookup_insert_eq _ _ _)
                (prepared_plan _ _ _ _ _ _ _ _ _ _ _ _ _ _ _)) as H.
  destruct (ParameterCalculator.AdjustParametersForRisk pc _ 0%nat "high")
    as [heap' address].
  destruct H as (adjusted & plan & Hlookup & Hplan & _ & Hhigh & _).
  exists adjusted, plan. split; [exact Hlookup|]. split; [exact Hplan|].
  apply (proj1 (proj2 (proj2 (proj2 (Hhigh eq_refl))))).
  vm_compute. discriminate.
Defined.

(** ** The risk validator *)

Lemma validation_outcome (R : Runtime) (rv : RiskValidator.t)
    (plan : option ExecutionPlan.t) (decision : option AIDecision.t)
    (metrics : option RiskMetrics.t) (data : option CleanedMarketData.t) :
  let counted :=
    {| RiskValidator.config := RiskValidator.config rv;
       RiskValidator.totalValidations :=
         int_succ (RiskValidator.totalValidations rv);
       RiskValidator.passedValidations := RiskValidator.passedValidations rv;
       RiskValidator.failedValidations := RiskValidator.failedValidations rv |} in
  (exists reason,
      RiskValidator.ValidateExecution R rv plan decision metrics data
      = RiskValidator.failed counted reason)
  \/ RiskValidator.ValidateExecution R rv plan decision metrics data
     = ({| RiskValidator.config := RiskValidator.config rv;
           RiskValidator.totalValidations :=
             int_succ (RiskValidator.totalValidations rv);
           RiskValidator.passedValidations :=
             int_succ (RiskValidator.passedValidations rv);
           RiskValidator.failedValidations :=
             RiskValidator.failedValidations rv |}, (true, "风控验证通过")).
Proof.
  unfold RiskValidator.ValidateExecution. cbv zeta.
  repeat mcase; first [left; eexists; reflexivity | right; reflexivity].
Qed.

(** X21. Every validation is counted once: the total advances by one
    and, according to the verdict, either the passed or the failed count
    advances by one while the other stays; the configuration is kept. *)
Theorem X21_validations_are_counted (R : Runtime) (rv : RiskValidator.t)
    (plan : option ExecutionPlan.t) (decision : option AIDecision.t)
    (metrics : option RiskMetrics.t) (data : option CleanedMarketData.t) :
  let rv' := fst (RiskValidator.ValidateExecution R rv plan decision metrics data) in
  let passed :=
    fst (snd (RiskValidator.ValidateExecution R rv plan decision metrics data)) in
  RiskValidator.totalValidations rv'
  = int_succ (RiskValidator.totalValidations rv)
  /\ RiskValidator.passedValidations rv'
     = (if passed then int_succ (RiskValidator.passedValidations rv)
        else RiskValidator.passedValidations rv)
  /\ RiskValidator.failedValidations rv'
     = (if passed then RiskValidator.failedValidations rv
        else int_succ (RiskValidator.failedValidations rv))
  /\ RiskValidator.config rv' = RiskValidator.config rv.
Proof.
  destruct (validation_outcome R rv plan decision metrics data)
    as [[reason ->] | ->]; cbn; repeat split; reflexivity.
Qed.

(** X22. A plan that passes the validation opens a position: its
    action is open_long or open_short, never a close and never a wait. Its
    quantity and amount are positive, its leverage lies between 1 and 20,
    the metrics allow trading, the data is valid with a quality of at
    least 0.8 and a positive price, the decision has the direction of the
    action and a confidence of at least 0.7, and the stop is below the
    price for a long and above it for a short. *)
Theorem X22_passing_plans (R : Runtime) (rv : RiskValidator.t)
    (plan : option ExecutionPlan.t) (decision : option AIDecision.t)
    (metrics : option RiskMetrics.t) (data : option CleanedMarketData.t) :
  fst (snd (RiskValidator.ValidateExecution R rv plan decision metrics data))
  = true ->
  exists p dec m d,
    plan = Some p /\ decision = Some dec /\ metrics = Some m /\ data = Some d
    /\ ((ExecutionPlan.Action p = "open_long"
         /\ AIDecision.Direction dec = DirectionLong
         /\ (ExecutionPlan.StopLoss p < CleanedMarketData.CurrentPrice d)%Q)
        \/ (ExecutionPlan.Action p = "open_short"
            /\ AIDecision.Direction dec = DirectionShort
            /\ (CleanedMarketData.CurrentPrice d < ExecutionPlan.StopLoss p)%Q))
    /\ (0 < ExecutionPlan.Quantity p)%Q
    /\ (0 < ExecutionPlan.QuantityUSD p)%Q
    /\ 1 <= ExecutionPlan.Leverage p <= 20
    /\ RiskMetrics.CanTrade m = true
    /\ CleanedMarketData.IsValid d = true
    /\ (0.8 <= CleanedMarketData.DataQuality d)%Q
    /\ (0 < CleanedMarketData.CurrentPrice d)%Q
    /\ (0.7 <= AIDecision.Confidence dec)%Q.
Proof.
  unfold RiskValidator.ValidateExecution. cbv zeta.
  destruct plan as [p|]; [|intros H; discriminate].
  destruct (RiskValidator.validateBasicParameters R (Some p))
    as [[|] r1] eqn:Hbasic; [|intros H; discriminate].
  destruct metrics as [m|]; [|intros H; discriminate].
  destruct (RiskValidator.validateRiskMetrics R p (Some m))
    as [[|] r2] eqn:Hmetrics; [|intros H; discriminate].
  destruct data as [d|]; [|intros H; discriminate].
  destruct (RiskValidator.validateMarketData R p (Some d))
    as [[|] r3] eqn:Hdata; [|intros H; discriminate].
  destruct decision as [dec|]; [|intros H; discriminate].
  destruct (RiskValidator.validateDecisionConsistency R p (Some dec))
    as [[|] r4] eqn:Hdecision; [|intros H; discriminate].
  destruct (RiskValidator.validateStopLossTakeProfit R p d)
    as [[|] r5] eqn:Hstops; [|intros H; discriminate].
  intros _. exists p, dec, m, d. do 4 (split; [reflexivity|]).
  unfold RiskValidator.validateBasicParameters in Hbasic.
  repeat match type of Hbasic with
         | context [if ?b then _ else _] =>
             let E := fresh "B" in destruct b eqn:E; [discriminate|]; bprop E
         end.
  unfold RiskValidator.validateRiskMetrics in Hmetrics.
  destruct (RiskMetrics.CanTrade m) eqn:Hcan; [|discriminate].
  unfold RiskValidator.validateMarketData in Hdata.
  repeat match type of Hdata with
         | context [if ?b then _ else _] =>
             let E := fresh "D" in destruct b eqn:E; [discriminate|]; bprop E
         end.
  unfold RiskValidator.validateDecisionConsistency in Hdecision.
  cbv zeta in Hdecision.
  match type of Hdecision with
  | context [if negb (String.eqb ?a ?b) then _ else _] =>
      destruct (String.eqb a b) eqn:Haction; [|discriminate]
  end.
  cbn [negb] in Hdecision.
  destruct (AIDecision.Confidence dec <? 0.7)%Q eqn:Hconfidence;
    [discriminate|]. bprop Hconfidence.
  apply String.eqb_eq in Haction.
  assert (Hside :
            (ExecutionPlan.Action p = "open_long"
             /\ AIDecision.Direction dec = DirectionLong)
            \/ (ExecutionPlan.Action p = "open_short"
                /\ AIDecision.Direction dec = DirectionShort)).
  { destruct (String.eqb (AIDecision.Direction dec) DirectionLong) eqn:El.
    { left. apply String.eqb_eq in El. split; assumption. }
    destruct (String.eqb (AIDecision.Direction dec) DirectionShort) eqn:Es.
    { right. apply String.eqb_eq in Es. split; assumption. }
    exfalso.
    destruct (String.eqb (AIDecision.Direction dec) DirectionWait);
      rewrite Haction in *; cbn in *; intuition discriminate. }
  assert (Hstop :
            (ExecutionPlan.Action p = "open_long" ->
             (ExecutionPlan.StopLoss p < CleanedMarketData.CurrentPrice d)%Q)
            /\ (ExecutionPlan.Action p = "open_short" ->
                (CleanedMarketData.CurrentPrice d < ExecutionPlan.StopLoss p)%Q)).
  { unfold RiskValidator.validateStopLossTakeProfit in Hstops.
    cbv zeta in Hstops. split; intros Hact; rewrite Hact in Hstops;
      cbn [String.eqb Ascii.eqb Bool.eqb] in Hstops.
    - destruct (ExecutionPlan.StopLoss p >=? CleanedMarketData.CurrentPrice d)%Q
        eqn:E; [discriminate|]. bprop E. exact E.
    - destruct (ExecutionPlan.StopLoss p <=? CleanedMarketData.CurrentPrice d)%Q
        eqn:E; [discriminate|]. bprop E. exact E. }
  destruct Hstop as [Hlong Hshort].
  split.
  { destruct Hside as [[Ha Hd]|[Ha Hd]]; [left | right]; auto. }
  repeat split; try assumption; try lia; try lra; tauto.
Qed.

Lemma X22_passing_plans_witness :
  exists p,
    Some (Samples.plan "open_long" 0.004 3 44500 46000 true) = Some p
    /\ (0 < ExecutionPlan.Quantity p)%Q
    /\ 1 <= ExecutionPlan.Leverage p <= 20.
Proof.
  destruct (X22_passing_plans Fixtures.runtime
              (Orchestrator.riskValidator Fixtures.orchestrator)
              (Some (Samples.plan "open_long" 0.004 3 44500 46000 true))
              (Some (Samples.decision DirectionLong 0.85 MarketTrending
                       OpportunityLongEntry))
              (Some (Samples.metrics 3 44500 46000))
              (Some (Fixtures.cleaned Fixtures.getTestMarketData)))
    as (p & dec & m & d & Hp & _ & _ & _ & _ & Hq & _ & Hl & _).
  - vm_compute. reflexivity.
  - exists p. split; [exact Hp|]. split; [exact Hq | exact Hl].
Defined.

(** ** The order executor and the order sender *)

Lemma warning_not_empty (warning rest : string) :
  warning <> "" -> warning +:+ rest <> "".
Proof. destruct warning; [congruence | discriminate]. Qed.

Lemma setStops_keeps_order (tr : Trader) (side : string)
    (plan : ExecutionPlan.t) (result : OrderResult.t) :
  OrderResult.OrderID (OrderExecutor.setStops tr side plan result)
  = OrderResult.OrderID result
  /\ OrderResult.FilledQuantity (OrderExecutor.setStops tr side plan result)
     = OrderResult.FilledQuantity result
  /\ OrderResult.Timestamp (OrderExecutor.setStops tr side plan result)
     = OrderResult.Timestamp result.
Proof.
  unfold OrderExecutor.setStops.
  repeat mcase; cbn; repeat split; reflexivity.
Qed.

(** X23. [ExecuteOrder] reports success exactly when its error is
    nil. A nil error means a cleared plan with one of the four actions,
    filled for the planned quantity. With an error the result has no
    order id, a filled quantity of 0 and a message that is not empty for
    a nil or an uncleared plan; and for such plans the exchange is
    never consulted: the outcome is the same with any exchange. *)
Theorem X23_success_iff_no_error (oe : OrderExecutor.t)
    (env : OrderExecutor.Env) (plan : option ExecutionPlan.t) :
  let result := fst (OrderExecutor.ExecuteOrder oe env plan) in
  let err := snd (OrderExecutor.ExecuteOrder oe env plan) in
  (OrderResult.Success result = true <-> err = None)
  /\ (err = None ->
      exists p,
        plan = Some p
        /\ ExecutionPlan.RiskCheckPassed p = true
        /\ (ExecutionPlan.Action p = "open_long"
            \/ ExecutionPlan.Action p = "open_short"
            \/ ExecutionPlan.Action p = "close_long"
            \/ ExecutionPlan.Action p = "close_short")
        /\ OrderResult.FilledQuantity result = ExecutionPlan.Quantity p)
  /\ (err <> None ->
      OrderResult.OrderID result = ""
      /\ OrderResult.FilledQuantity result = 0%Q)
  /\ (plan = None
      \/ (exists p, plan = Some p /\ ExecutionPlan.RiskCheckPassed p = false) ->
      OrderResult.ErrorMessage result <> ""
      /\ err <> None
      /\ forall tr : Trader,
           OrderExecutor.ExecuteOrder oe
             {| OrderExecutor.trader := tr;
                OrderExecutor.startTime := OrderExecutor.startTime env;
                OrderExecutor.sinceNow := OrderExecutor.sinceNow env |} plan
           = OrderExecutor.ExecuteOrder oe env plan).
Proof.
  cbv zeta. unfold OrderExecutor.ExecuteOrder. cbv zeta.
  destruct plan as [p|].
  2:{ cbn. repeat split; try discriminate; try congruence;
        intros; reflexivity. }
  destruct (ExecutionPlan.RiskCheckPassed p) eqn:Hcleared; cbn [negb].
  2:{ cbn [fst snd OrderExecutor.setErrorMessage OrderResult.Success
           OrderResult.OrderID OrderResult.FilledQuantity
           OrderResult.ErrorMessage].
      repeat split; try discriminate; try congruence;
        intros; reflexivity. }
  assert (Hno : ~ (Some p = None
                   \/ exists p0, Some p = Some p0
                                 /\ ExecutionPlan.RiskCheckPassed p0 = false)).
  { intros [H|(p0 & H & Hp0)]; [discriminate|]. injection H as <-. congruence. }
  destruct (String.eqb (ExecutionPlan.Action p) "open_long") eqn:E1.
  { apply String.eqb_eq in E1. unfold OrderExecutor.executeOpenLong.
    destruct (SetLeverage _ _ _) as [e|].
    { cbn. repeat split; try discriminate; try congruence; tauto. }
    destruct (OpenLong _ _ _ _) as [orderId [e|]].
    { cbn. repeat split; try discriminate; try congruence; tauto. }
    destruct (setStops_keeps_order (OrderExecutor.trader env) "long" p
                (OrderExecutor.setOrder
                   {| OrderResult.Success := false; OrderResult.OrderID := "";
                      OrderResult.FilledQuantity := 0;
                      OrderResult.AvgPrice := 0;
                      OrderResult.ExecutionTimeMs := 0;
                      OrderResult.ErrorMessage := "";
                      OrderResult.Timestamp := OrderExecutor.startTime env |}
                   orderId (ExecutionPlan.Quantity p)))
      as (_ & Hfilled & _).
    cbn [fst snd OrderExecutor.finish OrderResult.Success
         OrderResult.FilledQuantity OrderResult.OrderID].
    split; [tauto|]. split; [|split; [congruence | tauto]].
    intros _. exists p. rewrite Hfilled. cbn. tauto. }
  destruct (String.eqb (ExecutionPlan.Action p) "open_short") eqn:E2.
  { apply String.eqb_eq in E2. unfold OrderExecutor.executeOpenShort.
    destruct (SetLeverage _ _ _) as [e|].
    { cbn. repeat split; try discriminate; try congruence; tauto. }
    destruct (OpenShort _ _ _ _) as [orderId [e|]].
    { cbn. repeat split; try discriminate; try congruence; tauto. }
    destruct (setStops_keeps_order (OrderExecutor.trader env) "short" p
                (OrderExecutor.setOrder
                   {| OrderResult.Success := false; OrderResult.OrderID := "";
                      OrderResult.FilledQuantity := 0;
                      OrderResult.AvgPrice := 0;
                      OrderResult.ExecutionTimeMs := 0;
                      OrderResult.ErrorMessage := "";
                      OrderResult.Timestamp := OrderExecutor.startTime env |}
                   orderId (ExecutionPlan.Quantity p)))
      as (_ & Hfilled & _).
    cbn [fst snd OrderExecutor.finish OrderResult.Success
         OrderResult.FilledQuantity OrderResult.OrderID].
    split; [tauto|]. split; [|split; [congruence | tauto]].
    intros _. exists p. rewrite Hfilled. cbn. tauto. }
  destruct (String.eqb (ExecutionPlan.Action p) "close_long") eqn:E3.
  { apply String.eqb_eq in E3. unfold OrderExecutor.executeCloseLong.
    destruct (CloseLong _ _ _) as [orderId [e|]]; cbn.
    - repeat split; try discriminate; try congruence; tauto.
    - split; [tauto|]. split; [|split; [congruence | tauto]].
      intros _. exists p. tauto. }
  destruct (String.eqb (ExecutionPlan.Action p) "close_short") eqn:E4.
  { apply String.eqb_eq in E4. unfold OrderExecutor.executeCloseShort.
    destruct (CloseShort _ _ _) as [orderId [e|]]; cbn.
    - repeat split; try discriminate; try congruence; tauto.
    - split; [tauto|]. split; [|split; [congruence | tauto]].
      intros _. exists p. tauto. }
  cbn. repeat split; try discriminate; try congruence; tauto.
Qed.

(** X24. Once the leverage is set and the position is open, a
    failure to place the stop loss or the take profit does not fail the
    order: [ExecuteOrder] reports success with a nil error, the order id
    of the exchange and the planned quantity. The failure is only
    recorded as a warning in the message, which is empty exactly when no
    stop and no target failed. *)
Theorem X24_stop_failures_are_warnings (oe : OrderExecutor.t)
    (env : OrderExecutor.Env) (p : ExecutionPlan.t) (orderId : string) :
  let tr := OrderExecutor.trader env in
  let stopFails :=
    (0 < ExecutionPlan.StopLoss p)%Q
    /\ SetStopLoss tr (ExecutionPlan.Symbol p) "long" (ExecutionPlan.StopLoss p)
       <> None in
  let targetFails :=
    (0 < ExecutionPlan.TakeProfit p)%Q
    /\ SetTakeProfit tr (ExecutionPlan.Symbol p) "long"
         (ExecutionPlan.TakeProfit p) <> None in
  ExecutionPlan.RiskCheckPassed p = true ->
  ExecutionPlan.Action p = "open_long" ->
  SetLeverage tr (ExecutionPlan.Symbol p) (ExecutionPlan.Leverage p) = None ->
  OpenLong tr (ExecutionPlan.Symbol p) (ExecutionPlan.Quantity p)
    (ExecutionPlan.Leverage p) = (orderId, None) ->
  exists result,
    OrderExecutor.ExecuteOrder oe env (Some p) = (result, None)
    /\ OrderResult.Success result = true
    /\ OrderResult.OrderID result = orderId
    /\ OrderResult.FilledQuantity result = ExecutionPlan.Quantity p
    /\ (OrderResult.ErrorMessage result = "" <-> ~ stopFails /\ ~ targetFails).
Proof.
  intros tr stopFails targetFails Hcleared Haction Hleverage Hopen.
  subst stopFails targetFails.
  unfold OrderExecutor.ExecuteOrder. cbv zeta.
  rewrite Hcleared, Haction. cbn [negb String.eqb Ascii.eqb Bool.eqb].
  unfold OrderExecutor.executeOpenLong. fold tr. rewrite Hleverage, Hopen.
  eexists. split; [reflexivity|].
  cbn [OrderExecutor.finish OrderResult.Success OrderResult.OrderID
       OrderResult.FilledQuantity OrderResult.ErrorMessage].
  split; [reflexivity|].
  destruct (setStops_keeps_order tr "long" p
              (OrderExecutor.setOrder
                 {| OrderResult.Success := false; OrderResult.OrderID := "";
                    OrderResult.FilledQuantity := 0;
                    OrderResult.AvgPrice := 0;
                    OrderResult.ExecutionTimeMs := 0;
                    OrderResult.ErrorMessage := "";
                    OrderResult.Timestamp := OrderExecutor.startTime env |}
                 orderId (ExecutionPlan.Quantity p)))
    as (Hid & Hfilled & _).
  rewrite Hid, Hfilled. split; [reflexivity|]. split; [reflexivity|].
  unfold OrderExecutor.setStops.
  destruct (ExecutionPlan.StopLoss p >? 0)%Q eqn:Es; bprop Es;
    destruct (ExecutionPlan.TakeProfit p >? 0)%Q eqn:Et; bprop Et;
    try destruct (SetStopLoss tr _ _ _) as [e1|];
    try destruct (SetTakeProfit tr _ _ _) as [e2|];
    cbn; split; try discriminate; try reflexivity;
    try (intros [H1 H2]; exfalso;
         first [apply H1; split; [assumption | discriminate]
               | apply H2; split; [assumption | discriminate]]);
    try (intros _; split; intros [H1 H2]; first [congruence | lra]).
Qed.

Lemma X24_stop_failures_are_warnings_witness :
  exists result,
    OrderExecutor.ExecuteOrder
      (Orchestrator.orderExecutor Fixtures.orchestrator)
      (Samples.executorEnv Samples.stoplessTrader)
      (Some (Samples.plan "open_long" 0.004 3 44500 46000 true))
    = (result, None)
    /\ OrderResult.Success result = true
    /\ OrderResult.OrderID result = "ORDER_1".
Proof.
  destruct (X24_stop_failures_are_warnings
              (Orchestrator.orderExecutor Fixtures.orchestrator)
              (Samples.executorEnv Samples.stoplessTrader)
              (Samples.plan "open_long" 0.004 3 44500 46000 true) "ORDER_1"
              eq_refl eq_refl eq_refl eq_refl)
    as (result & Hresult & Hsuccess & Hid & _).
  exists result. split; [exact Hresult|]. split; [exact Hsuccess | exact Hid].
Defined.

(** X25. The dry run of the executor succeeds exactly when the
    parameters of the plan are in order: a symbol that is not empty, a
    positive quantity, a leverage between 1 and the configured maximum
    and one of the four actions; otherwise it fails with the error of the
    validation as its message. It always reports the planned quantity as
    filled. A plan that passes the basic check of the risk validator
    passes this validation as soon as its leverage is within the
    configured maximum. *)
Theorem X25_dry_run_validates (R : Runtime) (oe : OrderExecutor.t)
    (idNow stampNow : Z) (plan : ExecutionPlan.t) :
  let result := fst (DryRunOrder R oe idNow stampNow plan) in
  let err := snd (DryRunOrder R oe idNow stampNow plan) in
  let inOrder :=
    ExecutionPlan.Symbol plan <> ""
    /\ (0 < ExecutionPlan.Quantity plan)%Q
    /\ 1 <= ExecutionPlan.Leverage plan
       <= DataLayerConfig.MaxLeverage (OrderExecutor.config oe)
    /\ (ExecutionPlan.Action plan = "open_long"
        \/ ExecutionPlan.Action plan = "open_short"
        \/ ExecutionPlan.Action plan = "close_long"
        \/ ExecutionPlan.Action plan = "close_short") in
  err = ValidateOrderParameters R oe plan
  /\ (err = None <-> inOrder)
  /\ (OrderResult.Success result = true <-> inOrder)
  /\ (forall e, err = Some e -> OrderResult.ErrorMessage result = e)
  /\ OrderResult.FilledQuantity result = ExecutionPlan.Quantity plan
  /\ (fst (RiskValidator.validateBasicParameters R (Some plan)) = true ->
      ExecutionPlan.Leverage plan
      <= DataLayerConfig.MaxLeverage (OrderExecutor.config oe) ->
      inOrder).
Proof.
  intros result err inOrder.
  assert (Hvalid : ValidateOrderParameters R oe plan = None <-> inOrder).
  { subst inOrder. unfold ValidateOrderParameters.
    destruct (String.eqb (ExecutionPlan.Symbol plan) "") eqn:Es;
      [apply String.eqb_eq in Es | apply String.eqb_neq in Es].
    { split; [discriminate | tauto]. }
    destruct (ExecutionPlan.Quantity plan <=? 0)%Q eqn:Eq; bprop Eq.
    { split; [discriminate | intros (_ & H & _); lra]. }
    destruct ((ExecutionPlan.Leverage plan <? 1)
              || (ExecutionPlan.Leverage plan
                  >? DataLayerConfig.MaxLeverage (OrderExecutor.config oe)))
      eqn:El; bprop El.
    { split; [discriminate | intros (_ & _ & H & _); lia]. }
    destruct (String.eqb (ExecutionPlan.Action plan) "open_long") eqn:E1;
      [apply String.eqb_eq in E1; cbn; split; [intros _|]; try tauto;
       repeat split; try assumption; try lia; tauto|].
    destruct (String.eqb (ExecutionPlan.Action plan) "open_short") eqn:E2;
      [apply String.eqb_eq in E2; cbn; split; [intros _|]; try tauto;
       repeat split; try assumption; try lia; tauto|].
    destruct (String.eqb (ExecutionPlan.Action plan) "close_long") eqn:E3;
      [apply String.eqb_eq in E3; cbn; split; [intros _|]; try tauto;
       repeat split; try assumption; try lia; tauto|].
    destruct (String.eqb (ExecutionPlan.Action plan) "close_short") eqn:E4;
      [apply String.eqb_eq in E4; cbn; split; [intros _|]; try tauto;
       repeat split; try assumption; try lia; tauto|].
    apply String.eqb_neq in E1, E2, E3, E4. cbn.
    split; [discriminate | intros (_ & _ & _ & H); tauto]. }
  assert (Hbasic :
            fst (RiskValidator.validateBasicParameters R (Some plan)) = true ->
            ExecutionPlan.Leverage plan
            <= DataLayerConfig.MaxLeverage (OrderExecutor.config oe) ->
            inOrder).
  { subst inOrder. unfold RiskValidator.validateBasicParameters.
    destruct (String.eqb (ExecutionPlan.Symbol plan) "") eqn:Es;
      [discriminate | apply String.eqb_neq in Es].
    match goal with
    | |- context [if ?b then _ else _] => destruct b eqn:Ea; [discriminate|]
    end.
    destruct (ExecutionPlan.Quantity plan <=? 0)%Q eqn:Eq; [discriminate|].
    bprop Eq.
    destruct (ExecutionPlan.QuantityUSD plan <=? 0)%Q; [discriminate|].
    destruct ((ExecutionPlan.Leverage plan <? 1)
              || (ExecutionPlan.Leverage plan >? 20)) eqn:El; [discriminate|].
    bprop El. intros _ Hmax.
    repeat split; try assumption; try lia.
    destruct (String.eqb (ExecutionPlan.Action plan) "open_long") eqn:E1;
      [apply String.eqb_eq in E1; tauto|].
    destruct (String.eqb (ExecutionPlan.Action plan) "open_short") eqn:E2;
      [apply String.eqb_eq in E2; tauto|].
    destruct (String.eqb (ExecutionPlan.Action plan) "close_long") eqn:E3;
      [apply String.eqb_eq in E3; tauto|].
    destruct (String.eqb (ExecutionPlan.Action plan) "close_short") eqn:E4;
      [apply String.eqb_eq in E4; tauto|].
    discriminate. }
  subst result err. unfold DryRunOrder. cbv zeta.
  destruct (ValidateOrderParameters R oe plan) as [e|] eqn:Hv;
    cbn [fst snd OrderResult.Success OrderResult.ErrorMessage
         OrderResult.FilledQuantity].
  - split; [reflexivity|]. split; [exact Hvalid|].
    split; [split; [discriminate | intros H; apply Hvalid in H; discriminate]|].
    split; [intros e0 H; congruence|]. split; [reflexivity | exact Hbasic].
  - split; [reflexivity|]. split; [exact Hvalid|].
    split; [split; [intros _; apply Hvalid; reflexivity | reflexivity]|].
    split; [discriminate|]. split; [reflexivity | exact Hbasic].
Qed.

Lemma batchSendLoop_appends (R : Runtime) (os : OrderSender.t)
    (envs : nat -> OrderSender.Env) (plans : list (option ExecutionPlan.t)) :
  forall (i : nat) (results : list OrderResult.t),
  exists sent,
    batchSendLoop R os envs i plans results = results ++ sent
    /\ (List.length sent <= List.length (List.filter dispatchable plans))%nat
    /\ (ExecutionLayerConfig.DryRun (OrderSender.config os) = true ->
        List.length sent = List.length (List.filter dispatchable plans)
        /\ Forall (fun r => OrderResult.Success r = true
                            /\ OrderResult.AvgPrice r = 0%Q) sent).
Proof.
  induction plans as [|plan plans IH]; intros i results.
  - exists []. cbn. rewrite app_nil_r. repeat split; [lia | constructor].
  - cbn [batchSendLoop List.filter]. destruct plan as [p|]; cbn [dispatchable].
    2:{ exact (IH (S i) results). }
    destruct (ExecutionPlan.RiskCheckPassed p) eqn:Hcleared; cbn [negb].
    2:{ exact (IH (S i) results). }
    destruct (OrderSender.SendOrder R os (envs i) p) as [result [e|]] eqn:Hsend.
    + destruct (IH (S i) results) as (sent & Hloop & Hlen & Hdry).
      exists sent. split; [exact Hloop|]. cbn [List.length].
      split; [lia|]. intros Hon. exfalso.
      unfold OrderSender.SendOrder in Hsend. rewrite Hon in Hsend.
      discriminate.
    + destruct (IH (S i) (results ++ [result])) as (sent & Hloop & Hlen & Hdry).
      exists (result :: sent). rewrite Hloop, <- app_assoc.
      cbn [app List.length]. split; [reflexivity|]. split; [lia|].
      intros Hon. destruct (Hdry Hon) as [Hcount Hall].
      split; [lia|]. constructor; [|exact Hall].
      unfold OrderSender.SendOrder in Hsend. rewrite Hon in Hsend.
      injection Hsend as <-. split; reflexivity.
Qed.

(** X26. A batch of orders never returns an error. It yields at most
    one result for each plan that is not nil and has been cleared by the
    risk check; the other plans are skipped and never dispatched. In a dry
    run it yields exactly one result for each such plan, and every result
    is a success at an average price of 0. *)
Theorem X26_batch_sends_cleared_plans (R : Runtime) (os : OrderSender.t)
    (envs : nat -> OrderSender.Env) (plans : list (option ExecutionPlan.t)) :
  let results := fst (BatchSendOrders R os envs plans) in
  snd (BatchSendOrders R os envs plans) = None
  /\ (List.length results <= List.length (List.filter dispatchable plans))%nat
  /\ (ExecutionLayerConfig.DryRun (OrderSender.config os) = true ->
      List.length results = List.length (List.filter dispatchable plans)
      /\ Forall (fun r => OrderResult.Success r = true
                          /\ OrderResult.AvgPrice r = 0%Q) results)
  /\ (Forall (fun plan => dispatchable plan = false) plans -> results = []).
Proof.
  cbv zeta. unfold BatchSendOrders. cbn [fst snd].
  destruct (batchSendLoop_appends R os envs plans 0 [])
    as (sent & Hloop & Hlen & Hdry).
  rewrite Hloop. cbn [app]. split; [reflexivity|].
  split; [exact Hlen|]. split; [exact Hdry|].
  intros Hnone.
  assert (Hfilter : List.filter dispatchable plans = []).
  { clear - Hnone. induction Hnone as [|plan plans Hplan _ IH];
      [reflexivity|]. cbn. rewrite Hplan. exact IH. }
  rewrite Hfilter in Hlen. destruct sent; [reflexivity | cbn in Hlen; lia].
Qed.

(** ** The trading cycle *)

Lemma tripped_metrics (R : Runtime) (rc : RiskCalculator.t)
    (direction : Direction) (d : CleanedMarketData.t) :
  RiskCalculator.circuitBreakerActive rc = true ->
  exists m,
    RiskCalculator.CalculateRiskMetrics R rc direction (Some d) = (Some m, None)
    /\ RiskMetrics.CanTrade m = false
    /\ RiskMetrics.RiskLevel m = "extreme"
    /\ (RiskMetrics.MaxPositionSizeUSD m == 0)%Q.
Proof.
  intros Hactive. unfold RiskCalculator.CalculateRiskMetrics. rewrite Hactive.
  eexists. split; [reflexivity|]. cbn. repeat split; reflexivity.
Qed.

Lemma risk_metrics_returned (R : Runtime) (rc : RiskCalculator.t)
    (direction : Direction) (d : CleanedMarketData.t) :
  exists m,
    RiskCalculator.CalculateRiskMetrics R rc direction (Some d) = (Some m, None).
Proof.
  unfold RiskCalculator.CalculateRiskMetrics. cbv zeta.
  repeat mcase; eexists; reflexivity.
Qed.

Lemma MakeDecision_no_error (R : Runtime) (dm dm' : DecisionMaker.t)
    (env : DecisionMaker.Env) (data : option CleanedMarketData.t)
    (decision : AIDecision.t) (err : error) :
  DecisionMaker.MakeDecision R dm env data = (dm', Returns (decision, err)) ->
  err = None.
Proof.
  unfold DecisionMaker.MakeDecision. cbv zeta.
  repeat mcase; intros H; try discriminate; congruence.
Qed.

(** One stage of the cycle whose outcome is known in advance. *)
Ltac known_stage :=
  match goal with
  | |- context [DataProcessor.ProcessMarketData ?R ?dp ?now (Some ?raw)] =>
      let c := fresh "cleanedData" in
      let E := fresh "Hcleaned" in
      destruct (ProcessMarketData_some R dp now raw) as [c E];
      rewrite E; cbv beta iota
  | |- context [ParameterCalculator.CalculateParameters ?pc (Some ?a)
                  (Some ?b) (Some ?c)] =>
      rewrite (calculated_parameters pc a b c); cbv beta iota
  | |- context [OrderSender.PrepareExecutionPlan] =>
      rewrite prepared_plan; cbv beta iota
  end.

(** *** A record that is not valid *)

Lemma validation_rejects_invalid_data (R : Runtime) (rv : RiskValidator.t)
    (plan : option ExecutionPlan.t) (decision : option AIDecision.t)
    (metrics : option RiskMetrics.t) (d : CleanedMarketData.t) :
  CleanedMarketData.IsValid d = false ->
  fst (snd (RiskValidator.ValidateExecution R rv plan decision metrics (Some d)))
  = false.
Proof.
  intros Hinvalid. unfold RiskValidator.ValidateExecution. cbv zeta.
  destruct (RiskValidator.validateBasicParameters R plan) as [[|] r1];
    destruct plan as [p|]; try reflexivity.
  destruct (RiskValidator.validateRiskMetrics R p metrics) as [[|] r2];
    try reflexivity.
  unfold RiskValidator.validateMarketData. rewrite Hinvalid. reflexivity.
Qed.

Lemma validation_names_data_quality (R : Runtime) (rv : RiskValidator.t)
    (plan : ExecutionPlan.t) (decision : option AIDecision.t)
    (metrics : option RiskMetrics.t) (d : CleanedMarketData.t) :
  CleanedMarketData.IsValid d = false ->
  fst (RiskValidator.validateBasicParameters R (Some plan)) = true ->
  fst (RiskValidator.validateRiskMetrics R plan metrics) = true ->
  snd (RiskValidator.ValidateExecution R rv (Some plan) decision metrics (Some d))
  = (false, "市场数据质量不合格").
Proof.
  intros Hinvalid H1 H2. unfold RiskValidator.ValidateExecution. cbv zeta.
  destruct (RiskValidator.validateBasicParameters R (Some plan)) as [[|] r1];
    [|discriminate].
  destruct (RiskValidator.validateRiskMetrics R plan metrics) as [[|] r2];
    [|discriminate].
  unfold RiskValidator.validateMarketData. rewrite Hinvalid. reflexivity.
Qed.

(** C1, as amended. When the cleaned record is not valid the cycle skips
    nothing. It reads the account: a failed read ends the cycle with that
    error. With the balance read, the risk calculator holds the balance
    and the decision maker is left as [MakeDecision] leaves it; and when a
    decision is returned the cycle ends without error and carries that
    decision: on the decision to wait with the rejections unchanged, and
    otherwise as a rejection, the rejections advancing by one, either by
    the risk metrics, which are computed, or, when these allow the trade,
    by the secondary validation of the plan, which is prepared. No order
    is ever dispatched, so the successful and failed trades stay as they
    were and the result carries no order result; whenever the result
    carries a plan the secondary validation has rejected it, and its third
    check names the data quality. *)
Theorem C1_invalid_data_is_rejected_by_validation (R : Runtime)
    (o : Orchestrator.t) (env : Orchestrator.Env) (raw : market.Data)
    (c : CleanedMarketData.t) :
  DataProcessor.ProcessMarketData R (Orchestrator.dataProcessor o)
    (Orchestrator.cleanedNow env) (Some raw) = (Some c, None) ->
  CleanedMarketData.IsValid c = false ->
  let o' := fst (Orchestrator.ExecuteTradingCycle R o env (Some raw)) in
  let outcome := snd (Orchestrator.ExecuteTradingCycle R o env (Some raw)) in
  let account :=
    OrderExecutor.GetAccountBalance (Orchestrator.orderExecutor o)
      (Orchestrator.exchange env) in
  let made :=
    DecisionMaker.MakeDecision R (Orchestrator.decisionMaker o)
      (Orchestrator.decisionEnv env) (Some c) in
  Orchestrator.successfulTrades o' = Orchestrator.successfulTrades o
  /\ Orchestrator.failedTrades o' = Orchestrator.failedTrades o
  /\ (forall err : string,
         snd account = Some err ->
         exists result : TradingCycleResult.t,
           outcome = Returns (result, Some err)
           /\ TradingCycleResult.Error result = "获取账户信息失败: " +:+ err
           /\ TradingCycleResult.CleanedData result = Some c
           /\ TradingCycleResult.AIDecision result = None)
  /\ (forall total available used : Q,
         snd account = None ->
         fst account !! "total" = Some (VFloat total) ->
         fst account !! "available" = Some (VFloat available) ->
         fst account !! "used_margin" = Some (VFloat used) ->
         Orchestrator.riskCalculator o'
         = RiskCalculator.UpdateAccountInfo (Orchestrator.riskCalculator o)
             total available used
         /\ Orchestrator.decisionMaker o' = fst made
         /\ forall decision : AIDecision.t,
             snd made = Returns (decision, None) ->
             exists (result : TradingCycleResult.t),
               outcome = Returns (result, None)
               /\ TradingCycleResult.Success result = true
               /\ TradingCycleResult.CleanedData result = Some c
               /\ TradingCycleResult.AIDecision result = Some decision
               /\ TradingCycleResult.OrderResult result = None
               /\ (AIDecision.Direction decision = DirectionWait ->
                   TradingCycleResult.Message result
                   = "AI决策：观望，不执行交易"
                   /\ Orchestrator.rejectedByRisk o'
                      = Orchestrator.rejectedByRisk o)
               /\ (AIDecision.Direction decision <> DirectionWait ->
                   Orchestrator.rejectedByRisk o'
                   = int_succ (Orchestrator.rejectedByRisk o)
                   /\ exists m : RiskMetrics.t,
                       RiskCalculator.CalculateRiskMetrics R
                         (Orchestrator.riskCalculator o')
                         (AIDecision.Direction decision) (Some c)
                       = (Some m, None)
                       /\ TradingCycleResult.RiskMetrics result = Some m
                       /\ (RiskMetrics.CanTrade m = false ->
                           TradingCycleResult.ExecutionPlan result = None
                           /\ TradingCycleResult.Message result
                              = "风险检查阻止交易: "
                                +:+ RiskMetrics.RiskReason m)
                       /\ (RiskMetrics.CanTrade m = true ->
                           exists plan : ExecutionPlan.t,
                             TradingCycleResult.ExecutionPlan result
                             = Some plan
                             /\ ExecutionPlan.RiskCheckPassed plan = false
                             /\ TradingCycleResult.Message result
                                = "二次风控验证失败: "
                                  +:+ ExecutionPlan.RiskCheckReason plan)))
  /\ (forall (result : TradingCycleResult.t) (err : error),
         outcome = Returns (result, err) ->
         TradingCycleResult.OrderResult result = None
         /\ forall plan : ExecutionPlan.t,
             TradingCycleResult.ExecutionPlan result = Some plan ->
             err = None
             /\ TradingCycleResult.Success result = true
             /\ ExecutionPlan.RiskCheckPassed plan = false
             /\ TradingCycleResult.Message result
                = "二次风控验证失败: " +:+ ExecutionPlan.RiskCheckReason plan
             /\ Orchestrator.rejectedByRisk o'
                = int_succ (Orchestrator.rejectedByRisk o))
  /\ (forall (rv : RiskValidator.t) (plan : ExecutionPlan.t)
             (decision : option AIDecision.t) (metrics : option RiskMetrics.t),
         fst (RiskValidator.validateBasicParameters R (Some plan)) = true ->
         fst (RiskValidator.validateRiskMetrics R plan metrics) = true ->
         snd (RiskValidator.ValidateExecution R rv (Some plan) decision
                metrics (Some c))
         = (false, "市场数据质量不合格")).
Proof.
  intros Hclean Hinvalid o' outcome account made. subst o' outcome.
  split; [|split; [|split; [|split; [|split]]]].
  6:{ intros. now apply validation_names_data_quality. }
  3:{ intros err Herr. subst account.
      unfold Orchestrator.ExecuteTradingCycle. cbv zeta.
      cbn [Orchestrator.countExecution Orchestrator.withCounters
           Orchestrator.dataProcessor Orchestrator.orderExecutor].
      rewrite Hclean.
      destruct (OrderExecutor.GetAccountBalance _ _) as [balance e].
      cbn [snd] in Herr. subst e. cbn [snd].
      eexists. split; [reflexivity|]. repeat split. }
  3:{ intros total available used Herr Ht Ha Hu. subst account made.
      unfold Orchestrator.ExecuteTradingCycle. cbv zeta.
      cbn [Orchestrator.countExecution Orchestrator.withCounters
           Orchestrator.withComponents
           Orchestrator.dataProcessor Orchestrator.orderExecutor
           Orchestrator.decisionMaker Orchestrator.riskCalculator
           Orchestrator.riskValidator Orchestrator.paramCalculator
           Orchestrator.orderSender].
      rewrite Hclean.
      destruct (OrderExecutor.GetAccountBalance _ _) as [balance e].
      cbn [fst snd] in Herr, Ht, Ha, Hu. subst e. rewrite Ht, Ha, Hu.
      destruct (DecisionMaker.MakeDecision R (Orchestrator.decisionMaker o)
                  (Orchestrator.decisionEnv env) (Some c))
        as [dm [[decision' [e|]]|]] eqn:Hmade; cbn [fst snd].
      1,3: (split; [reflexivity|]); (split; [reflexivity|]);
           intros decision Hd; discriminate.
      set (rc := RiskCalculator.UpdateAccountInfo _ total available used).
      destruct (String.eqb (AIDecision.Direction decision') DirectionWait)
        eqn:Hwait;
        [apply String.eqb_eq in Hwait | apply String.eqb_neq in Hwait].
      { cbn [fst snd]. split; [reflexivity|]. split; [reflexivity|].
        intros decision Hd. injection Hd as <-.
        eexists. split; [reflexivity|].
        cbn. repeat split; try reflexivity; congruence. }
      destruct (risk_metrics_returned R rc (AIDecision.Direction decision') c)
        as [m Hm].
      rewrite Hm.
      destruct (RiskMetrics.CanTrade m) eqn:Hcan; cbn [negb].
      2:{ cbn [fst snd]. split; [reflexivity|]. split; [reflexivity|].
          intros decision Hd. injection Hd as <-.
          eexists. split; [reflexivity|].
          cbn. repeat split; try reflexivity; try congruence.
          exists m. rewrite Hcan. repeat split; try reflexivity; try exact Hm;
            discriminate. }
      rewrite calculated_parameters. rewrite prepared_plan.
      match goal with
      | |- context [RiskValidator.ValidateExecution ?R ?rv ?p ?d ?m (Some ?x)] =>
          pose proof (validation_rejects_invalid_data R rv p d m x Hinvalid)
            as Hrejected;
          destruct (RiskValidator.ValidateExecution R rv p d m (Some x))
            as [rv' [passed reason]]
      end.
      cbn [fst snd] in Hrejected. subst passed. cbn [negb fst snd].
      split; [reflexivity|]. split; [reflexivity|].
      intros decision Hd. injection Hd as <-.
      eexists. split; [reflexivity|].
      cbn. repeat split; try reflexivity; try congruence.
      exists m. rewrite Hcan. repeat split; try reflexivity; try exact Hm;
        try discriminate.
      intros _. eexists. repeat split. }
  all: unfold Orchestrator.ExecuteTradingCycle; cbv zeta;
    cbn [Orchestrator.countExecution Orchestrator.withCounters
         Orchestrator.dataProcessor];
    rewrite Hclean.
  all: repeat
         match goal with
         | |- context [RiskValidator.ValidateExecution ?R ?rv ?p ?d ?m (Some ?x)] =>
             pose proof (validation_rejects_invalid_data R rv p d m x Hinvalid);
             destruct (RiskValidator.ValidateExecution R rv p d m (Some x))
               as [? [? ?]]; cbn [fst snd] in *; subst
         | _ => mcase
         end;
    cbn; try reflexivity; try discriminate.
  all: intros result err H; injection H as <- <-; cbn;
    split; try reflexivity; intros plan Hplan; try discriminate.
  all: injection Hplan as <-; cbn; repeat split; reflexivity.
Qed.

Lemma C1_invalid_data_is_rejected_by_validation_witness :
  let o := Fixtures.orchestrator in
  let env := Fixtures.environment Fixtures.someTime Fixtures.unreachable in
  let o' :=
    fst (Orchestrator.ExecuteTradingCycle Fixtures.runtime o env
           (Some Fixtures.invalidMarketData)) in
  let outcome :=
    snd (Orchestrator.ExecuteTradingCycle Fixtures.runtime o env
           (Some Fixtures.invalidMarketData)) in
  Orchestrator.successfulTrades o' = 0
  /\ Orchestrator.failedTrades o' = 0
  /\ exists result plan,
      outcome = Returns (result, None)
      /\ TradingCycleResult.ExecutionPlan result = Some plan
      /\ TradingCycleResult.OrderResult result = None
      /\ TradingCycleResult.Success result = true
      /\ TradingCycleResult.Message result
         = "二次风控验证失败: " +:+ ExecutionPlan.RiskCheckReason plan
      /\ Orchestrator.rejectedByRisk o' = 1.
Proof.
  intros o env o' outcome.
  destruct (C1_invalid_data_is_rejected_by_validation Fixtures.runtime o env
              Fixtures.invalidMarketData
              (Fixtures.cleaned Fixtures.invalidMarketData))
    as (Hs & Hf & _ & _ & Hout & _).
  - vm_compute. reflexivity.
  - vm_compute. reflexivity.
  - split; [exact Hs|]. split; [exact Hf|].
    eexists _, _. split; [vm_compute; reflexivity|].
    split; [reflexivity|].
    match goal with
    | |- TradingCycleResult.OrderResult ?r = None /\ _ =>
        destruct (Hout r None) as (Horder & Hplan); [vm_compute; reflexivity|]
    end.
    split; [exact Horder|].
    destruct (Hplan _ eq_refl) as (_ & Hsuccess & _ & Hmessage & Hrejected).
    split; [exact Hsuccess|]. split; [exact Hmessage|]. exact Hrejected.
Defined.

(** C1 as stated fails: the orchestrator has no data-quality gate. With
    a price of 0 (quality 0.3) the cycle reads the account, makes a
    decision, and ends on the decision to wait, the rejections unchanged;
    with an RSI7 of 0 (quality 0.7) it goes on through the risk metrics,
    the parameters and the secondary validation, which is where it is
    rejected. *)
Lemma C1_counterexample :
  let o := Fixtures.orchestrator in
  let env := Fixtures.environment Fixtures.someTime Fixtures.unreachable in
  (exists c o' result,
      DataProcessor.ProcessMarketData Fixtures.runtime
        (Orchestrator.dataProcessor o) (Orchestrator.cleanedNow env)
        (Some Fixtures.lowQualityMarketData) = (Some c, None)
      /\ CleanedMarketData.IsValid c = false
      /\ Orchestrator.ExecuteTradingCycle Fixtures.runtime o env
           (Some Fixtures.lowQualityMarketData) = (o', Returns (result, None))
      /\ TradingCycleResult.Message result = "AI决策：观望，不执行交易"
      /\ TradingCycleResult.Message result <> Spec.dataQualityMessage
      /\ TradingCycleResult.AIDecision result <> None
      /\ Orchestrator.rejectedByRisk o' = Orchestrator.rejectedByRisk o
      /\ DecisionMaker.decisionsThisHour (Orchestrator.decisionMaker o') = 1)
  /\ (exists c o' result,
         DataProcessor.ProcessMarketData Fixtures.runtime
           (Orchestrator.dataProcessor o) (Orchestrator.cleanedNow env)
           (Some Fixtures.invalidMarketData) = (Some c, None)
         /\ CleanedMarketData.IsValid c = false
         /\ Orchestrator.ExecuteTradingCycle Fixtures.runtime o env
              (Some Fixtures.invalidMarketData) = (o', Returns (result, None))
         /\ TradingCycleResult.Message result
            = "二次风控验证失败: 市场数据质量不合格"
         /\ TradingCycleResult.Message result <> Spec.dataQualityMessage
         /\ TradingCycleResult.AIDecision result <> None
         /\ TradingCycleResult.RiskMetrics result <> None
         /\ TradingCycleResult.ExecutionPlan result <> None
         /\ RiskValidator.totalValidations (Orchestrator.riskValidator o') = 1).
Proof.
  intros o env. split.
  - eexists _, _, _. split; [vm_compute; reflexivity|].
    split; [reflexivity|]. split; [vm_compute; reflexivity|].
    cbn. repeat split; try reflexivity; discriminate.
  - eexists _, _, _. split; [vm_compute; reflexivity|].
    split; [reflexivity|]. split; [vm_compute; reflexivity|].
    cbn. repeat split; try reflexivity; discriminate.
Qed.

(** *** A tripped circuit breaker *)

(** X27. While the circuit breaker is tripped no order is
    dispatched: a trading cycle leaves the counts of successful and of
    failed trades as they were, and the result it returns carries no
    execution plan and no order result. When the cycle got as far as the
    risk metrics, these forbid trading at the extreme level and the cycle
    is counted as rejected by risk. *)
Theorem X27_tripped_breaker_blocks_dispatch (R : Runtime) (o : Orchestrator.t)
    (env : Orchestrator.Env) (raw : option market.Data) :
  RiskCalculator.circuitBreakerActive (Orchestrator.riskCalculator o) = true ->
  let o' := fst (Orchestrator.ExecuteTradingCycle R o env raw) in
  Orchestrator.successfulTrades o' = Orchestrator.successfulTrades o
  /\ Orchestrator.failedTrades o' = Orchestrator.failedTrades o
  /\ forall result err,
       snd (Orchestrator.ExecuteTradingCycle R o env raw)
       = Returns (result, err) ->
       TradingCycleResult.ExecutionPlan result = None
       /\ TradingCycleResult.OrderResult result = None
       /\ forall m,
            TradingCycleResult.RiskMetrics result = Some m ->
            RiskMetrics.CanTrade m = false
            /\ RiskMetrics.RiskLevel m = "extreme"
            /\ Orchestrator.rejectedByRisk o'
               = int_succ (Orchestrator.rejectedByRisk o).
Proof.
  intros Hactive. cbv zeta.
  unfold Orchestrator.ExecuteTradingCycle. cbv zeta.
  repeat first
    [ known_stage
    | match goal with
      | |- context [RiskCalculator.CalculateRiskMetrics ?R ?rc ?dir (Some ?d)] =>
          let m := fresh "m" in
          let E := fresh "Hmetrics" in
          let Hcan := fresh "Hcan" in
          let Hlevel := fresh "Hlevel" in
          destruct (tripped_metrics R rc dir d Hactive)
            as (m & E & Hcan & Hlevel & _);
          rewrite E; cbv beta iota; rewrite Hcan; cbn [negb]
      | |- context [match ?x with _ => _ end] => destruct x eqn:?
      end ];
    cbn [fst snd]; (split; [reflexivity|]); (split; [reflexivity|]);
    intros result err H; try discriminate; injection H as <- <-;
    cbn; (split; [reflexivity|]); (split; [reflexivity|]);
    intros m0 Hm0; try discriminate;
    injection Hm0 as <-; repeat split; assumption.
Qed.

Lemma X27_tripped_breaker_blocks_dispatch_witness :
  let o :=
    Orchestrator.withComponents Fixtures.orchestrator
      Samples.trippedCalculator
      (Orchestrator.decisionMaker Fixtures.orchestrator)
      (Orchestrator.riskValidator Fixtures.orchestrator) in
  let o' :=
    fst (Orchestrator.ExecuteTradingCycle Fixtures.runtime o
           (Fixtures.environment Fixtures.someTime Fixtures.unreachable)
           (Some Fixtures.getTestMarketData)) in
  Orchestrator.successfulTrades o' = 0 /\ Orchestrator.failedTrades o' = 0.
Proof.
  intros o o'.
  destruct (X27_tripped_breaker_blocks_dispatch Fixtures.runtime o
              (Fixtures.environment Fixtures.someTime Fixtures.unreachable)
              (Some Fixtures.getTestMarketData) eq_refl) as (Hs & Hf & _).
  split; [exact Hs | exact Hf].
Defined.

Lemma cycle_keeps_sender (R : Runtime) (o : Orchestrator.t)
    (env : Orchestrator.Env) (raw : option market.Data) :
  Orchestrator.orderSender (fst (Orchestrator.ExecuteTradingCycle R o env raw))
  = Orchestrator.orderSender o.
Proof.
  unfold Orchestrator.ExecuteTradingCycle. cbv zeta.
  repeat mcase; reflexivity.
Qed.

Lemma dry_cycle_never_fails (R : Runtime) (o : Orchestrator.t)
    (env : Orchestrator.Env) (raw : option market.Data) :
  ExecutionLayerConfig.DryRun
    (OrderSender.config (Orchestrator.orderSender o)) = true ->
  Orchestrator.failedTrades (fst (Orchestrator.ExecuteTradingCycle R o env raw))
  = Orchestrator.failedTrades o
  /\ forall result err r,
       snd (Orchestrator.ExecuteTradingCycle R o env raw)
       = Returns (result, err) ->
       TradingCycleResult.OrderResult result = Some r ->
       OrderResult.Success r = true
       /\ TradingCycleResult.Success result = true
       /\ err = None
       /\ Orchestrator.successfulTrades
            (fst (Orchestrator.ExecuteTradingCycle R o env raw))
          = int_succ (Orchestrator.successfulTrades o).
Proof.
  intros Hdry. unfold Orchestrator.ExecuteTradingCycle. cbv zeta.
  repeat first
    [ known_stage
    | match goal with
      | |- context [OrderSender.SendOrder ?R ?os ?env ?plan] =>
          unfold OrderSender.SendOrder;
          cbn [Orchestrator.orderSender Orchestrator.withComponents
               Orchestrator.countExecution Orchestrator.withCounters];
          rewrite Hdry; unfold OrderSender.dryRunOrder;
          cbv beta iota; cbn [OrderResult.Success]
      | |- context [match ?x with _ => _ end] => destruct x eqn:?
      end ];
    cbn [fst snd]; (split; [reflexivity|]);
    intros result err r H; try discriminate; injection H as <- <-;
    cbn; intros Hr; try discriminate; injection Hr as <-;
    repeat split; reflexivity.
Qed.

Lemma call_keeps_sender (R : Runtime) (o : Orchestrator.t) (c : Call) :
  Orchestrator.orderSender (call R o c) = Orchestrator.orderSender o.
Proof.
  destruct c; try reflexivity. apply cycle_keeps_sender.
Qed.

(** X28. In a dry run nothing is ever counted as a failed trade:
    over any sequence of trading cycles and of the mutators, whatever the
    language model and the exchange answer, the count of failed trades
    stays as it was. A cycle that does dispatch its plan reports a
    successful order, returns a nil error and is counted as a successful
    trade. *)
Theorem X28_dry_run_never_fails (R : Runtime) (o : Orchestrator.t)
    (calls : list Call) :
  ExecutionLayerConfig.DryRun
    (OrderSender.config (Orchestrator.orderSender o)) = true ->
  Orchestrator.failedTrades (run R o calls) = Orchestrator.failedTrades o
  /\ forall env raw result err r,
       snd (Orchestrator.ExecuteTradingCycle R (run R o calls) env raw)
       = Returns (result, err) ->
       TradingCycleResult.OrderResult result = Some r ->
       OrderResult.Success r = true
       /\ TradingCycleResult.Success result = true
       /\ err = None
       /\ Orchestrator.successfulTrades
            (fst (Orchestrator.ExecuteTradingCycle R (run R o calls) env raw))
          = int_succ (Orchestrator.successfulTrades (run R o calls)).
Proof.
  intros Hdry.
  assert (Hrun : Orchestrator.failedTrades (run R o calls)
                 = Orchestrator.failedTrades o
                 /\ Orchestrator.orderSender (run R o calls)
                    = Orchestrator.orderSender o).
  { revert o Hdry. induction calls as [|c calls IH]; intros o Hdry.
    - split; reflexivity.
    - unfold run. cbn [fold_left]. fold (run R (call R o c) calls).
      destruct (IH (call R o c)) as [Hfailed Hsender].
      + rewrite call_keeps_sender. exact Hdry.
      + rewrite Hfailed, Hsender, call_keeps_sender. split; [|reflexivity].
        destruct c as [env raw| | | |]; try reflexivity.
        apply dry_cycle_never_fails. exact Hdry. }
  destruct Hrun as [Hfailed Hsender]. split; [exact Hfailed|].
  intros env raw. apply dry_cycle_never_fails. rewrite Hsender. exact Hdry.
Qed.

Lemma X28_dry_run_never_fails_witness :
  Orchestrator.failedTrades
    (run Fixtures.runtime Fixtures.orchestrator Fixtures.session) = 0.
Proof.
  exact (proj1 (X28_dry_run_never_fails Fixtures.runtime Fixtures.orchestrator
                  Fixtures.session eq_refl)).
Defined.

(** X29. A trading cycle returns an error only in two cases: the
    exchange refused the balance query, or the dispatch of the order
    failed outside a dry run; cleaning, decision, risk metrics and
    parameters never make it fail. It panics only for nil raw data,
    for a balance that lacks a float under total, available or
    used_margin, or when the decision maker panics on the cleaned
    record; building the plan
    from the computed parameters never panics. A wait decision ends the
    cycle with success and without risk metrics. *)
Theorem X29_cycle_failures (R : Runtime) (o : Orchestrator.t)
    (env : Orchestrator.Env) (raw : option market.Data) :
  let outcome := snd (Orchestrator.ExecuteTradingCycle R o env raw) in
  let balance := fst (GetBalance (Orchestrator.exchange env)) in
  (forall result e,
      outcome = Returns (result, Some e) ->
      snd (GetBalance (Orchestrator.exchange env)) = Some e
      \/ (ExecutionLayerConfig.DryRun
            (OrderSender.config (Orchestrator.orderSender o)) = false
          /\ exists plan,
               TradingCycleResult.ExecutionPlan result = Some plan
               /\ snd (OrderExecutor.ExecuteOrder
                         (OrderSender.orderExecutor (Orchestrator.orderSender o))
                         (OrderSender.executorEnv (Orchestrator.senderEnv env))
                         (Some plan)) = Some e))
  /\ (outcome = Panics ->
      raw = None
      \/ (forall x, balance !! "total" <> Some (VFloat x))
      \/ (forall x, balance !! "available" <> Some (VFloat x))
      \/ (forall x, balance !! "used_margin" <> Some (VFloat x))
      \/ exists d,
           snd (DecisionMaker.MakeDecision R (Orchestrator.decisionMaker o)
                  (Orchestrator.decisionEnv env) (Some d)) = Panics)
  /\ (forall result err decision,
        outcome = Returns (result, err) ->
        TradingCycleResult.AIDecision result = Some decision ->
        AIDecision.Direction decision = DirectionWait ->
        err = None
        /\ TradingCycleResult.Success result = true
        /\ TradingCycleResult.RiskMetrics result = None
        /\ TradingCycleResult.OrderResult result = None).
Proof.
  cbv zeta. unfold Orchestrator.ExecuteTradingCycle, Orchestrator.exchange,
              OrderExecutor.GetAccountBalance.
  cbv zeta.
  repeat first
    [ known_stage
    | match goal with
      | |- context [RiskCalculator.CalculateRiskMetrics ?R ?rc ?dir (Some ?d)] =>
          let m := fresh "m" in
          let E := fresh "Hmetrics" in
          destruct (risk_metrics_returned R rc dir d) as (m & E);
          rewrite E; cbv beta iota
      | H : DecisionMaker.MakeDecision _ _ _ _ = (_, Returns (_, Some _)) |- _ =>
          apply MakeDecision_no_error in H; discriminate
      | |- context [match ?x with _ => _ end] => destruct x eqn:?
      end ];
    cbn [fst snd];
    (split; [intros result' e' H'; try discriminate; injection H' as <- <-|]);
    try (split; [intros H'; try discriminate|]);
    try (intros result' err' decision' H' Hd Hw; try discriminate;
         injection H' as <- <-; cbn in Hd; try discriminate;
         injection Hd as <-;
         first [ repeat split; reflexivity
               | exfalso;
                 match goal with
                 | E : String.eqb _ DirectionWait = false |- _ =>
                     apply String.eqb_neq in E; congruence
                 end ]).
  all: try (left; reflexivity).
  all: try (right; left; intros ?; congruence).
  all: try (right; right; left; intros ?; congruence).
  all: try (right; right; right; left; intros ?; congruence).
  all: try (right; right; right; right;
            match goal with
            | E : DecisionMaker.MakeDecision _ _ _ (Some ?d) = (_, Panics) |- _ =>
                exists d; exact (f_equal snd E)
            end).
  all: match goal with
       | E : OrderSender.SendOrder _ _ _ _ = _ |- _ =>
           unfold OrderSender.SendOrder in E;
           cbn [Orchestrator.orderSender Orchestrator.withComponents
                Orchestrator.countExecution Orchestrator.withCounters] in E;
           match type of E with
           | (if ?c then _ else _) = _ =>
               destruct c eqn:Hdry;
               [unfold OrderSender.dryRunOrder in E; discriminate E|]
           end;
           right; split; [reflexivity|]; eexists; split; [reflexivity|];
           exact (f_equal snd E)
       end.
Qed.

Lemma cycle_risk_state (R : Runtime) (o : Orchestrator.t)
    (env : Orchestrator.Env) (raw : option market.Data) :
  let rc :=
    Orchestrator.riskCalculator
      (fst (Orchestrator.ExecuteTradingCycle R o env raw)) in
  RiskCalculator.config rc
  = RiskCalculator.config (Orchestrator.riskCalculator o)
  /\ RiskCalculator.circuitBreakerActive rc
     = RiskCalculator.circuitBreakerActive (Orchestrator.riskCalculator o)
  /\ RiskCalculator.consecutiveLosses rc
     = RiskCalculator.consecutiveLosses (Orchestrator.riskCalculator o)
  /\ RiskCalculator.dailyPnL rc
     = RiskCalculator.dailyPnL (Orchestrator.riskCalculator o).
Proof.
  unfold Orchestrator.ExecuteTradingCycle. cbv zeta.
  repeat mcase; cbn; repeat split; reflexivity.
Qed.

(** X30. With the circuit breaker disabled in the configuration it
    never trips: over any sequence of trading cycles and of the mutators,
    whatever the daily results and however long the losing streak, a
    breaker that is inactive stays inactive. Trading cycles themselves
    never change the breaker, the losing streak or the daily result. *)
Theorem X30_disabled_breaker_never_trips (R : Runtime) (o : Orchestrator.t)
    (calls : list Call) :
  DataLayerConfig.CircuitBreakerEnabled
    (RiskCalculator.config (Orchestrator.riskCalculator o)) = false ->
  RiskCalculator.circuitBreakerActive (Orchestrator.riskCalculator o) = false ->
  RiskCalculator.circuitBreakerActive
    (Orchestrator.riskCalculator (run R o calls)) = false
  /\ forall env raw,
       let rc :=
         Orchestrator.riskCalculator
           (fst (Orchestrator.ExecuteTradingCycle R (run R o calls) env raw)) in
       RiskCalculator.circuitBreakerActive rc = false
       /\ RiskCalculator.consecutiveLosses rc
          = RiskCalculator.consecutiveLosses
              (Orchestrator.riskCalculator (run R o calls))
       /\ RiskCalculator.dailyPnL rc
          = RiskCalculator.dailyPnL
              (Orchestrator.riskCalculator (run R o calls)).
Proof.
  intros Hoff Hinactive.
  assert (Hrun :
            DataLayerConfig.CircuitBreakerEnabled
              (RiskCalculator.config
                 (Orchestrator.riskCalculator (run R o calls))) = false
            /\ RiskCalculator.circuitBreakerActive
                 (Orchestrator.riskCalculator (run R o calls)) = false).
  { revert o Hoff Hinactive.
    induction calls as [|c calls IH]; intros o Hoff Hinactive.
    - split; assumption.
    - unfold run. cbn [fold_left]. fold (run R (call R o c) calls).
      apply IH.
      + destruct c as [env raw| | | |]; try exact Hoff.
        cbn [call].
        destruct (cycle_risk_state R o env raw) as (-> & _). exact Hoff.
      + destruct c as [env raw|total available used|pnl|isWin|].
        * cbn [call].
          destruct (cycle_risk_state R o env raw) as (_ & -> & _).
          exact Hinactive.
        * exact Hinactive.
        * cbn. rewrite Hoff. exact Hinactive.
        * cbn. rewrite Hoff. exact Hinactive.
        * reflexivity. }
  destruct Hrun as [_ Hstill]. split; [exact Hstill|].
  intros env raw.
  destruct (cycle_risk_state R (run R o calls) env raw)
    as (_ & Hb & Hl & Hp).
  cbv zeta in *. rewrite Hb, Hl, Hp. repeat split. exact Hstill.
Qed.

Lemma X30_disabled_breaker_never_trips_witness :
  RiskCalculator.circuitBreakerActive
    (Orchestrator.riskCalculator
       (run Fixtures.runtime Fixtures.orchestrator Fixtures.session)) = false.
Proof.
  exact (proj1 (X30_disabled_breaker_never_trips Fixtures.runtime
                  Fixtures.orchestrator Fixtures.session eq_refl eq_refl)).
Defined.
